(** * scenarioFromOSM: the pipeline orchestrator of SUMOActivityGen

    A shallow embedding of [scenarioFromOSM.py].  The script turns one OSM
    extract into a SUMO scenario by running a fixed sequence of external
    tools inside an output directory, merging two parking files and finally
    rewriting the [route-files] entry of [osm.sumocfg].

    The embedding follows the script function by function:
    - Python [str] values are [string]s, with [in] and [strip] written out;
    - an [xml.etree.ElementTree.Element] is a tree whose [attrib] is a
      dictionary ([gmap string string]) and whose children form a list;
      an element reached through a reference into a tree is a position in
      that tree, so that assigning through the reference updates the tree;
    - the file system is a tree of directories, a directory being the list
      of its entries in the order [os.listdir] reports them;
    - the statements of the script run in a small state-and-exception monad
      over a [world] (file system, working directory, trace of effects);
    - the external collaborators are the fields of a record, so that every
      statement holds for whatever they do. *)

From Stdlib Require Import ZArith Ascii String.
From stdpp Require Import base option list strings gmap.

Local Open Scope string_scope.
Local Open Scope list_scope.

(** ** Python strings *)

Module Str.

(** [needle in hay]. *)
Fixpoint contains (needle hay : string) : bool :=
  String.prefix needle hay ||
  match hay with
  | "" => false
  | String _ rest => contains needle rest
  end.

(** [s.lstrip(c)] for a one-character set. *)
Fixpoint lstrip (c : ascii) (s : string) : string :=
  match s with
  | "" => ""
  | String a rest => if Ascii.eqb a c then lstrip c rest else s
  end.

(** [s.rstrip(c)] for a one-character set. *)
Fixpoint rstrip (c : ascii) (s : string) : string :=
  match s with
  | "" => ""
  | String a rest =>
      match rstrip c rest with
      | "" => if Ascii.eqb a c then "" else String a ""
      | r => String a r
      end
  end.

(** [s.strip(c)]. *)
Definition strip (c : ascii) (s : string) : string := rstrip c (lstrip c s).

(** [s.split(c)]: the fields between the occurrences of [c]. *)
Fixpoint split (c : ascii) (s : string) : list string :=
  match s with
  | "" => [""]
  | String a rest =>
      if Ascii.eqb a c then "" :: split c rest
      else match split c rest with
           | [] => [String a ""]
           | field :: fields => String a field :: fields
           end
  end.

(** [os.path.basename]: what follows the last slash. *)
Definition basename (p : string) : string := List.last (split "/" p) "".

End Str.

(** ** ElementTree *)

(** An [Element]: tag, attribute dictionary, text, tail and children. *)
#[warnings="-register-all"] Inductive Element : Type :=
  mkElement {
    tag : string;
    attrib : gmap string string;
    text : option string;
    tail : option string;
    children : list Element
  }.

Definition with_attrib (e : Element) (a : gmap string string) : Element :=
  mkElement (tag e) a (text e) (tail e) (children e).

Definition with_children (e : Element) (cs : list Element) : Element :=
  mkElement (tag e) (attrib e) (text e) (tail e) cs.

(** [e.append(child)]. *)
Definition append (child : Element) (e : Element) : Element :=
  with_children e (children e ++ [child]).

(** [e.attrib[k] = v]. *)
Definition set_attrib (k v : string) (e : Element) : Element :=
  with_attrib e (<[k := v]> (attrib e)).

(** A reference to an element inside a tree: the child indices leading to
    it from the root. *)
Definition position := list nat.

(** The element a reference denotes. *)
Fixpoint elem_at (p : position) (e : Element) : option Element :=
  match p with
  | [] => Some e
  | i :: p' =>
      match children e !! i with
      | Some c => elem_at p' c
      | None => None
      end
  end.

(** Mutation through a reference: the tree in which the element at [p] has
    been replaced by its image under [f]. *)
Fixpoint update_at (p : position) (f : Element -> Element) (e : Element) : Element :=
  match p with
  | [] => f e
  | i :: p' =>
      match children e !! i with
      | Some c => with_children e (<[i := update_at p' f c]> (children e))
      | None => e
      end
  end.

(** [e.iter(t)]: the element itself and all elements below it, in document
    order, restricted to those whose tag is [t]. *)
Fixpoint iter (t : string) (e : Element) : list position :=
  match e with
  | mkElement tg _ _ _ cs =>
      (if decide (tg = t) then [[]] else []) ++
      (fix below (i : nat) (l : list Element) : list position :=
         match l with
         | [] => []
         | c :: r => map (cons i) (iter t c) ++ below (S i) r
         end) 0 cs
  end.

(** What an element holds apart from its children. *)
Definition own (e : Element) : string * gmap string string * option string * option string :=
  (tag e, attrib e, text e, tail e).

(** The tree with attribute [k] forgotten on every element tagged [t]:
    two trees with the same image differ at most in those attributes. *)
Fixpoint forget (t k : string) (e : Element) : Element :=
  match e with
  | mkElement tg a tx tl cs =>
      mkElement tg (if decide (tg = t) then delete k a else a) tx tl
        (map (forget t k) cs)
  end.

(** ** The file system *)

Inductive content : Type :=
| XmlDoc (root : Element)
| Blob (data : string).

#[warnings="-register-all"] Inductive node : Type :=
| File (c : content)
| Dir (entries : list (string * node)).

(** Directory entries, in listing order. *)
Fixpoint entry_lookup (name : string) (es : list (string * node)) : option node :=
  match es with
  | [] => None
  | (n, x) :: rest => if decide (n = name) then Some x else entry_lookup name rest
  end.

(** An existing entry is replaced where it stands, a new one comes last. *)
Fixpoint entry_set (name : string) (x : node) (es : list (string * node))
  : list (string * node) :=
  match es with
  | [] => [(name, x)]
  | (n, y) :: rest =>
      if decide (n = name) then (n, x) :: rest else (n, y) :: entry_set name x rest
  end.

(** Absolute paths are lists of components below the root. *)
Definition abspath := list string.

Fixpoint fs_lookup (p : abspath) (n : node) : option node :=
  match p with
  | [] => Some n
  | c :: p' =>
      match n with
      | File _ => None
      | Dir es =>
          match entry_lookup c es with
          | Some child => fs_lookup p' child
          | None => None
          end
      end
  end.

(** Store [x] at [p]; the directory that is to hold it must exist. *)
Fixpoint fs_put (p : abspath) (x : node) (n : node) : option node :=
  match p with
  | [] => None
  | c :: p' =>
      match n with
      | File _ => None
      | Dir es =>
          match p' with
          | [] => Some (Dir (entry_set c x es))
          | _ :: _ =>
              match entry_lookup c es with
              | Some child =>
                  match fs_put p' x child with
                  | Some child' => Some (Dir (entry_set c child' es))
                  | None => None
                  end
              | None => None
              end
          end
      end
  end.

(** [os.makedirs(p, exist_ok=True)]: the missing directories along [p] are
    created; a file in the way is an error. *)
Fixpoint fs_makedirs (p : abspath) (n : node) : option node :=
  match p with
  | [] => match n with Dir _ => Some n | File _ => None end
  | c :: p' =>
      match n with
      | File _ => None
      | Dir es =>
          match fs_makedirs p' (default (Dir []) (entry_lookup c es)) with
          | Some child' => Some (Dir (entry_set c child' es))
          | None => None
          end
      end
  end.

(** Paths are resolved lexically (there are no symbolic links): empty and
    ["."] components are skipped, [".."] drops the last component.  The
    operating system, which looks every component up in turn, arrives at
    the same place whenever the directories named on the way exist; it
    fails where a component before a ["."] or [".."] is missing or is a
    regular file.  A statement that depends on the difference asks for a
    path made of proper names. *)
Definition norm_step (acc : abspath) (c : string) : abspath :=
  if decide (c = "" ∨ c = ".") then acc
  else if decide (c = "..") then removelast acc
  else acc ++ [c].

Definition resolve (cwd : abspath) (p : string) : abspath :=
  fold_left norm_step (Str.split "/" p) (if String.prefix "/" p then [] else cwd).

(** ** The world and the monad of the script *)

(** The module-level functions [main] calls, in the order of the file. *)
Inductive pyfun : Type :=
| call_netconvert
| call_pt_lines_to_flows
| call_generate_parking_areas_from_osm
| merge_parking_files
| call_generate_parking_area_rerouters
| call_polyconvert
| call_generate_taz_buildings_from_osm
| call_generate_amitran_from_taz_weights
| call_generate_defaults_activitygen
| call_activitygen
| add_rou_to_default_sumocfg
| call_sumo.

(** What a run does to its surroundings.  An effect of the operating system
    is recorded once it has happened; a call is recorded when it is made. *)
Inductive event : Type :=
| EvProfiler (enabled : bool)
| EvPrint
| EvLog (msg : string)
| EvMakedirs (p : string)
| EvCopy (src dst : string)
| EvChdir (p : string)
| EvListdir
| EvParse (file : string)
| EvWrite (file : string)
| EvSpawn (argv : list string)
| EvMain (module : string) (args : list string)
| EvEnter (f : pyfun).

Inductive exn : Type :=
| FileNotFoundError
| FileExistsError
| NotADirectoryError
| IsADirectoryError
| SameFileError
| ParseError
| OSError
| SystemExit (code : Z)
| Exception (what : string).

Inductive result (A : Type) : Type :=
| Ok (a : A)
| Raise (e : exn).
Arguments Ok {A} a.
Arguments Raise {A} e.

Record world : Type := mkWorld {
  fs : node;
  cwd : abspath;
  trace : list event
}.

Definition M (A : Type) : Type := world -> result A * world.

#[global] Instance M_ret : MRet M := fun A a w => (Ok a, w).

#[global] Instance M_bind : MBind M := fun A B f m w =>
  match m w with
  | (Ok a, w') => f a w'
  | (Raise e, w') => (Raise e, w')
  end.

Definition raise {A : Type} (e : exn) : M A := fun w => (Raise e, w).

Definition emit (ev : event) : M unit := fun w =>
  (Ok tt, mkWorld (fs w) (cwd w) (trace w ++ [ev])).

(** A statement guarded by a condition, with no [else]. *)
Definition when (b : bool) (m : M unit) : M unit := if b then m else mret tt.

(** ** Operating-system and library calls *)

(** [os.makedirs(p, exist_ok=True)]: missing directories on the way are
    created with the last one.  A regular file where the last directory is
    to be raises [FileExistsError], a regular file further up raises
    [NotADirectoryError]. *)
Definition os_makedirs (p : string) : M unit := fun w =>
  if decide (p = "") then (Raise FileNotFoundError, w)
  else match fs_makedirs (resolve (cwd w) p) (fs w) with
       | Some fs' => (Ok tt, mkWorld fs' (cwd w) (trace w ++ [EvMakedirs p]))
       | None =>
           match fs_lookup (resolve (cwd w) p) (fs w) with
           | Some (File _) => (Raise FileExistsError, w)
           | _ => (Raise NotADirectoryError, w)
           end
       end.

(** Where [shutil.copy(src, dst)] writes: inside [dst] when that is a
    directory, under the base name of [src]. *)
Definition copy_target (src dst : string) (w : world) : abspath :=
  let d := resolve (cwd w) dst in
  match fs_lookup d (fs w) with
  | Some (Dir _) => norm_step d (Str.basename src)
  | _ => d
  end.

(** [shutil.copy(src, dst)]. *)
Definition shutil_copy (src dst : string) : M unit := fun w =>
  if decide (src = "" ∨ dst = "") then (Raise FileNotFoundError, w)
  else
    let s := resolve (cwd w) src in
    let t := copy_target src dst w in
    match fs_lookup s (fs w) with
    | None => (Raise FileNotFoundError, w)
    | Some (Dir _) => (Raise IsADirectoryError, w)
    | Some (File c) =>
        if decide (s = t) then (Raise SameFileError, w)
        else match fs_lookup t (fs w) with
             | Some (Dir _) => (Raise IsADirectoryError, w)
             | _ =>
                 match fs_put t (File c) (fs w) with
                 | Some fs' => (Ok tt, mkWorld fs' (cwd w) (trace w ++ [EvCopy src dst]))
                 | None => (Raise FileNotFoundError, w)
                 end
             end
    end.

(** [os.chdir(p)]. *)
Definition os_chdir (p : string) : M unit := fun w =>
  if decide (p = "") then (Raise FileNotFoundError, w)
  else match fs_lookup (resolve (cwd w) p) (fs w) with
       | Some (Dir _) =>
           (Ok tt, mkWorld (fs w) (resolve (cwd w) p) (trace w ++ [EvChdir p]))
       | _ => (Raise FileNotFoundError, w)
       end.

(** [os.listdir()]: the names in the working directory. *)
Definition os_listdir : M (list string) := fun w =>
  match fs_lookup (cwd w) (fs w) with
  | Some (Dir es) => (Ok (map fst es), mkWorld (fs w) (cwd w) (trace w ++ [EvListdir]))
  | _ => (Raise FileNotFoundError, w)
  end.

(** [ElementTree.parse(file).getroot()]. *)
Definition xml_parse (file : string) : M Element := fun w =>
  if decide (file = "") then (Raise FileNotFoundError, w)
  else match fs_lookup (resolve (cwd w) file) (fs w) with
       | Some (File (XmlDoc root)) =>
           (Ok root, mkWorld (fs w) (cwd w) (trace w ++ [EvParse file]))
       | Some (File (Blob _)) => (Raise ParseError, w)
       | Some (Dir _) => (Raise IsADirectoryError, w)
       | None => (Raise FileNotFoundError, w)
       end.

(** [ElementTree.ElementTree(root).write(open(file, 'wb'))].  A file that
    holds XML is kept as the tree it parses to: what the serialisation does
    to the bytes (the declaration and the comments it drops, the characters
    it escapes) is outside the model, and equality of two file systems says
    nothing about the bytes of a file that has been written. *)
Definition xml_write (file : string) (root : Element) : M unit := fun w =>
  if decide (file = "") then (Raise FileNotFoundError, w)
  else
    let t := resolve (cwd w) file in
    match fs_lookup t (fs w) with
    | Some (Dir _) => (Raise IsADirectoryError, w)
    | _ =>
        match fs_put t (File (XmlDoc root)) (fs w) with
        | Some fs' => (Ok tt, mkWorld fs' (cwd w) (trace w ++ [EvWrite file]))
        | None => (Raise FileNotFoundError, w)
        end
    end.

(** [logging.info(msg)]. *)
Definition logging_info (msg : string) : M unit := emit (EvLog msg).

(** ** The collaborators *)

(** The namespace [get_options] returns. *)
Record options : Type := mkOptions {
  osm_file : string;
  out_dir : string;
  profiling : bool;
  left_hand_traffic : bool
}.

(** A collaborator entered through its [main]: from its argument list, the
    working directory and the file system it returns or raises, and leaves
    a working directory and a file system behind. *)
Definition entry_point : Type :=
  list string -> abspath -> node -> result unit * abspath * node.

(** Everything the script reaches outside itself.  [get_options] is the
    function of that name, that is the [argparse] parser it builds: it
    returns the namespace or leaves with [SystemExit]; [spawn] runs an executable in the working
    directory and yields its exit status and the file system it leaves, or
    nothing when no process could be started; [ptlines2flows] stands for
    [ptlines2flows.get_options] followed by [ptlines2flows.main]. *)
Record externals : Type := mkExternals {
  get_options : list string -> result options;
  spawn : list string -> abspath -> node -> option (Z * node);
  ptlines2flows : entry_point;
  generateParkingAreasFromOSM : entry_point;
  generateParkingAreaRerouters : entry_point;
  generateTAZBuildingsFromOSM : entry_point;
  generateAmitranFromTAZWeights : entry_point;
  generateDefaultsActivityGen : entry_point;
  activitygen : entry_point;
  sumo_tools_importable : string -> bool
}.

(** [subprocess.call(argv)]: the exit status of the process. *)
Definition subprocess_call (E : externals) (argv : list string) : M Z := fun w =>
  match spawn E argv (cwd w) (fs w) with
  | Some (status, fs') =>
      (Ok status, mkWorld fs' (cwd w) (trace w ++ [EvSpawn argv]))
  | None => (Raise OSError, w)
  end.

(** [module.main(args)]. *)
Definition call_main (module : string) (tool : entry_point) (args : list string)
  : M unit := fun w =>
  let '(r, cwd', fs') := tool args (cwd w) (fs w) in
  (r, mkWorld fs' cwd' (trace w ++ [EvMain module args])).

(** ** The script *)

Definition DEFAULT_NETCONVERT := "osm.netccfg".
Definition DEFAULT_NET_XML := "osm.net.xml".
Definition DEFAULT_PT_STOPS_XML := "osm_stops.add.xml".
Definition DEFAULT_PT_LINES := "osm_ptlines.xml".
Definition DEFAULT_SIDE_PARKING_XML := "osm_parking.xml".
Definition DEFAULT_PT_FLOWS := "osm_pt.rou.xml".
Definition DEFAULT_PARKING_AREAS := "osm_parking_areas.add.xml".
Definition DEFAULT_COMPLETE_PARKING_XML := "osm_complete_parking_areas.add.xml".
Definition DEFAULT_PARKING_REROUTERS_XML := "osm_parking_rerouters.add.xml".
Definition DEFAULT_POLY_XML := "osm_polygons.add.xml".
Definition DEFAULT_TAZ_OUTPUT_XML := "osm_taz.xml".
Definition DEFAULT_OD_OUTPUT_CSV := "osm_taz_weight.csv".
Definition DEFAULT_BUILDINGS_PREFIX := "buildings/osm_buildings".
Definition DEFAULT_ODMATRIX_AMITRAN_XML := "osm_odmatrix_amitran.xml".
Definition DEAFULT_GENERIC_AG_CONG := "activitygen.json".
Definition DEAFULT_SPECIFIC_AG_CONG := "osm_activitygen.json".
Definition DEFAULT_SUMOCFG := "osm.sumocfg".

(** The list [_call_netconvert] builds before it spawns the process. *)
Definition netconvert_options (filename : string) (lefthand : bool) : list string :=
  let netconvert_options :=
    ["netconvert";
     "-c"; DEFAULT_NETCONVERT;
     "--osm"; filename;
     "-o"; DEFAULT_NET_XML;
     "--ptstop-output"; DEFAULT_PT_STOPS_XML;
     "--ptline-output"; DEFAULT_PT_LINES;
     "--parking-output"; DEFAULT_SIDE_PARKING_XML] in
  if lefthand then netconvert_options ++ ["--lefthand"] else netconvert_options.

Definition polyconvert_options (filename : string) : list string :=
  ["polyconvert"; "--osm"; filename; "--net"; DEFAULT_NET_XML; "-o"; DEFAULT_POLY_XML].

Definition sumo_options : list string := ["sumo"; "-c"; DEFAULT_SUMOCFG].

Section Script.

Context (E : externals).

Definition _call_netconvert (filename : string) (lefthand : bool) : M unit :=
  subprocess_call E (netconvert_options filename lefthand) ;; mret tt.

Definition _call_pt_lines_to_flows : M unit :=
  call_main "ptlines2flows" (ptlines2flows E)
    ["-n"; DEFAULT_NET_XML; "-e"; "86400"; "-p"; "600"; "--random-begin";
     "--seed"; "42"; "--ptstops"; DEFAULT_PT_STOPS_XML;
     "--ptlines"; DEFAULT_PT_LINES; "-o"; DEFAULT_PT_FLOWS;
     "--ignore-errors"; "--vtype-prefix"; "pt_"; "--verbose"].

Definition _call_generate_parking_areas_from_osm (filename : string) : M unit :=
  call_main "generateParkingAreasFromOSM" (generateParkingAreasFromOSM E)
    ["--osm"; filename; "--net"; DEFAULT_NET_XML; "--out"; DEFAULT_PARKING_AREAS].

(** The loop [for element in parking_areas_struct: side_parking_struct.append(element)]. *)
Definition merge_roots (side_parking_struct parking_areas_struct : Element) : Element :=
  fold_left (fun side element => append element side)
    (children parking_areas_struct) side_parking_struct.

Definition _merge_parking_files (side_parking parking_areas complete_parking : string)
  : M unit :=
  side_parking_struct ← xml_parse side_parking;
  parking_areas_struct ← xml_parse parking_areas;
  xml_write complete_parking (merge_roots side_parking_struct parking_areas_struct).

Definition _call_generate_parking_area_rerouters : M unit :=
  call_main "generateParkingAreaRerouters" (generateParkingAreaRerouters E)
    ["-a"; DEFAULT_COMPLETE_PARKING_XML; "-n"; DEFAULT_NET_XML;
     "--max-number-alternatives"; "10";
     "--max-distance-alternatives"; "1000.0";
     "--min-capacity-visibility-true"; "50";
     "--max-distance-visibility-true"; "1000.0";
     "-o"; DEFAULT_PARKING_REROUTERS_XML].

Definition _call_polyconvert (filename : string) : M unit :=
  subprocess_call E (polyconvert_options filename) ;; mret tt.

Definition _call_generate_taz_buildings_from_osm (filename : string) : M unit :=
  call_main "generateTAZBuildingsFromOSM" (generateTAZBuildingsFromOSM E)
    ["--osm"; filename; "--net"; DEFAULT_NET_XML;
     "--taz-output"; DEFAULT_TAZ_OUTPUT_XML;
     "--od-output"; DEFAULT_OD_OUTPUT_CSV;
     "--poly-output"; DEFAULT_BUILDINGS_PREFIX].

Definition _call_generate_amitran_from_taz_weights : M unit :=
  call_main "generateAmitranFromTAZWeights" (generateAmitranFromTAZWeights E)
    ["--taz-weights"; DEFAULT_OD_OUTPUT_CSV;
     "--out"; DEFAULT_ODMATRIX_AMITRAN_XML;
     "--density"; "3000.0"].

Definition _call_generate_defaults_activitygen : M unit :=
  call_main "generateDefaultsActivityGen" (generateDefaultsActivityGen E)
    ["--conf"; DEAFULT_GENERIC_AG_CONG;
     "--od-amitran"; DEFAULT_ODMATRIX_AMITRAN_XML;
     "--out"; DEAFULT_SPECIFIC_AG_CONG].

Definition _call_activitygen : M unit :=
  call_main "activitygen" (activitygen E) ["-c"; DEAFULT_SPECIFIC_AG_CONG].

(** The loop over [os.listdir()], [route_files] being the accumulator. *)
Fixpoint collect_route_files (items : list string) (route_files : string) : string :=
  match items with
  | [] => route_files
  | item :: rest =>
      collect_route_files rest
        (if Str.contains ".rou.xml" item then route_files +:+ (item +:+ ",")
         else route_files)
  end.

(** The value written: the collected names without the commas at the ends. *)
Definition route_files_value (items : list string) : string :=
  Str.strip "," (collect_route_files items "").

(** The loop [for field in xml_tree.iter('route-files'): field.attrib['value'] = ...].
    The loop assigns through references into [xml_tree]; it changes no tag
    and no child list, so the references [iter] yields stay the same. *)
Definition set_route_files (route_files : string) (xml_tree : Element) : Element :=
  fold_left (fun tree field => update_at field (set_attrib "value" route_files) tree)
    (iter "route-files" xml_tree) xml_tree.

Definition _add_rou_to_default_sumocfg : M unit :=
  items ← os_listdir;
  xml_tree ← xml_parse DEFAULT_SUMOCFG;
  xml_write DEFAULT_SUMOCFG (set_route_files (route_files_value items) xml_tree).

Definition _call_sumo : M unit :=
  subprocess_call E sumo_options ;; mret tt.

(** A call of one of the functions above from [main]. *)
Definition invoke (f : pyfun) (body : M unit) : M unit := emit (EvEnter f) ;; body.

Definition main (cmd_args : list string) : M unit :=
  match get_options E cmd_args with
  | Raise e => raise e
  | Ok args =>
      when (profiling args) (emit (EvProfiler true)) ;;
      os_makedirs (out_dir args) ;;
      shutil_copy (osm_file args) (out_dir args) ;;
      let osm := Str.basename (osm_file args) in
      shutil_copy "defaults/activitygen.json" (out_dir args) ;;
      shutil_copy "defaults/basic.vType.xml" (out_dir args) ;;
      shutil_copy "defaults/duarouter.sumocfg" (out_dir args) ;;
      shutil_copy "defaults/osm.netccfg" (out_dir args) ;;
      shutil_copy "defaults/osm.sumocfg" (out_dir args) ;;
      os_chdir (out_dir args) ;;
      logging_info "Generate the net.xml with all the additional components (public transports, parkings, ..)" ;;
      invoke call_netconvert (_call_netconvert osm (left_hand_traffic args)) ;;
      logging_info "Generate flows for public transportation using ptlines2flows." ;;
      invoke call_pt_lines_to_flows _call_pt_lines_to_flows ;;
      logging_info "Generate parking area location and possibly merge it with the one provided by netconvert." ;;
      invoke call_generate_parking_areas_from_osm
        (_call_generate_parking_areas_from_osm osm) ;;
      invoke merge_parking_files
        (_merge_parking_files DEFAULT_SIDE_PARKING_XML DEFAULT_PARKING_AREAS
           DEFAULT_COMPLETE_PARKING_XML) ;;
      logging_info "Generate parking area rerouters using tools/generateParkingAreaRerouters.py" ;;
      invoke call_generate_parking_area_rerouters _call_generate_parking_area_rerouters ;;
      logging_info "Generate polygons using polyconvert." ;;
      invoke call_polyconvert (_call_polyconvert osm) ;;
      logging_info "Generate TAZ from administrative boundaries, TAZ weights using buildings and  PoIs and the buildings infrastructure." ;;
      os_makedirs "buildings" ;;
      invoke call_generate_taz_buildings_from_osm
        (_call_generate_taz_buildings_from_osm osm) ;;
      logging_info "Generate the default values for the activity based mobility generator. " ;;
      invoke call_generate_amitran_from_taz_weights
        _call_generate_amitran_from_taz_weights ;;
      invoke call_generate_defaults_activitygen _call_generate_defaults_activitygen ;;
      logging_info "Mobility generation using SUMOActivityGen." ;;
      invoke call_activitygen _call_activitygen ;;
      logging_info "Generate the SUMO configuration file and launch sumo-gui." ;;
      invoke add_rou_to_default_sumocfg _add_rou_to_default_sumocfg ;;
      invoke call_sumo _call_sumo ;;
      when (profiling args) (emit (EvProfiler false) ;; emit EvPrint) ;;
      logging_info "Done."
  end.

(** How the interpreter leaves. *)
Inductive termination : Type :=
| Finished
| ExitMessage (msg : string)
| ExitCode (code : Z)
| Traceback (e : exn).

Definition exit_status (t : termination) : Z :=
  match t with
  | Finished => 0
  | ExitMessage _ => 1
  | ExitCode code => code
  | Traceback _ => 1
  end.

(** The module run as a program: the check of [SUMO_HOME] with the imports
    it guards, then [logs()] (which only configures the logger) and
    [main(sys.argv[1:])].  The modules imported before the check belong to
    the repository and are taken to load. *)
Definition program (environ : gmap string string) (argv : list string) (w : world)
  : termination * world :=
  match environ !! "SUMO_HOME" with
  | Some home =>
      if sumo_tools_importable E home then
        match main argv w with
        | (Ok _, w') => (Finished, w')
        | (Raise (SystemExit code), w') => (ExitCode code, w')
        | (Raise e, w') => (Traceback e, w')
        end
      else (Traceback (Exception "ModuleNotFoundError"), w)
  | None => (ExitMessage "please declare environment variable 'SUMO_HOME'", w)
  end.

End Script.

(** ** Observations *)

(** The names [os.listdir()] would report. *)
Definition listing (w : world) : option (list string) :=
  match fs_lookup (cwd w) (fs w) with
  | Some (Dir es) => Some (map fst es)
  | _ => None
  end.

(** The document stored under a name of the working directory. *)
Definition document (file : string) (w : world) : option Element :=
  match fs_lookup (resolve (cwd w) file) (fs w) with
  | Some (File (XmlDoc root)) => Some root
  | _ => None
  end.

(** A name the rewriter takes for a route file. *)
Definition is_route_file (item : string) : bool := Str.contains ".rou.xml" item.

(** The functions [main] called, oldest first. *)
Definition calls (tr : list event) : list pyfun :=
  omap (fun ev => match ev with EvEnter f => Some f | _ => None end) tr.

(** The stage table of the specification: position, name of the stage, and
    the function of the script that runs it. *)
Definition stage_table : list (nat * string * pyfun) :=
  [(1, "Network conversion", call_netconvert);
   (2, "PT-line to flow conversion", call_pt_lines_to_flows);
   (3, "Parking-area extraction", call_generate_parking_areas_from_osm);
   (4, "Parking merge", merge_parking_files);
   (5, "Parking rerouter generation", call_generate_parking_area_rerouters);
   (6, "Polygon conversion", call_polyconvert);
   (7, "TAZ/building extraction", call_generate_taz_buildings_from_osm);
   (8, "OD-matrix synthesis", call_generate_amitran_from_taz_weights);
   (9, "Activity-generator defaults", call_generate_defaults_activitygen);
   (10, "Mobility generation", call_activitygen)].

(** The ten stages, then the rewriter, then the simulator. *)
Definition full_sequence : list pyfun :=
  map snd stage_table ++ [add_rou_to_default_sumocfg; call_sumo].

(** The five templates of the [defaults] folder. *)
Definition templates : list string :=
  ["activitygen.json"; "basic.vType.xml"; "duarouter.sumocfg"; "osm.netccfg";
   "osm.sumocfg"].

(** What a run has done when it changes its working directory. *)
Definition initialisation (args : options) : list event :=
  (if profiling args then [EvProfiler true] else []) ++
  [EvMakedirs (out_dir args); EvCopy (osm_file args) (out_dir args)] ++
  map (fun t => EvCopy ("defaults/" +:+ t) (out_dir args)) templates ++
  [EvChdir (out_dir args)].

(** The collaborators with every exit status replaced by [0]. *)
Definition always_succeeding (E : externals) : externals :=
  mkExternals (get_options E)
    (fun argv d n =>
       match spawn E argv d n with
       | Some (_, n') => Some (0%Z, n')
       | None => None
       end)
    (ptlines2flows E) (generateParkingAreasFromOSM E)
    (generateParkingAreaRerouters E) (generateTAZBuildingsFromOSM E)
    (generateAmitranFromTAZWeights E) (generateDefaultsActivityGen E)
    (activitygen E) (sumo_tools_importable E).

(** A file can be written under the name: there is no directory of that
    name and the directory that is to hold the file exists. *)
Definition writable (file : string) (w : world) : bool :=
  bool_decide (file <> "") &&
  match fs_lookup (resolve (cwd w) file) (fs w) with
  | Some (Dir _) => false
  | _ => bool_decide (is_Some (fs_put (resolve (cwd w) file) (File (Blob "")) (fs w)))
  end.

(** ** A small installation to run the script on *)

Module Demo.

Definition leaf (t : string) : Element := mkElement t ∅ None None [].

Definition additional (n : nat) (t : string) : Element :=
  mkElement "additional" {[ "id" := t ]} None None (replicate n (leaf t)).

Definition sumocfg : Element :=
  mkElement "configuration" ∅ None None
    [mkElement "input" ∅ None None
       [mkElement "net-file" {[ "value" := "osm.net.xml" ]} None None [];
        mkElement "route-files" {[ "value" := "stale.rou.xml" ]} None None []];
     mkElement "time" ∅ None None
       [mkElement "begin" {[ "value" := "0" ]} None None []]].

(** A tool that leaves the given files in the working directory. *)
Definition put_files (files : list (string * content)) (d : abspath) (n : node) : node :=
  fold_left (fun acc f => default acc (fs_put (d ++ [f.1]) (File f.2) acc)) files n.

Definition tool (fails : bool) (files : list (string * content)) : entry_point :=
  fun _ d n =>
    if fails then (Raise (Exception "RuntimeError"), d, n)
    else (Ok tt, d, put_files files d n).

Definition run (status : Z) (argv : list string) (d : abspath) (n : node)
  : option (Z * node) :=
  let exe := hd "" argv in
  if decide (exe = "netconvert") then
    Some (status,
          put_files [(DEFAULT_NET_XML, Blob "net"); (DEFAULT_PT_STOPS_XML, Blob "stops");
                     (DEFAULT_PT_LINES, Blob "lines");
                     (DEFAULT_SIDE_PARKING_XML, XmlDoc (additional 1 "parkingSpace"))] d n)
  else if decide (exe = "polyconvert") then
    Some (status, put_files [(DEFAULT_POLY_XML, Blob "polygons")] d n)
  else if decide (exe = "sumo") then Some (status, n)
  else None.

Definition parse (argv : list string) : result options :=
  match argv with
  | [o1; osm; o2; out] =>
      if decide (o1 = "--osm" ∧ o2 = "--out") then Ok (mkOptions osm out false false)
      else Raise (SystemExit 2)
  | [o1; osm; o2; out; o3] =>
      if decide (o1 = "--osm" ∧ o2 = "--out" ∧ o3 = "--lefthand")
      then Ok (mkOptions osm out false true)
      else Raise (SystemExit 2)
  | _ => Raise (SystemExit 2)
  end.

(** The collaborators: every process leaves with [status]; the converter of
    public-transport lines raises when [pt_fails]. *)
Definition tools (status : Z) (pt_fails : bool) : externals :=
  mkExternals parse (run status)
    (tool pt_fails [(DEFAULT_PT_FLOWS, Blob "flows")])
    (tool false [(DEFAULT_PARKING_AREAS, XmlDoc (additional 2 "parkingArea"))])
    (tool false [(DEFAULT_PARKING_REROUTERS_XML, Blob "rerouters")])
    (tool false [(DEFAULT_TAZ_OUTPUT_XML, Blob "taz"); (DEFAULT_OD_OUTPUT_CSV, Blob "weights")])
    (tool false [(DEFAULT_ODMATRIX_AMITRAN_XML, Blob "od")])
    (tool false [(DEAFULT_SPECIFIC_AG_CONG, Blob "config")])
    (tool false [("osm_activities.rou.xml", Blob "routes")])
    (fun _ => true).

(** Collaborators that do nothing: every process leaves with status 0 and
    every [main] returns, the file system being left as it is. *)
Definition idle : externals :=
  mkExternals parse (fun _ _ n => Some (0%Z, n))
    (fun _ d n => (Ok tt, d, n)) (fun _ d n => (Ok tt, d, n))
    (fun _ d n => (Ok tt, d, n)) (fun _ d n => (Ok tt, d, n))
    (fun _ d n => (Ok tt, d, n)) (fun _ d n => (Ok tt, d, n))
    (fun _ d n => (Ok tt, d, n)) (fun _ => true).

Definition defaults : node :=
  Dir [("activitygen.json", File (Blob "{}"));
       ("basic.vType.xml", File (Blob "types"));
       ("duarouter.sumocfg", File (Blob "duarouter"));
       ("osm.netccfg", File (Blob "netccfg"));
       ("osm.sumocfg", File (XmlDoc sumocfg))].

(** The repository checked out under [/repo], with a map next to it. *)
Definition checkout : world :=
  mkWorld (Dir [("repo", Dir [("defaults", defaults);
                              ("town.osm", File (Blob "osm"))])])
    ["repo"] [].

(** The same without the [defaults] folder. *)
Definition elsewhere : world :=
  mkWorld (Dir [("tmp", Dir [("town.osm", File (Blob "osm"))])]) ["tmp"] [].

Definition argv : list string := ["--osm"; "town.osm"; "--out"; "out"].

(** A workspace as the rewriter finds it. *)
Definition workspace (names : list string) (cfg : Element) : world :=
  mkWorld (Dir [("out", Dir (map (fun n => (n, File (Blob ""))) names ++
                            [(DEFAULT_SUMOCFG, File (XmlDoc cfg))]))])
    ["out"] [].

(** A workspace as the merger finds it. *)
Definition parking : world :=
  mkWorld (Dir [("out", Dir [(DEFAULT_SIDE_PARKING_XML,
                              File (XmlDoc (additional 1 "parkingSpace")));
                             (DEFAULT_PARKING_AREAS,
                              File (XmlDoc (additional 2 "parkingArea")))])])
    ["out"] [].

End Demo.

(** ** Auxiliary definitions for the proofs *)

(** The part of [iter] that walks the children, numbered from [i]. *)
Fixpoint iter_below (t : string) (i : nat) (l : list Element) : list position :=
  match l with
  | [] => []
  | c :: r => map (cons i) (iter t c) ++ iter_below t (S i) r
  end.

(** What the element at a position holds, when there is one. *)
Definition own_at (p : position) (e : Element)
  : option (string * gmap string string * option string * option string) :=
  own <$> elem_at p e.

(** [set_attrib] seen on what an element holds. *)
Definition own_set (k v : string)
  (o : string * gmap string string * option string * option string)
  : string * gmap string string * option string * option string :=
  (o.1.1.1, <[k := v]> o.1.1.2, o.1.2, o.2).

(** Names, each followed by a comma. *)
Fixpoint joined (names : list string) : string :=
  match names with
  | [] => ""
  | n :: rest => n +:+ ("," +:+ joined rest)
  end.

(** Two computations that agree on every world. *)
Definition same {A : Type} (m1 m2 : M A) : Prop := forall w, m1 w = m2 w.

(** [runs m l]: whatever the world, [m] extends the trace, and the calls it
    adds are [l] when it returns and an initial segment of [l] when it
    raises. *)
Definition runs {A : Type} (m : M A) (l : list pyfun) : Prop :=
  forall w, exists evs,
    trace (m w).2 = trace w ++ evs /\
    calls evs `prefix_of` l /\
    (forall a, (m w).1 = Ok a -> calls evs = l).

(** [adds Q m]: whatever the world, [m] extends the trace by events that
    all satisfy [Q]. *)
Definition adds {A : Type} (Q : event -> Prop) (m : M A) : Prop :=
  forall w, exists evs, trace (m w).2 = trace w ++ evs /\ Forall Q evs.

(** An event that is no call from [main]. *)
Definition no_call (ev : event) : Prop := calls [ev] = [].

(** An event that is no change of the working directory. *)
Definition no_chdir (ev : event) : Prop := forall d, ev <> EvChdir d.

(** The loop of the rewriter as one pass over the tree: the attribute [k]
    is assigned on every element tagged [t]. *)
Fixpoint assign (t k v : string) (e : Element) : Element :=
  match e with
  | mkElement tg a tx tl cs =>
      mkElement tg (if decide (tg = t) then <[k := v]> a else a) tx tl
        (map (assign t k v) cs)
  end.

(** The names a directory lists, when the path leads to a directory. *)
Definition names_at (p : abspath) (n : node) : option (list string) :=
  match fs_lookup p n with
  | Some (Dir es) => Some (map fst es)
  | _ => None
  end.

(** What the script does itself in a run with the given options: the
    arguments of its calls of [os.makedirs], [shutil.copy] and [os.chdir],
    the files it parses and writes, the command lines it spawns and the
    modules it enters. *)
Definition own_effect (args : options) (ev : event) : Prop :=
  match ev with
  | EvMakedirs p => p = out_dir args \/ p = "buildings"
  | EvCopy src dst =>
      dst = out_dir args /\
      (src = osm_file args \/ In src (map (fun t => "defaults/" +:+ t) templates))
  | EvChdir p => p = out_dir args
  | EvParse file =>
      In file [DEFAULT_SIDE_PARKING_XML; DEFAULT_PARKING_AREAS; DEFAULT_SUMOCFG]
  | EvWrite file => In file [DEFAULT_COMPLETE_PARKING_XML; DEFAULT_SUMOCFG]
  | EvSpawn argv =>
      In argv [netconvert_options (Str.basename (osm_file args)) (left_hand_traffic args);
               polyconvert_options (Str.basename (osm_file args));
               sumo_options]
  | EvMain module _ =>
      In module ["ptlines2flows"; "generateParkingAreasFromOSM";
                 "generateParkingAreaRerouters"; "generateTAZBuildingsFromOSM";
                 "generateAmitranFromTAZWeights"; "generateDefaultsActivityGen";
                 "activitygen"]
  | _ => True
  end.

(** The collaborators when the command line switches profiling on or off. *)
Definition with_profiling (b : bool) (E : externals) : externals :=
  mkExternals
    (fun argv =>
       match get_options E argv with
       | Ok a => Ok (mkOptions (osm_file a) (out_dir a) b (left_hand_traffic a))
       | Raise e => Raise e
       end)
    (spawn E) (ptlines2flows E) (generateParkingAreasFromOSM E)
    (generateParkingAreaRerouters E) (generateTAZBuildingsFromOSM E)
    (generateAmitranFromTAZWeights E) (generateDefaultsActivityGen E)
    (activitygen E) (sumo_tools_importable E).

(** The trace without what the profiler adds. *)
Definition profiler_event (ev : event) : bool :=
  match ev with
  | EvProfiler _ | EvPrint => true
  | _ => false
  end.

Definition unprofiled (tr : list event) : list event :=
  List.filter (fun ev => negb (profiler_event ev)) tr.

(** Two worlds that differ at most in what the profiler recorded. *)
Definition alike (w1 w2 : world) : Prop :=
  fs w1 = fs w2 /\ cwd w1 = cwd w2 /\ unprofiled (trace w1) = unprofiled (trace w2).

(** Two computations that take alike worlds to the same result and alike
    worlds. *)
Definition sim {A : Type} (m1 m2 : M A) : Prop :=
  forall w1 w2, alike w1 w2 -> (m1 w1).1 = (m2 w2).1 /\ alike (m1 w1).2 (m2 w2).2.

(** What closes the profiler: [profiler.disable()] and the report. *)
Definition no_report (ev : event) : Prop := ev <> EvProfiler false /\ ev <> EvPrint.

(** What each function of the script has recorded when it returns: the
    process it spawned, the collaborator it entered with its arguments, the
    files it parsed and wrote. *)
Definition stage_work (args : options) (f : pyfun) : list event :=
  let osm := Str.basename (osm_file args) in
  match f with
  | call_netconvert =>
      [EvSpawn (netconvert_options osm (left_hand_traffic args))]
  | call_pt_lines_to_flows =>
      [EvMain "ptlines2flows"
         ["-n"; "osm.net.xml"; "-e"; "86400"; "-p"; "600"; "--random-begin";
          "--seed"; "42"; "--ptstops"; "osm_stops.add.xml";
          "--ptlines"; "osm_ptlines.xml"; "-o"; "osm_pt.rou.xml";
          "--ignore-errors"; "--vtype-prefix"; "pt_"; "--verbose"]]
  | call_generate_parking_areas_from_osm =>
      [EvMain "generateParkingAreasFromOSM"
         ["--osm"; osm; "--net"; "osm.net.xml"; "--out"; "osm_parking_areas.add.xml"]]
  | merge_parking_files =>
      [EvParse "osm_parking.xml"; EvParse "osm_parking_areas.add.xml";
       EvWrite "osm_complete_parking_areas.add.xml"]
  | call_generate_parking_area_rerouters =>
      [EvMain "generateParkingAreaRerouters"
         ["-a"; "osm_complete_parking_areas.add.xml"; "-n"; "osm.net.xml";
          "--max-number-alternatives"; "10";
          "--max-distance-alternatives"; "1000.0";
          "--min-capacity-visibility-true"; "50";
          "--max-distance-visibility-true"; "1000.0";
          "-o"; "osm_parking_rerouters.add.xml"]]
  | call_polyconvert => [EvSpawn (polyconvert_options osm)]
  | call_generate_taz_buildings_from_osm =>
      [EvMain "generateTAZBuildingsFromOSM"
         ["--osm"; osm; "--net"; "osm.net.xml"; "--taz-output"; "osm_taz.xml";
          "--od-output"; "osm_taz_weight.csv";
          "--poly-output"; "buildings/osm_buildings"]]
  | call_generate_amitran_from_taz_weights =>
      [EvMain "generateAmitranFromTAZWeights"
         ["--taz-weights"; "osm_taz_weight.csv"; "--out"; "osm_odmatrix_amitran.xml";
          "--density"; "3000.0"]]
  | call_generate_defaults_activitygen =>
      [EvMain "generateDefaultsActivityGen"
         ["--conf"; "activitygen.json"; "--od-amitran"; "osm_odmatrix_amitran.xml";
          "--out"; "osm_activitygen.json"]]
  | call_activitygen => [EvMain "activitygen" ["-c"; "osm_activitygen.json"]]
  | add_rou_to_default_sumocfg =>
      [EvListdir; EvParse "osm.sumocfg"; EvWrite "osm.sumocfg"]
  | call_sumo => [EvSpawn ["sumo"; "-c"; "osm.sumocfg"]]
  end.

(** The part of a trace that belongs to the functions of the script: their
    calls from [main] and what they did. *)
Definition stage_events (tr : list event) : list event :=
  List.filter
    (fun ev =>
       match ev with
       | EvEnter _ | EvSpawn _ | EvMain _ _ | EvParse _ | EvWrite _ | EvListdir => true
       | _ => false
       end) tr.

(** The ten stages in table order, then the rewriter, then the simulator:
    each function called, followed at once by its own work. *)
Definition pipeline (args : options) : list event :=
  concat (map (fun f => EvEnter f :: stage_work args f) full_sequence).

(** [records m l]: whatever the world, [m] extends the trace by [l] when it
    returns and by an initial segment of [l] when it raises. *)
Definition records {A : Type} (m : M A) (l : list event) : Prop :=
  forall w, exists evs,
    trace (m w).2 = trace w ++ evs /\
    evs `prefix_of` l /\
    (forall a, (m w).1 = Ok a -> evs = l).

(** The simulator has run against the final configuration: the process
    [sumo -c osm.sumocfg] was started in the working directory of [w'], on
    a file system [n] in which [osm.sumocfg] is a configuration rewritten
    for the route files that directory lists, and it left the file system
    of [w']. *)
Definition against_final_configuration (E : externals) (w' : world) : Prop :=
  exists (n : node) (items : list string) (doc : Element) (status : Z),
    names_at (cwd w') n = Some items /\
    fs_lookup (cwd w' ++ [DEFAULT_SUMOCFG]) n
    = Some (File (XmlDoc (set_route_files (route_files_value items) doc))) /\
    spawn E sumo_options (cwd w') n = Some (status, fs w').

(** A path component that is the name of an entry. *)
Definition proper (c : string) : Prop := c <> "" /\ c <> "." /\ c <> "..".

(** A name without a slash: it stands for an entry of the working
    directory itself. *)
Definition plain (x : string) : Prop := Str.contains "/" x = false.

(** Events that name nothing but entries of the working directory: the
    arguments handed to a collaborator and the files parsed and written
    are plain, the prefix [buildings/osm_buildings] excepted; [os.makedirs]
    is called with the path of the output directory, before the change of
    directory, and with [buildings]. *)
Definition in_workspace (args : options) (ev : event) : Prop :=
  match ev with
  | EvSpawn argv | EvMain _ argv =>
      List.Forall (fun x => plain x \/ x = DEFAULT_BUILDINGS_PREFIX) argv
  | EvParse file | EvWrite file => plain file
  | EvMakedirs p => p = out_dir args \/ p = "buildings"
  | _ => True
  end.

(** The collaborators entered through their [main]. *)
Definition entry_points (E : externals) : list entry_point :=
  [ptlines2flows E; generateParkingAreasFromOSM E; generateParkingAreaRerouters E;
   generateTAZBuildingsFromOSM E; generateAmitranFromTAZWeights E;
   generateDefaultsActivityGen E; activitygen E].

(** No file is lost from [n] to [n']: what was a file is still one, whatever
    it holds. *)
Definition keeps_files (n n' : node) : Prop :=
  forall q c, fs_lookup q n = Some (File c) ->
    exists c', fs_lookup q n' = Some (File c').

(** Collaborators that remove no file. *)
Definition never_remove (E : externals) : Prop :=
  (forall argv d n status n',
     spawn E argv d n = Some (status, n') -> keeps_files n n') /\
  List.Forall (fun tool : entry_point => forall a d n, keeps_files n (tool a d n).2)
    (entry_points E).

(** Collaborators that leave the working directory of the process alone. *)
Definition stay_put (E : externals) : Prop :=
  List.Forall (fun tool : entry_point => forall a d n, (tool a d n).1.2 = d)
    (entry_points E).

Definition persists {A : Type} (m : M A) : Prop :=
  forall w, keeps_files (fs w) (fs (m w).2).

Definition keeps_cwd {A : Type} (m : M A) : Prop :=
  forall w, cwd (m w).2 = cwd w.

(** [lands p m]: [m] leaves the process where it was or in [p], and in [p]
    when it returns. *)
Definition lands {A : Type} (p : string) (m : M A) : Prop :=
  forall w,
    (cwd (m w).2 = cwd w \/ cwd (m w).2 = resolve (cwd w) p) /\
    (forall a, (m w).1 = Ok a -> cwd (m w).2 = resolve (cwd w) p).

(** How the trace of a run that returns ends, with profiling [b]. *)
Definition closing (b : bool) : list event :=
  (if b then [EvProfiler false; EvPrint] else []) ++ [EvLog "Done."].

(** What a run records between the change of directory and the closing of
    the profiler, when nothing raises: the log lines, the functions called
    and what they do. *)
Definition workflow (args : options) : list event :=
  let enter f := EvEnter f :: stage_work args f in
  [EvLog "Generate the net.xml with all the additional components (public transports, parkings, ..)"] ++
  enter call_netconvert ++
  [EvLog "Generate flows for public transportation using ptlines2flows."] ++
  enter call_pt_lines_to_flows ++
  [EvLog "Generate parking area location and possibly merge it with the one provided by netconvert."] ++
  enter call_generate_parking_areas_from_osm ++
  enter merge_parking_files ++
  [EvLog "Generate parking area rerouters using tools/generateParkingAreaRerouters.py"] ++
  enter call_generate_parking_area_rerouters ++
  [EvLog "Generate polygons using polyconvert."] ++
  enter call_polyconvert ++
  [EvLog "Generate TAZ from administrative boundaries, TAZ weights using buildings and  PoIs and the buildings infrastructure.";
   EvMakedirs "buildings"] ++
  enter call_generate_taz_buildings_from_osm ++
  [EvLog "Generate the default values for the activity based mobility generator. "] ++
  enter call_generate_amitran_from_taz_weights ++
  enter call_generate_defaults_activitygen ++
  [EvLog "Mobility generation using SUMOActivityGen."] ++
  enter call_activitygen ++
  [EvLog "Generate the SUMO configuration file and launch sumo-gui."] ++
  enter add_rou_to_default_sumocfg ++
  enter call_sumo.

(** Everything a run of [main] that returns has recorded. *)
Definition script (args : options) : list event :=
  initialisation args ++ workflow args ++ closing (profiling args).

(** [guarded Q m]: whatever the world, [m] extends the trace, and by events
    that all satisfy [Q] when it raises. *)
Definition guarded {A : Type} (Q : event -> Prop) (m : M A) : Prop :=
  forall w, exists evs,
    trace (m w).2 = trace w ++ evs /\
    ((exists e, (m w).1 = Raise e) -> Forall Q evs).

(** * Properties *)

(** ** Strings *)

Lemma append_nil_l (s : string) : "" +:+ s = s.
Proof. reflexivity. Qed.

Lemma append_cons (a : ascii) (s t : string) : String a s +:+ t = String a (s +:+ t).
Proof. reflexivity. Qed.

Lemma append_nil_r (s : string) : s +:+ "" = s.
Proof. induction s as [|x s IH]; [reflexivity | by rewrite append_cons, IH]. Qed.

Lemma append_assoc (a b c : string) : (a +:+ b) +:+ c = a +:+ (b +:+ c).
Proof. induction a as [|x a IH]; [reflexivity | by rewrite !append_cons, IH]. Qed.

Lemma split_nonempty c s : Str.split c s <> [].
Proof.
  destruct s as [|a s]; simpl; [done|].
  destruct (Ascii.eqb a c); [done|]. by destruct (Str.split c s).
Qed.

Lemma split_app_sep c s1 s2 :
  Str.split c (s1 +:+ String c s2) = Str.split c s1 ++ Str.split c s2.
Proof.
  induction s1 as [|a s1 IH].
  - rewrite append_nil_l. simpl. by rewrite Ascii.eqb_refl.
  - rewrite append_cons. simpl.
    destruct (Ascii.eqb a c); [by rewrite IH|].
    rewrite IH. pose proof (split_nonempty c s1).
    by destruct (Str.split c s1).
Qed.

Lemma split_joined (names : list string) :
  Str.split "," (joined names) = concat (map (Str.split ",") names) ++ [""].
Proof.
  induction names as [|n names IH]; simpl; [reflexivity|].
  change ("," +:+ joined names) with (String "," (joined names)).
  by rewrite split_app_sep, IH, app_assoc.
Qed.

Lemma split_lstrip c s n :
  n <> "" -> In n (Str.split c s) -> In n (Str.split c (Str.lstrip c s)).
Proof.
  intros Hn. induction s as [|a s IH]; simpl; [done|].
  destruct (Ascii.eqb a c) eqn:Ha; simpl.
  - intros [H|H]; [congruence | auto].
  - by rewrite Ha.
Qed.

Lemma split_cons_sep c s : Str.split c (String c s) = "" :: Str.split c s.
Proof. simpl. by rewrite Ascii.eqb_refl. Qed.

Lemma split_cons_other a c s :
  Ascii.eqb a c = false ->
  exists f fs, Str.split c s = f :: fs /\ Str.split c (String a s) = String a f :: fs.
Proof.
  intros Ha. simpl. rewrite Ha. pose proof (split_nonempty c s).
  destruct (Str.split c s) as [|f fs]; [done|]. by exists f, fs.
Qed.

Lemma split_rstrip c s :
  exists k, Str.split c s = Str.split c (Str.rstrip c s) ++ replicate k "".
Proof.
  induction s as [|a s [k IH]].
  - by exists 0.
  - destruct (Ascii.eqb a c) eqn:Ha.
    + apply Ascii.eqb_eq in Ha as ->. rewrite split_cons_sep. simpl Str.rstrip.
      rewrite Ascii.eqb_refl.
      destruct (Str.rstrip c s) as [|b r] eqn:Hr.
      * exists (S k). rewrite IH. reflexivity.
      * exists k. rewrite IH, split_cons_sep. reflexivity.
    + destruct (split_cons_other a c s Ha) as (f & fs & Hs & ->).
      simpl Str.rstrip. rewrite Ha.
      destruct (Str.rstrip c s) as [|b r] eqn:Hr.
      * exists k. rewrite Hs in IH. simpl in IH. injection IH as -> ->.
        simpl. rewrite Ha. reflexivity.
      * exists k.
        destruct (split_cons_other a c (String b r) Ha) as (g & gs & Hg & ->).
        rewrite Hs, Hg in IH. simpl in IH. by injection IH as -> ->.
Qed.

Lemma split_strip c s n :
  n <> "" -> In n (Str.split c s) -> In n (Str.split c (Str.strip c s)).
Proof.
  intros Hn Hin. unfold Str.strip.
  apply (split_lstrip c s n Hn) in Hin.
  destruct (split_rstrip c (Str.lstrip c s)) as [k Hk].
  rewrite Hk in Hin. apply in_app_or in Hin as [H|H]; [done|].
  apply list_elem_of_In, elem_of_replicate in H as [H _]. congruence.
Qed.

Lemma collect_route_files_joined items acc :
  collect_route_files items acc = acc +:+ joined (filter is_route_file items).
Proof.
  revert acc. induction items as [|item items IH]; intros acc; simpl.
  - by rewrite append_nil_r.
  - rewrite IH. unfold is_route_file at 2.
    destruct (Str.contains ".rou.xml" item) eqn:Hc.
    + rewrite filter_cons_True by (unfold is_route_file; by rewrite Hc).
      simpl. by rewrite !append_assoc.
    + rewrite filter_cons_False by (unfold is_route_file; rewrite Hc; simpl; tauto).
      reflexivity.
Qed.

Lemma route_files_value_joined items :
  route_files_value items = Str.strip "," (joined (filter is_route_file items)).
Proof. unfold route_files_value. by rewrite collect_route_files_joined. Qed.

(** A name without a comma that the rewriter takes for a route file is one
    of the comma-separated entries of the value it writes. *)
Lemma route_file_listed items n :
  In n items -> is_route_file n = true -> Str.split "," n = [n] ->
  In n (Str.split "," (route_files_value items)).
Proof.
  intros Hin Hr Hs. rewrite route_files_value_joined.
  assert (n <> "") as Hn by (intros ->; discriminate Hr).
  apply split_strip; [done|]. rewrite split_joined.
  apply in_or_app. left. apply in_concat. exists [n]. split; [|by left].
  rewrite <- Hs. apply in_map.
  apply list_elem_of_In, list_elem_of_filter. split; [by rewrite Hr|].
  by apply list_elem_of_In.
Qed.

(** ** Element trees *)

Lemma Element_induction (P : Element -> Prop) :
  (forall tg a tx tl cs, Forall P cs -> P (mkElement tg a tx tl cs)) ->
  forall e, P e.
Proof.
  intros H. fix IH 1. intros [tg a tx tl cs]. apply H.
  induction cs as [|c cs IHcs]; constructor; [apply IH | apply IHcs].
Qed.

Lemma iter_unfold t e :
  iter t e = (if decide (tag e = t) then [[]] else []) ++ iter_below t 0 (children e).
Proof.
  destruct e as [tg a tx tl cs]. simpl. f_equal.
  generalize 0. induction cs as [|c cs IH]; intros i; simpl; [done|].
  by rewrite IH.
Qed.

Lemma iter_below_spec t cs : forall i p,
  In p (iter_below t i cs) <->
  exists j c p', p = (i + j) :: p' /\ cs !! j = Some c /\ In p' (iter t c).
Proof.
  induction cs as [|c cs IH]; intros i p; simpl.
  - split; [done|]. by intros (j & x & p' & _ & H & _).
  - rewrite in_app_iff, in_map_iff, IH. split.
    + intros [(p' & <- & Hp)|(j & x & p' & -> & Hj & Hp)].
      * exists 0, c, p'. by rewrite Nat.add_0_r.
      * exists (S j), x, p'. split; [f_equal; lia | done].
    + intros (j & x & p' & -> & Hj & Hp). destruct j as [|j]; simpl in Hj.
      * injection Hj as ->. left. exists p'. by rewrite Nat.add_0_r.
      * right. exists j, x, p'. split; [f_equal; lia | done].
Qed.

(** [iter] yields exactly the references to the elements with the tag. *)
Lemma iter_spec t e : forall p,
  In p (iter t e) <-> exists x, elem_at p e = Some x /\ tag x = t.
Proof.
  induction e as [tg a tx tl cs IH] using Element_induction. intros p.
  rewrite iter_unfold, in_app_iff, iter_below_spec. simpl. split.
  - intros [H|(j & c & p' & -> & Hj & Hp)].
    + destruct (decide (tg = t)) as [->|]; [|done].
      destruct H as [<-|[]]. by eexists.
    + rewrite Forall_lookup in IH. apply (IH _ _ Hj) in Hp as (x & Hx & Ht).
      exists x. simpl. by rewrite Hj.
  - intros (x & Hx & Ht). destruct p as [|j p']; simpl in Hx.
    + injection Hx as <-. simpl in Ht. left.
      rewrite decide_True by done. by left.
    + right. destruct (cs !! j) as [c|] eqn:Hj; [|done].
      exists j, c, p'. split; [done|]. split; [done|].
      rewrite Forall_lookup in IH. apply (IH _ _ Hj). by exists x.
Qed.

Lemma iter_nil t e :
  (forall p x, elem_at p e = Some x -> tag x <> t) -> iter t e = [].
Proof.
  intros H. destruct (iter t e) as [|p l] eqn:Hi; [done|].
  assert (In p (iter t e)) as Hp by (rewrite Hi; by left).
  apply iter_spec in Hp as (x & Hx & Ht). by destruct (H p x Hx).
Qed.

Lemma forget_unfold t k e :
  forget t k e =
  mkElement (tag e) (if decide (tag e = t) then delete k (attrib e) else attrib e)
    (text e) (tail e) (map (forget t k) (children e)).
Proof. by destruct e. Qed.

Lemma map_insert_same {A B : Type} (F : A -> B) (l : list A) i c u :
  l !! i = Some c -> F u = F c -> map F (<[i := u]> l) = map F l.
Proof.
  revert i. induction l as [|x l IH]; intros [|i] Hi HF; simpl in *; try done.
  - injection Hi as ->. by rewrite HF.
  - by rewrite IH.
Qed.

(** Assigning the attribute on an element with the tag is invisible once
    that attribute is forgotten. *)
Lemma forget_update t k v : forall p e,
  (forall x, elem_at p e = Some x -> tag x = t) ->
  forget t k (update_at p (set_attrib k v) e) = forget t k e.
Proof.
  induction p as [|i p IH]; intros e H; simpl.
  - rewrite !forget_unfold. simpl. rewrite (H e eq_refl), !decide_True by done.
    by rewrite delete_insert_eq.
  - destruct (children e !! i) as [c|] eqn:Hi; [|done].
    rewrite !forget_unfold. simpl. f_equal.
    apply (map_insert_same _ _ _ c); [done|]. apply IH.
    intros x Hx. apply H. simpl. by rewrite Hi.
Qed.

(** An update that keeps the child list acts on what the elements hold, at
    the position it is aimed at and nowhere else. *)
Lemma own_at_update f g :
  (forall x, children (f x) = children x) ->
  (forall x, own (f x) = g (own x)) ->
  forall p q e,
    own_at q (update_at p f e) =
    (if decide (p = q) then g else id) <$> own_at q e.
Proof.
  intros Hc Ho. unfold own_at.
  induction p as [|i p IH]; intros q e.
  - destruct q as [|j q].
    + rewrite decide_True by done. simpl. by rewrite Ho.
    + rewrite decide_False by done. simpl. rewrite Hc.
      by destruct (children e !! j) as [c|]; [destruct (elem_at q c)|].
  - simpl update_at. destruct (children e !! i) as [c|] eqn:Hi.
    + destruct q as [|j q].
      * rewrite decide_False by done. reflexivity.
      * simpl elem_at. destruct (decide (i = j)) as [<-|Hij].
        -- rewrite list_lookup_insert_eq by (by eapply lookup_lt_Some).
           rewrite Hi, IH.
           destruct (decide (p = q)) as [->|Hpq].
           ++ by rewrite !decide_True.
           ++ by rewrite !decide_False by congruence.
        -- rewrite list_lookup_insert_ne by done.
           rewrite decide_False by congruence.
           by destruct (children e !! j) as [d|]; [destruct (elem_at q d)|].
    + destruct (decide (i :: p = q)) as [<-|Hq].
      * rewrite decide_True by done. simpl. by rewrite Hi.
      * rewrite decide_False by done. by destruct (elem_at q e).
Qed.

Lemma own_at_fold f g :
  (forall x, children (f x) = children x) ->
  (forall x, own (f x) = g (own x)) ->
  (forall o, g (g o) = g o) ->
  forall l q e,
    own_at q (fold_left (fun tree p => update_at p f tree) l e) =
    (if decide (q ∈ l) then g else id) <$> own_at q e.
Proof.
  intros Hc Ho Hg. induction l as [|p l IH]; intros q e; simpl fold_left.
  - rewrite decide_False by (apply not_elem_of_nil). by destruct (own_at q e).
  - rewrite IH, (own_at_update f g Hc Ho).
    destruct (own_at q e) as [o|]; simpl; [|done]. f_equal.
    destruct (decide (p = q)) as [->|Hpq].
    + rewrite (decide_True (P := q ∈ q :: l)) by (by left).
      destruct (decide (q ∈ l)); [apply Hg | done].
    + destruct (decide (q ∈ l)) as [Hl|Hl].
      * by rewrite decide_True by (by right).
      * rewrite decide_False; [done|]. rewrite elem_of_cons. by intros [?|?].
Qed.

Lemma set_attrib_children k v x : children (set_attrib k v x) = children x.
Proof. reflexivity. Qed.

Lemma set_attrib_own k v x : own (set_attrib k v x) = own_set k v (own x).
Proof. reflexivity. Qed.

Lemma own_set_idem k v o : own_set k v (own_set k v o) = own_set k v o.
Proof. unfold own_set. simpl. by rewrite insert_insert_eq. Qed.

(** What the loop of the rewriter leaves at every position. *)
Lemma set_route_files_own v doc q :
  own_at q (set_route_files v doc) =
  (if decide (q ∈ iter "route-files" doc) then own_set "value" v else id)
    <$> own_at q doc.
Proof.
  unfold set_route_files.
  apply (own_at_fold (set_attrib "value" v) (own_set "value" v));
    auto using set_attrib_children, set_attrib_own, own_set_idem.
Qed.

Lemma forget_fold t k v : forall l e,
  (forall p x, In p l -> elem_at p e = Some x -> tag x = t) ->
  forget t k (fold_left (fun tree p => update_at p (set_attrib k v) tree) l e)
  = forget t k e.
Proof.
  induction l as [|p l IH]; intros e H; simpl; [done|].
  rewrite IH.
  - apply forget_update. intros x. apply H. by left.
  - intros q x Hq Hx.
    pose proof (own_at_update (set_attrib k v) (own_set k v)
                  (set_attrib_children k v) (set_attrib_own k v) p q e) as Ho.
    unfold own_at in Ho. rewrite Hx in Ho. simpl in Ho.
    destruct (elem_at q e) as [x0|] eqn:Hx0; [|done].
    simpl in Ho. injection Ho as Ho.
    assert (tag x = tag x0) as ->.
    { destruct (decide (p = q)); unfold own, own_set, id in Ho; simpl in Ho;
        congruence. }
    apply (H q); [by right | done].
Qed.

(** The loop of the rewriter changes nothing but the [value] attribute of
    the [route-files] elements. *)
Lemma set_route_files_forget v doc :
  forget "route-files" "value" (set_route_files v doc)
  = forget "route-files" "value" doc.
Proof.
  unfold set_route_files. apply forget_fold.
  intros p x Hp Hx. apply iter_spec in Hp as (y & Hy & Ht). congruence.
Qed.

(** After the loop every [route-files] element carries the value. *)
Lemma set_route_files_value v doc p x :
  elem_at p doc = Some x -> tag x = "route-files" ->
  exists x', elem_at p (set_route_files v doc) = Some x' /\
             tag x' = "route-files" /\ attrib x' !! "value" = Some v.
Proof.
  intros Hx Ht. pose proof (set_route_files_own v doc p) as Ho.
  rewrite decide_True in Ho by (apply list_elem_of_In, iter_spec; eauto).
  unfold own_at in Ho. rewrite Hx in Ho. simpl in Ho.
  destruct (elem_at p (set_route_files v doc)) as [x'|]; [|done].
  exists x'. split; [done|]. simpl in Ho. injection Ho as H1 H2 H3 H4.
  split; [congruence|]. rewrite H2. apply lookup_insert_eq.
Qed.

Lemma merge_roots_spec d1 d2 :
  merge_roots d1 d2 =
  mkElement (tag d1) (attrib d1) (text d1) (tail d1) (children d1 ++ children d2).
Proof.
  unfold merge_roots. generalize (children d2) as l.
  intros l. revert d1. induction l as [|c l IH]; intros d1; simpl.
  - rewrite app_nil_r. by destruct d1.
  - rewrite IH. simpl. by rewrite <- app_assoc.
Qed.

(** ** The file system *)

Lemma entry_lookup_set_eq c x es : entry_lookup c (entry_set c x es) = Some x.
Proof.
  induction es as [|[n y] es IH]; simpl.
  - by rewrite decide_True.
  - destruct (decide (n = c)) as [->|Hn]; simpl.
    + by rewrite decide_True.
    + by rewrite decide_False.
Qed.

Lemma entry_lookup_set_ne c d x es :
  c <> d -> entry_lookup d (entry_set c x es) = entry_lookup d es.
Proof.
  intros Hcd. induction es as [|[n y] es IH]; simpl.
  - by rewrite decide_False.
  - destruct (decide (n = c)) as [->|Hn]; simpl.
    + by rewrite !decide_False.
    + by rewrite IH.
Qed.

Lemma fs_lookup_put_eq x : forall p n n',
  fs_put p x n = Some n' -> fs_lookup p n' = Some x.
Proof.
  induction p as [|c p IH]; intros n n' H; simpl in H; [done|].
  destruct n as [|es]; [done|]. destruct p as [|c' p].
  - injection H as <-. simpl. by rewrite entry_lookup_set_eq.
  - destruct (entry_lookup c es) as [child|]; [|done].
    destruct (fs_put (c' :: p) x child) as [child'|] eqn:Hp; [|done].
    injection H as <-. change (fs_lookup (c :: c' :: p) (Dir (entry_set c child' es)))
      with (match entry_lookup c (entry_set c child' es) with
            | Some ch => fs_lookup (c' :: p) ch
            | None => None
            end).
    rewrite entry_lookup_set_eq. by apply (IH child).
Qed.

Lemma fs_put_indep x y : forall p n,
  is_Some (fs_put p x n) -> is_Some (fs_put p y n).
Proof.
  induction p as [|c p IH]; intros n H; simpl in *; [done|].
  destruct n as [|es]; [done|]. destruct p as [|c' p]; [by eexists|].
  destruct (entry_lookup c es) as [child|]; [|done].
  destruct (fs_put (c' :: p) x child) as [child'|] eqn:Hp; [|by destruct H].
  destruct (IH child) as [z Hz]; [by rewrite Hp|]. rewrite Hz. by eexists.
Qed.

Lemma fs_put_existing x v : forall p n,
  p <> [] -> fs_lookup p n = Some v -> is_Some (fs_put p x n).
Proof.
  induction p as [|c p IH]; intros n Hp H; [done|]. simpl in *.
  destruct n as [|es]; [done|]. destruct p as [|c' p]; [by eexists|].
  destruct (entry_lookup c es) as [child|]; [|done].
  destruct (IH child) as [z Hz]; [done | done |]. rewrite Hz. by eexists.
Qed.

(** ** The calls of the operating system *)

Lemma bind_unfold {A B : Type} (m : M A) (k : A -> M B) w :
  (m ≫= k) w =
  match m w with
  | (Ok a, w') => k a w'
  | (Raise e, w') => (Raise e, w')
  end.
Proof. reflexivity. Qed.

Lemma xml_parse_ok file w root :
  (xml_parse file w).1 = Ok root ->
  xml_parse file w = (Ok root, mkWorld (fs w) (cwd w) (trace w ++ [EvParse file])).
Proof.
  unfold xml_parse. destruct (decide (file = "")); [done|].
  destruct (fs_lookup (resolve (cwd w) file) (fs w)) as [[[r|]|]|]; try done.
  simpl. by intros [= ->].
Qed.

Lemma xml_parse_frame file w tr :
  (xml_parse file (mkWorld (fs w) (cwd w) tr)).1 = (xml_parse file w).1.
Proof.
  unfold xml_parse. simpl. destruct (decide (file = "")); [done|].
  by destruct (fs_lookup (resolve (cwd w) file) (fs w)) as [[[r|]|]|].
Qed.

Lemma xml_parse_document file w root :
  file <> "" -> document file w = Some root -> (xml_parse file w).1 = Ok root.
Proof.
  unfold document, xml_parse. intros Hf. rewrite decide_False by done.
  destruct (fs_lookup (resolve (cwd w) file) (fs w)) as [[[r|]|]|]; try done.
  by intros [= ->].
Qed.

Lemma xml_write_writable file root w :
  writable file w = true ->
  exists n, xml_write file root w
            = (Ok tt, mkWorld n (cwd w) (trace w ++ [EvWrite file])) /\
            fs_lookup (resolve (cwd w) file) n = Some (File (XmlDoc root)).
Proof.
  unfold writable, xml_write. intros [Hf H]%andb_prop.
  apply bool_decide_eq_true in Hf. rewrite decide_False by done.
  assert (is_Some (fs_put (resolve (cwd w) file) (File (XmlDoc root)) (fs w)))
    as [n Hn].
  { destruct (fs_lookup (resolve (cwd w) file) (fs w)) as [[|]|];
      try done; apply bool_decide_eq_true in H;
      by apply (fs_put_indep (File (Blob ""))). }
  exists n. rewrite Hn. split.
  - by destruct (fs_lookup (resolve (cwd w) file) (fs w)) as [[|]|].
  - by apply fs_lookup_put_eq in Hn.
Qed.

Lemma writable_frame file w tr :
  writable file (mkWorld (fs w) (cwd w) tr) = writable file w.
Proof. reflexivity. Qed.

Lemma writable_existing file w c :
  file <> "" -> resolve (cwd w) file <> [] ->
  fs_lookup (resolve (cwd w) file) (fs w) = Some (File c) ->
  writable file w = true.
Proof.
  intros Hf Hr Hl. unfold writable. rewrite Hl.
  rewrite bool_decide_eq_true_2 by done. simpl.
  apply bool_decide_eq_true. by eapply fs_put_existing.
Qed.

(** What the rewriter does when the working directory can be listed and
    holds a configuration document. *)
Lemma rewriter_run w items doc :
  listing w = Some items ->
  document DEFAULT_SUMOCFG w = Some doc ->
  exists w',
    _add_rou_to_default_sumocfg w = (Ok tt, w') /\
    document DEFAULT_SUMOCFG w'
    = Some (set_route_files (route_files_value items) doc) /\
    cwd w' = cwd w /\
    trace w' = trace w ++ [EvListdir; EvParse DEFAULT_SUMOCFG; EvWrite DEFAULT_SUMOCFG].
Proof.
  intros Hl Hd. unfold _add_rou_to_default_sumocfg.
  rewrite bind_unfold. unfold os_listdir at 1. unfold listing in Hl.
  destruct (fs_lookup (cwd w) (fs w)) as [[|es]|]; try done.
  injection Hl as <-.
  set (w1 := mkWorld (fs w) (cwd w) (trace w ++ [EvListdir])).
  rewrite bind_unfold.
  assert ((xml_parse DEFAULT_SUMOCFG w1).1 = Ok doc) as Hp.
  { unfold w1. rewrite xml_parse_frame. by apply xml_parse_document. }
  rewrite (xml_parse_ok _ _ _ Hp).
  set (w2 := mkWorld _ _ _).
  assert (writable DEFAULT_SUMOCFG w2 = true) as Hw.
  { unfold document in Hd.
    destruct (fs_lookup (resolve (cwd w) DEFAULT_SUMOCFG) (fs w))
      as [[c|]|] eqn:Hf; try done.
    apply (writable_existing _ _ c); [done | | exact Hf].
    simpl. change (resolve (cwd w) DEFAULT_SUMOCFG) with (cwd w ++ [DEFAULT_SUMOCFG]).
    by destruct (cwd w). }
  destruct (xml_write_writable DEFAULT_SUMOCFG
              (set_route_files (route_files_value (map fst es)) doc) w2 Hw)
    as (n & -> & Hn).
  eexists. split; [reflexivity|]. split; [|split].
  - unfold document. simpl in *. by rewrite Hn.
  - reflexivity.
  - simpl. by rewrite <- !app_assoc.
Qed.

(** What the merger does when both files parse and the target can be
    written. *)
Lemma merger_run w side areas complete d1 d2 :
  (xml_parse side w).1 = Ok d1 ->
  (xml_parse areas w).1 = Ok d2 ->
  writable complete w = true ->
  exists w',
    _merge_parking_files side areas complete w = (Ok tt, w') /\
    document complete w' = Some (merge_roots d1 d2) /\
    trace w' = trace w ++ [EvParse side; EvParse areas; EvWrite complete].
Proof.
  intros H1 H2 Hw. unfold _merge_parking_files.
  rewrite bind_unfold, (xml_parse_ok _ _ _ H1).
  set (w1 := mkWorld _ _ _). rewrite bind_unfold.
  assert ((xml_parse areas w1).1 = Ok d2) as H2'
    by (unfold w1; by rewrite xml_parse_frame).
  rewrite (xml_parse_ok _ _ _ H2'). set (w2 := mkWorld _ _ _).
  destruct (xml_write_writable complete (merge_roots d1 d2) w2 Hw) as (n & -> & Hn).
  eexists. split; [reflexivity|]. split.
  - unfold document. simpl in *. by rewrite Hn.
  - simpl. by rewrite <- !app_assoc.
Qed.

Lemma filter_route_files_nil items :
  (forall item, In item items -> Str.contains ".rou.xml" item = false) ->
  filter is_route_file items = [].
Proof.
  induction items as [|item items IH]; intros H; [done|].
  rewrite filter_cons_False.
  - apply IH. intros i Hi. apply H. by right.
  - unfold is_route_file. rewrite (H item) by (by left). simpl. tauto.
Qed.

(** ** The Config Rewriter *)

(** C1: in a workspace whose route files are exactly [a.rou.xml] and
    [b.rou.xml] (in whatever order the directory lists them, among files
    that are no route files), the rewriter succeeds; the value it gives
    the [value] attribute of every [route-files] element is
    ["a.rou.xml,b.rou.xml"] or ["b.rou.xml,a.rou.xml"], so its entries are
    a permutation of the two names, without a trailing comma and without
    a duplicate; and the rewritten document agrees with the original one
    on everything but that attribute of those elements. *)
Theorem rewriter_two_route_files (w : world) (items : list string) (doc : Element) :
  listing w = Some items ->
  filter is_route_file items ≡ₚ ["a.rou.xml"; "b.rou.xml"] ->
  document DEFAULT_SUMOCFG w = Some doc ->
  exists w' doc' v,
    _add_rou_to_default_sumocfg w = (Ok tt, w') /\
    document DEFAULT_SUMOCFG w' = Some doc' /\
    (v = "a.rou.xml,b.rou.xml" \/ v = "b.rou.xml,a.rou.xml") /\
    Str.split "," v ≡ₚ ["a.rou.xml"; "b.rou.xml"] /\
    (forall p x, elem_at p doc = Some x -> tag x = "route-files" ->
       exists x', elem_at p doc' = Some x' /\ tag x' = "route-files" /\
                  attrib x' !! "value" = Some v) /\
    forget "route-files" "value" doc' = forget "route-files" "value" doc.
Proof.
  intros Hl Hperm Hd.
  destruct (rewriter_run w items doc Hl Hd) as (w' & Hrun & Hdoc & _ & _).
  exists w', (set_route_files (route_files_value items) doc), (route_files_value items).
  split; [done|]. split; [done|].
  assert (route_files_value items = "a.rou.xml,b.rou.xml" \/
          route_files_value items = "b.rou.xml,a.rou.xml") as Hv.
  { rewrite route_files_value_joined. symmetry in Hperm.
    apply Permutation_length_2_inv in Hperm as [-> | ->]; [by left | by right]. }
  split; [done|]. split.
  - destruct Hv as [-> | ->]; [reflexivity|]. apply perm_swap.
  - split; [|apply set_route_files_forget].
    intros p x. apply set_route_files_value.
Qed.

Lemma rewriter_two_route_files_witness :
  exists w' doc' v,
    _add_rou_to_default_sumocfg
      (Demo.workspace ["b.rou.xml"; "notes.txt"; "a.rou.xml"] Demo.sumocfg)
    = (Ok tt, w') /\
    document DEFAULT_SUMOCFG w' = Some doc' /\
    (v = "a.rou.xml,b.rou.xml" \/ v = "b.rou.xml,a.rou.xml") /\
    Str.split "," v ≡ₚ ["a.rou.xml"; "b.rou.xml"] /\
    (forall p x, elem_at p Demo.sumocfg = Some x -> tag x = "route-files" ->
       exists x', elem_at p doc' = Some x' /\ tag x' = "route-files" /\
                  attrib x' !! "value" = Some v) /\
    forget "route-files" "value" doc' = forget "route-files" "value" Demo.sumocfg.
Proof.
  apply (rewriter_two_route_files
           (Demo.workspace ["b.rou.xml"; "notes.txt"; "a.rou.xml"] Demo.sumocfg)
           ["b.rou.xml"; "notes.txt"; "a.rou.xml"; DEFAULT_SUMOCFG]).
  - reflexivity.
  - vm_compute. apply perm_swap.
  - reflexivity.
Defined.

(** C8: in a workspace without any name containing [.rou.xml] the
    rewriter succeeds and gives the [value] attribute of every
    [route-files] element the empty string, whatever it held before;
    nothing else in the document changes. *)
Theorem rewriter_no_route_file (w : world) (items : list string) (doc : Element) :
  listing w = Some items ->
  (forall item, In item items -> Str.contains ".rou.xml" item = false) ->
  document DEFAULT_SUMOCFG w = Some doc ->
  exists w' doc',
    _add_rou_to_default_sumocfg w = (Ok tt, w') /\
    document DEFAULT_SUMOCFG w' = Some doc' /\
    route_files_value items = "" /\
    (forall p x, elem_at p doc = Some x -> tag x = "route-files" ->
       exists x', elem_at p doc' = Some x' /\ tag x' = "route-files" /\
                  attrib x' !! "value" = Some "") /\
    forget "route-files" "value" doc' = forget "route-files" "value" doc.
Proof.
  intros Hl Hno Hd.
  destruct (rewriter_run w items doc Hl Hd) as (w' & Hrun & Hdoc & _ & _).
  assert (route_files_value items = "") as Hv.
  { by rewrite route_files_value_joined, filter_route_files_nil. }
  rewrite Hv in Hdoc.
  exists w', (set_route_files "" doc). split; [done|]. split; [done|].
  split; [done|]. split; [|apply set_route_files_forget].
  intros p x. apply set_route_files_value.
Qed.

Lemma rewriter_no_route_file_witness :
  exists w' doc',
    _add_rou_to_default_sumocfg (Demo.workspace ["osm.net.xml"] Demo.sumocfg)
    = (Ok tt, w') /\
    document DEFAULT_SUMOCFG w' = Some doc' /\
    route_files_value ["osm.net.xml"; DEFAULT_SUMOCFG] = "" /\
    (forall p x, elem_at p Demo.sumocfg = Some x -> tag x = "route-files" ->
       exists x', elem_at p doc' = Some x' /\ tag x' = "route-files" /\
                  attrib x' !! "value" = Some "") /\
    forget "route-files" "value" doc' = forget "route-files" "value" Demo.sumocfg.
Proof.
  apply (rewriter_no_route_file (Demo.workspace ["osm.net.xml"] Demo.sumocfg)).
  - reflexivity.
  - intros item [<-|[<-|[]]]; reflexivity.
  - reflexivity.
Defined.

(** C5, as stated, fails: with no [route-files] element in the document
    the rewriter still opens [osm.sumocfg] for writing and writes the
    document back, so that it does perform a write. *)
Lemma rewriter_one_or_no_element_counterexample :
  ~ (forall w items doc w',
       listing w = Some items ->
       document DEFAULT_SUMOCFG w = Some doc ->
       (forall q y, elem_at q doc = Some y -> tag y <> "route-files") ->
       _add_rou_to_default_sumocfg w = (Ok tt, w') ->
       ~ In (EvWrite DEFAULT_SUMOCFG) (trace w')).
Proof.
  intros H.
  apply (H (Demo.workspace ["a.rou.xml"] (Demo.leaf "configuration"))
           ["a.rou.xml"; DEFAULT_SUMOCFG] (Demo.leaf "configuration")
           (_add_rou_to_default_sumocfg
              (Demo.workspace ["a.rou.xml"] (Demo.leaf "configuration"))).2).
  - reflexivity.
  - reflexivity.
  - intros [|i q] y Hy; [|destruct i; discriminate Hy].
    injection Hy as <-. discriminate.
  - vm_compute. reflexivity.
  - vm_compute. tauto.
Qed.

(** C5, amended: when exactly one element of the configuration document
    carries the tag [route-files], the rewriter assigns the attribute on
    that element and leaves what every other element holds as it was; when
    no element carries the tag it assigns nothing and does not fail: the
    document it writes back is the one it read, and it does write it back,
    [osm.sumocfg] being written whatever the document holds. *)
Theorem rewriter_one_or_no_element (w : world) (items : list string) (doc : Element) :
  listing w = Some items ->
  document DEFAULT_SUMOCFG w = Some doc ->
  exists w' doc',
    _add_rou_to_default_sumocfg w = (Ok tt, w') /\
    document DEFAULT_SUMOCFG w' = Some doc' /\
    (forall p x,
       elem_at p doc = Some x -> tag x = "route-files" ->
       (forall q y, elem_at q doc = Some y -> tag y = "route-files" -> q = p) ->
       own_at p doc' = Some (own_set "value" (route_files_value items) (own x)) /\
       forall q, q <> p -> own_at q doc' = own_at q doc) /\
    ((forall q y, elem_at q doc = Some y -> tag y <> "route-files") ->
     doc' = doc /\
     trace w'
     = trace w ++ [EvListdir; EvParse DEFAULT_SUMOCFG; EvWrite DEFAULT_SUMOCFG]).
Proof.
  intros Hl Hd.
  destruct (rewriter_run w items doc Hl Hd) as (w' & Hrun & Hdoc & Hcwd & Htrace).
  exists w', (set_route_files (route_files_value items) doc).
  split; [done|]. split; [done|]. split.
  - intros p x Hx Ht Huniq. split.
    + rewrite set_route_files_own.
      rewrite decide_True by (apply list_elem_of_In, iter_spec; eauto).
      unfold own_at. by rewrite Hx.
    + intros q Hq. rewrite set_route_files_own.
      destruct (decide (q ∈ iter "route-files" doc)) as [Hin|_].
      * apply list_elem_of_In, iter_spec in Hin as (y & Hy & Hty).
        by destruct (Hq (Huniq q y Hy Hty)).
      * by destruct (own_at q doc).
  - intros Hnone. split; [|exact Htrace].
    unfold set_route_files. by rewrite (iter_nil _ _ Hnone).
Qed.

Lemma rewriter_one_or_no_element_witness :
  (exists w' doc',
     _add_rou_to_default_sumocfg (Demo.workspace ["a.rou.xml"] Demo.sumocfg)
     = (Ok tt, w') /\
     document DEFAULT_SUMOCFG w' = Some doc' /\
     own_at [0; 1] doc'
     = Some ("route-files", {[ "value" := "a.rou.xml" ]}, None, None) /\
     forall q, q <> [0; 1] -> own_at q doc' = own_at q Demo.sumocfg) /\
  (exists w',
     _add_rou_to_default_sumocfg
       (Demo.workspace ["a.rou.xml"] (Demo.leaf "configuration"))
     = (Ok tt, w') /\
     document DEFAULT_SUMOCFG w' = Some (Demo.leaf "configuration") /\
     trace w' = [EvListdir; EvParse DEFAULT_SUMOCFG; EvWrite DEFAULT_SUMOCFG]).
Proof.
  split.
  - destruct (rewriter_one_or_no_element
                (Demo.workspace ["a.rou.xml"] Demo.sumocfg)
                ["a.rou.xml"; DEFAULT_SUMOCFG] Demo.sumocfg eq_refl eq_refl)
      as (w' & doc' & Hrun & Hdoc & Hone & _).
    exists w', doc'. split; [exact Hrun|]. split; [exact Hdoc|].
    destruct (Hone [0; 1]
                (mkElement "route-files" {[ "value" := "stale.rou.xml" ]} None None [])
                eq_refl eq_refl) as [Hp Hq].
    + intros q y Hy Ht.
      assert (In q (iter "route-files" Demo.sumocfg)) as Hin
        by (apply iter_spec; eauto).
      vm_compute in Hin. destruct Hin as [<-|[]]. reflexivity.
    + split; [|exact Hq]. rewrite Hp. vm_compute. reflexivity.
  - destruct (rewriter_one_or_no_element
                (Demo.workspace ["a.rou.xml"] (Demo.leaf "configuration"))
                ["a.rou.xml"; DEFAULT_SUMOCFG] (Demo.leaf "configuration")
                eq_refl eq_refl)
      as (w' & doc' & Hrun & Hdoc & _ & Hnone).
    destruct Hnone as [-> Htrace].
    + intros [|i q] y Hy; [|destruct i; discriminate Hy].
      injection Hy as <-. discriminate.
    + exists w'. split; [exact Hrun|]. split; [exact Hdoc | exact Htrace].
Defined.

(** C10: the rewriter takes every name that contains [.rou.xml] for a
    route file, wherever in the name it stands: [x.rou.xml.bak] counts
    although it does not end in [.rou.xml].  Every such name free of
    commas that the working directory lists is one of the comma-separated
    entries of the value written; in particular [x.rou.xml.bak], and the
    flows file [osm_pt.rou.xml] of the second stage next to every other
    route file. *)
Theorem route_file_discovery (w : world) (items : list string) (doc : Element) :
  listing w = Some items ->
  document DEFAULT_SUMOCFG w = Some doc ->
  exists w' doc',
    _add_rou_to_default_sumocfg w = (Ok tt, w') /\
    document DEFAULT_SUMOCFG w' = Some doc' /\
    (forall p x, elem_at p doc = Some x -> tag x = "route-files" ->
       exists x', elem_at p doc' = Some x' /\
                  attrib x' !! "value" = Some (route_files_value items)) /\
    is_route_file "x.rou.xml.bak" = true /\
    (In "x.rou.xml.bak" items ->
     In "x.rou.xml.bak" (Str.split "," (route_files_value items))) /\
    (In DEFAULT_PT_FLOWS items ->
     In DEFAULT_PT_FLOWS (Str.split "," (route_files_value items))) /\
    (forall n, In n items -> Str.contains ".rou.xml" n = true ->
       Str.split "," n = [n] ->
       In n (Str.split "," (route_files_value items))).
Proof.
  intros Hl Hd.
  destruct (rewriter_run w items doc Hl Hd) as (w' & Hrun & Hdoc & _ & _).
  exists w', (set_route_files (route_files_value items) doc).
  split; [done|]. split; [done|]. split.
  { intros p x Hx Ht.
    destruct (set_route_files_value (route_files_value items) doc p x Hx Ht)
      as (x' & Hx' & _ & Hv). by exists x'. }
  split; [reflexivity|]. split; [|split].
  - intros Hin. by apply route_file_listed.
  - intros Hin. by apply route_file_listed.
  - intros n Hin Hc Hs. by apply route_file_listed.
Qed.

Lemma route_file_discovery_witness :
  exists w' doc',
    _add_rou_to_default_sumocfg
      (Demo.workspace ["osm_pt.rou.xml"; "x.rou.xml.bak"; "osm_activities.rou.xml"]
         Demo.sumocfg)
    = (Ok tt, w') /\
    document DEFAULT_SUMOCFG w' = Some doc' /\
    (exists x', elem_at [0; 1] doc' = Some x' /\
                attrib x' !! "value"
                = Some "osm_pt.rou.xml,x.rou.xml.bak,osm_activities.rou.xml").
Proof.
  destruct (route_file_discovery
              (Demo.workspace
                 ["osm_pt.rou.xml"; "x.rou.xml.bak"; "osm_activities.rou.xml"]
                 Demo.sumocfg)
              ["osm_pt.rou.xml"; "x.rou.xml.bak"; "osm_activities.rou.xml";
               DEFAULT_SUMOCFG]
              Demo.sumocfg eq_refl eq_refl)
    as (w' & doc' & Hrun & Hdoc & Hval & _).
  exists w', doc'. split; [exact Hrun|]. split; [exact Hdoc|].
  exact (Hval [0; 1]
           (mkElement "route-files" {[ "value" := "stale.rou.xml" ]} None None [])
           eq_refl eq_refl).
Defined.

(** ** The Artifact Merger *)

(** C2: when the two parking files parse to documents with roots [d1] and
    [d2] and the target can be written, the merger succeeds and the
    document it writes has the tag and the attributes of [d1] and, as
    children, the children of [d1] followed by the children of [d2], each
    in their order: with [m] and [n] children it has [m + n]. *)
Theorem merge_appends_children (w : world) (side areas complete : string)
    (d1 d2 : Element) :
  (xml_parse side w).1 = Ok d1 ->
  (xml_parse areas w).1 = Ok d2 ->
  writable complete w = true ->
  exists w' merged,
    _merge_parking_files side areas complete w = (Ok tt, w') /\
    document complete w' = Some merged /\
    children merged = children d1 ++ children d2 /\
    length (children merged) = length (children d1) + length (children d2) /\
    tag merged = tag d1 /\
    attrib merged = attrib d1.
Proof.
  intros H1 H2 Hw.
  destruct (merger_run w side areas complete d1 d2 H1 H2 Hw) as (w' & Hrun & Hdoc & _).
  exists w', (merge_roots d1 d2). split; [done|]. split; [done|].
  rewrite merge_roots_spec. simpl. by rewrite length_app.
Qed.

Lemma merge_appends_children_witness :
  exists w' merged,
    _merge_parking_files DEFAULT_SIDE_PARKING_XML DEFAULT_PARKING_AREAS
      DEFAULT_COMPLETE_PARKING_XML Demo.parking = (Ok tt, w') /\
    document DEFAULT_COMPLETE_PARKING_XML w' = Some merged /\
    children merged
    = [Demo.leaf "parkingSpace"; Demo.leaf "parkingArea"; Demo.leaf "parkingArea"] /\
    length (children merged) = 1 + 2 /\
    tag merged = "additional" /\
    attrib merged = {[ "id" := "parkingSpace" ]}.
Proof.
  apply (merge_appends_children Demo.parking DEFAULT_SIDE_PARKING_XML
           DEFAULT_PARKING_AREAS DEFAULT_COMPLETE_PARKING_XML
           (Demo.additional 1 "parkingSpace") (Demo.additional 2 "parkingArea")).
  - reflexivity.
  - reflexivity.
  - reflexivity.
Defined.

(** ** The argument vector of the network conversion *)

(** C6, as stated, fails: the map file may itself be called [--lefthand],
    and then the vector holds that string although the flag is unset. *)
Lemma lefthand_marker_counterexample :
  ~ (forall filename lefthand,
       In "--lefthand" (netconvert_options filename lefthand) <-> lefthand = true).
Proof.
  intros H. destruct (H "--lefthand" false) as [H1 _].
  discriminate H1. vm_compute. tauto.
Qed.

(** C6, amended: for a map file not itself called [--lefthand], the
    vector holds the marker exactly when the flag is set.  Whatever the
    file name: the vector holds the marker exactly when the flag is set or
    the file is called so, the vector with the flag set is the vector with
    the flag unset followed by the marker, and it is the vector handed to
    the process. *)
Theorem lefthand_marker (filename : string) (lefthand : bool) :
  (filename <> "--lefthand" ->
   (In "--lefthand" (netconvert_options filename lefthand) <-> lefthand = true)) /\
  (In "--lefthand" (netconvert_options filename lefthand)
   <-> lefthand = true \/ filename = "--lefthand") /\
  netconvert_options filename true
  = netconvert_options filename false ++ ["--lefthand"] /\
  forall E w status n,
    spawn E (netconvert_options filename lefthand) (cwd w) (fs w) = Some (status, n) ->
    _call_netconvert E filename lefthand w
    = (Ok tt, mkWorld n (cwd w)
                (trace w ++ [EvSpawn (netconvert_options filename lefthand)])).
Proof.
  assert (In "--lefthand" (netconvert_options filename lefthand)
          <-> lefthand = true \/ filename = "--lefthand") as Hin.
  { destruct lefthand; simpl; split.
    - by left.
    - intros _. do 13 right. by left.
    - intros H. right.
      repeat (destruct H as [H|H]; [try discriminate H|]); done.
    - intros [H| ->]; [done|]. do 4 right. by left. }
  split; [|split; [exact Hin|split]].
  - intros Hf. rewrite Hin. split; [by intros [H|H] | by left].
  - reflexivity.
  - intros E w status n H. unfold _call_netconvert. rewrite bind_unfold.
    unfold subprocess_call. by rewrite H.
Qed.

Lemma lefthand_marker_witness :
  (In "--lefthand" (netconvert_options "town.osm" true) <-> true = true) /\
  netconvert_options "town.osm" true
  = netconvert_options "town.osm" false ++ ["--lefthand"] /\
  forall E w status n,
    spawn E (netconvert_options "town.osm" true) (cwd w) (fs w) = Some (status, n) ->
    _call_netconvert E "town.osm" true w
    = (Ok tt, mkWorld n (cwd w)
                (trace w ++ [EvSpawn (netconvert_options "town.osm" true)])).
Proof.
  destruct (lefthand_marker "town.osm" true) as (H1 & _ & H2 & H3).
  split; [apply H1; discriminate|]. by split.
Defined.

(** ** Runs of the pipeline *)

Lemma same_refl {A : Type} (m : M A) : same m m.
Proof. by intros w. Qed.

Lemma same_bind {A B : Type} (m1 m2 : M A) (k1 k2 : A -> M B) :
  same m1 m2 -> (forall a, same (k1 a) (k2 a)) -> same (m1 ≫= k1) (m2 ≫= k2).
Proof.
  intros Hm Hk w. rewrite !bind_unfold, Hm.
  destruct (m2 w) as [[a|e] w']; [apply Hk | done].
Qed.

(** A call of a process followed by nothing that reads its status does the
    same whatever the status. *)
Lemma subprocess_status_dropped E argv :
  same (subprocess_call E argv ;; mret tt)
       (subprocess_call (always_succeeding E) argv ;; mret tt).
Proof.
  intros w. rewrite !bind_unfold. unfold subprocess_call. simpl.
  by destruct (spawn E argv (cwd w) (fs w)) as [[status n]|].
Qed.

Lemma invoke_same f (m1 m2 : M unit) : same m1 m2 -> same (invoke f m1) (invoke f m2).
Proof. intros H. apply same_bind; [apply same_refl | by intros _]. Qed.

(** C3: a run is, in its result, its final file system, its final working
    directory and everything it did, the run in which every spawned
    process (network converter, polygon converter, simulator) returned
    status [0]: no exit status is ever inspected. *)
Theorem exit_status_never_inspected (E : externals) (cmd_args : list string)
    (w : world) :
  main E cmd_args w = main (always_succeeding E) cmd_args w.
Proof.
  revert w. change (same (main E cmd_args) (main (always_succeeding E) cmd_args)).
  unfold main. simpl get_options.
  destruct (get_options E cmd_args) as [args|e]; [|apply same_refl].
  repeat first
    [ apply same_refl
    | apply invoke_same; apply subprocess_status_dropped
    | apply same_bind; [|intros _] ].
Qed.

Lemma exit_status_never_inspected_witness :
  (main (Demo.tools 1 false) Demo.argv Demo.checkout).1 = Ok tt /\
  main (Demo.tools 1 false) Demo.argv Demo.checkout
  = main (always_succeeding (Demo.tools 1 false)) Demo.argv Demo.checkout.
Proof.
  split; [reflexivity|].
  apply (exit_status_never_inspected (Demo.tools 1 false) Demo.argv Demo.checkout).
Defined.

Lemma calls_app tr1 tr2 : calls (tr1 ++ tr2) = calls tr1 ++ calls tr2.
Proof. apply omap_app. Qed.

Lemma runs_ret {A : Type} (a : A) : runs (mret a) [].
Proof. intros w. exists []. simpl. rewrite app_nil_r. by repeat split. Qed.

Lemma runs_raise {A : Type} (e : exn) l : runs (raise (A := A) e) l.
Proof.
  intros w. exists []. simpl. rewrite app_nil_r.
  split; [done|]. split; [apply prefix_nil | done].
Qed.

Lemma runs_bind {A B : Type} (m : M A) (k : A -> M B) l1 l2 :
  runs m l1 -> (forall a, runs (k a) l2) -> runs (m ≫= k) (l1 ++ l2).
Proof.
  intros Hm Hk w. rewrite bind_unfold.
  destruct (Hm w) as (evs1 & Ht1 & Hp1 & Hok1).
  destruct (m w) as [[a|e] w1]; simpl in *.
  - destruct (Hk a w1) as (evs2 & Ht2 & Hp2 & Hok2).
    exists (evs1 ++ evs2). rewrite Ht2, Ht1, calls_app, (Hok1 a eq_refl).
    split; [by rewrite app_assoc|]. split; [by apply prefix_app|].
    intros b Hb. by rewrite (Hok2 b Hb).
  - exists evs1. split; [done|]. split; [by apply prefix_app_r | done].
Qed.

Lemma runs_eq {A : Type} (m : M A) l l' : runs m l -> l = l' -> runs m l'.
Proof. by intros H <-. Qed.

Lemma adds_ret {A : Type} Q (a : A) : adds Q (mret a).
Proof. intros w. exists []. simpl. by rewrite app_nil_r. Qed.

Lemma adds_bind {A B : Type} Q (m : M A) (k : A -> M B) :
  adds Q m -> (forall a, adds Q (k a)) -> adds Q (m ≫= k).
Proof.
  intros Hm Hk w. rewrite bind_unfold. destruct (Hm w) as (evs1 & Ht1 & H1).
  destruct (m w) as [[a|e] w1]; simpl in *; [|by exists evs1].
  destruct (Hk a w1) as (evs2 & Ht2 & H2). exists (evs1 ++ evs2).
  rewrite Ht2, Ht1, app_assoc. split; [done|]. by apply Forall_app.
Qed.

(** A step that adds at most one event. *)
Lemma adds_step {A : Type} Q (m : M A) :
  (forall w, (m w).2 = w \/ exists ev, trace (m w).2 = trace w ++ [ev] /\ Q ev) ->
  adds Q m.
Proof.
  intros H w. destruct (H w) as [Hw|(ev & Ht & Hq)].
  - exists []. rewrite Hw, app_nil_r. by split.
  - exists [ev]. split; [done|]. by constructor.
Qed.

Lemma adds_emit Q ev : Q ev -> adds Q (emit ev).
Proof. intros H. apply adds_step. intros w. right. by exists ev. Qed.

Lemma adds_os_makedirs Q p : Q (EvMakedirs p) -> adds Q (os_makedirs p).
Proof.
  intros HQ. apply adds_step. intros w. unfold os_makedirs.
  destruct (decide (p = "")); [by left|].
  destruct (fs_makedirs _ _); [right; by eexists|].
  by destruct (fs_lookup _ _) as [[|]|]; left.
Qed.

Lemma adds_shutil_copy Q src dst : Q (EvCopy src dst) -> adds Q (shutil_copy src dst).
Proof.
  intros HQ. apply adds_step. intros w. unfold shutil_copy.
  destruct (decide (src = "" ∨ dst = "")); [by left|].
  destruct (fs_lookup (resolve (cwd w) src) (fs w)) as [[c|]|]; try by left.
  destruct (decide _); [by left|].
  destruct (fs_lookup (copy_target src dst w) (fs w)) as [[|]|]; try by left.
  - destruct (fs_put _ _ _); [right; by eexists | by left].
  - destruct (fs_put _ _ _); [right; by eexists | by left].
Qed.

Lemma adds_os_chdir Q p : Q (EvChdir p) -> adds Q (os_chdir p).
Proof.
  intros HQ. apply adds_step. intros w. unfold os_chdir.
  destruct (decide (p = "")); [by left|].
  destruct (fs_lookup _ _) as [[|]|]; try by left. right. by eexists.
Qed.

Lemma adds_os_listdir Q : Q EvListdir -> adds Q os_listdir.
Proof.
  intros HQ. apply adds_step. intros w. unfold os_listdir.
  destruct (fs_lookup _ _) as [[|]|]; try by left. right. by eexists.
Qed.

Lemma adds_xml_parse Q file : Q (EvParse file) -> adds Q (xml_parse file).
Proof.
  intros HQ. apply adds_step. intros w. unfold xml_parse.
  destruct (decide (file = "")); [by left|].
  destruct (fs_lookup _ _) as [[[|]|]|]; try by left. right. by eexists.
Qed.

Lemma adds_xml_write Q file root : Q (EvWrite file) -> adds Q (xml_write file root).
Proof.
  intros HQ. apply adds_step. intros w. unfold xml_write.
  destruct (decide (file = "")); [by left|].
  destruct (fs_lookup _ _) as [[|]|]; try by left.
  - destruct (fs_put _ _ _); [right; by eexists | by left].
  - destruct (fs_put _ _ _); [right; by eexists | by left].
Qed.

Lemma adds_subprocess_call Q E argv :
  Q (EvSpawn argv) -> adds Q (subprocess_call E argv).
Proof.
  intros HQ. apply adds_step. intros w. unfold subprocess_call.
  destruct (spawn E argv (cwd w) (fs w)) as [[status n]|]; [|by left].
  right. by eexists.
Qed.

Lemma adds_call_main Q module tool args :
  Q (EvMain module args) -> adds Q (call_main module tool args).
Proof.
  intros HQ. apply adds_step. intros w. unfold call_main.
  destruct (tool args (cwd w) (fs w)) as [[r d] n]. right. by eexists.
Qed.

Lemma adds_when Q b (m : M unit) : adds Q m -> adds Q (when b m).
Proof. intros H. destruct b; [done | apply adds_ret]. Qed.

(** The functions of the script add neither a call from [main] nor a
    change of the working directory. *)
Ltac adds_body :=
  repeat first
    [ apply adds_bind; [|intros ?]
    | apply adds_ret
    | apply adds_when
    | apply adds_emit; done
    | apply adds_os_makedirs; done
    | apply adds_shutil_copy; done
    | apply adds_os_listdir; done
    | apply adds_xml_parse; done
    | apply adds_xml_write; done
    | apply adds_subprocess_call; done
    | apply adds_call_main; done ].

Lemma calls_no_call evs : Forall no_call evs -> calls evs = [].
Proof.
  induction 1 as [|ev evs Hev _ IH]; [done|].
  change (ev :: evs) with ([ev] ++ evs). by rewrite calls_app, Hev, IH.
Qed.

Lemma runs_of_adds {A : Type} (m : M A) : adds no_call m -> runs m [].
Proof.
  intros H w. destruct (H w) as (evs & Ht & Hq). exists evs.
  rewrite (calls_no_call _ Hq). by repeat split.
Qed.

Lemma runs_emit ev : calls [ev] = [] -> runs (emit ev) [].
Proof. intros H. by apply runs_of_adds, adds_emit. Qed.

Lemma runs_os_makedirs p : runs (os_makedirs p) [].
Proof. by apply runs_of_adds, adds_os_makedirs. Qed.

Lemma runs_shutil_copy src dst : runs (shutil_copy src dst) [].
Proof. by apply runs_of_adds, adds_shutil_copy. Qed.

Lemma runs_os_chdir p : runs (os_chdir p) [].
Proof. by apply runs_of_adds, adds_os_chdir. Qed.

Lemma runs_os_listdir : runs os_listdir [].
Proof. by apply runs_of_adds, adds_os_listdir. Qed.

Lemma runs_xml_parse file : runs (xml_parse file) [].
Proof. by apply runs_of_adds, adds_xml_parse. Qed.

Lemma runs_xml_write file root : runs (xml_write file root) [].
Proof. by apply runs_of_adds, adds_xml_write. Qed.

Lemma runs_subprocess_call E argv : runs (subprocess_call E argv) [].
Proof. by apply runs_of_adds, adds_subprocess_call. Qed.

Lemma runs_call_main module tool args : runs (call_main module tool args) [].
Proof. by apply runs_of_adds, adds_call_main. Qed.

Lemma runs_when b (m : M unit) : runs m [] -> runs (when b m) [].
Proof. intros H. destruct b; [done | apply runs_ret]. Qed.

Lemma runs_seq {A B : Type} (m : M A) (k : A -> M B) :
  runs m [] -> (forall a, runs (k a) []) -> runs (m ≫= k) [].
Proof. intros Hm Hk. by apply (runs_bind m k [] []). Qed.

Lemma runs_invoke f (body : M unit) : runs body [] -> runs (invoke f body) [f].
Proof.
  intros H. unfold invoke. apply (runs_bind _ _ [f] []); [|by intros _].
  intros w. exists [EvEnter f]. by repeat split.
Qed.

Create HintDb runs.

#[local] Hint Resolve runs_ret runs_os_makedirs runs_shutil_copy runs_os_chdir
  runs_os_listdir runs_xml_parse runs_xml_write runs_subprocess_call
  runs_call_main : runs.

Ltac runs_quiet :=
  repeat first
    [ apply runs_when
    | apply runs_emit; reflexivity
    | apply runs_seq; [|intros ?]
    | solve [auto with runs] ].

Lemma runs_main E cmd_args : runs (main E cmd_args) full_sequence.
Proof.
  unfold main. destruct (get_options E cmd_args) as [args|e]; [|apply runs_raise].
  eapply runs_eq.
  - repeat first
      [ eapply runs_bind;
        [ first [ apply runs_invoke;
                  unfold _call_netconvert, _call_pt_lines_to_flows,
                    _call_generate_parking_areas_from_osm, _merge_parking_files,
                    _call_generate_parking_area_rerouters, _call_polyconvert,
                    _call_generate_taz_buildings_from_osm,
                    _call_generate_amitran_from_taz_weights,
                    _call_generate_defaults_activitygen, _call_activitygen,
                    _add_rou_to_default_sumocfg, _call_sumo; runs_quiet
                | unfold logging_info; runs_quiet ]
        | intros _ ]
      | unfold logging_info; apply runs_emit; reflexivity ].
  - reflexivity.
Qed.


(** ** Leaving the interpreter *)

(** C7: without [SUMO_HOME] in the environment the program leaves at once
    with the fixed message (and status 1): [main] is not entered and the
    world is as it was.  Whenever [main] is entered and returns, the
    program leaves with status 0, whatever the collaborators did and
    whatever status the spawned processes returned. *)
Theorem exit_status_of_program (E : externals) (environ : gmap string string)
    (argv : list string) (w : world) :
  (environ !! "SUMO_HOME" = None ->
   program E environ argv w
   = (ExitMessage "please declare environment variable 'SUMO_HOME'", w) /\
   exit_status (program E environ argv w).1 = 1%Z /\
   calls (trace (program E environ argv w).2) = calls (trace w)) /\
  (forall home,
     environ !! "SUMO_HOME" = Some home ->
     sumo_tools_importable E home = true ->
     (main E argv w).1 = Ok tt ->
     program E environ argv w = (Finished, (main E argv w).2) /\
     exit_status (program E environ argv w).1 = 0%Z).
Proof.
  split.
  - intros Hnone. unfold program. by rewrite Hnone.
  - intros home Hhome Himp Hok. unfold program. rewrite Hhome, Himp.
    destruct (main E argv w) as [[[]|e] w']; [done | discriminate Hok].
Qed.

Lemma exit_status_of_program_witness :
  (program (Demo.tools 1 false) ∅ Demo.argv Demo.checkout
   = (ExitMessage "please declare environment variable 'SUMO_HOME'", Demo.checkout) /\
   exit_status (program (Demo.tools 1 false) ∅ Demo.argv Demo.checkout).1 = 1%Z /\
   calls (trace (program (Demo.tools 1 false) ∅ Demo.argv Demo.checkout).2)
   = calls (trace Demo.checkout)) /\
  (program (Demo.tools 1 false) {[ "SUMO_HOME" := "/opt/sumo" ]} Demo.argv Demo.checkout
   = (Finished, (main (Demo.tools 1 false) Demo.argv Demo.checkout).2) /\
   exit_status
     (program (Demo.tools 1 false) {[ "SUMO_HOME" := "/opt/sumo" ]}
        Demo.argv Demo.checkout).1 = 0%Z).
Proof.
  split.
  - apply (exit_status_of_program (Demo.tools 1 false) ∅ Demo.argv Demo.checkout).
    reflexivity.
  - apply (exit_status_of_program (Demo.tools 1 false)
             {[ "SUMO_HOME" := "/opt/sumo" ]} Demo.argv Demo.checkout)
      with (home := "/opt/sumo"); reflexivity.
Defined.

(** ** The workspace initialisation *)

Lemma fs_lookup_app p k n :
  fs_lookup (p ++ k) n =
  match fs_lookup p n with
  | Some m => fs_lookup k m
  | None => None
  end.
Proof.
  revert n. induction p as [|c p IH]; intros n; simpl; [done|].
  destruct n as [|es]; [done|]. by destruct (entry_lookup c es).
Qed.

(** What lies below a path that leads somewhere lies in a directory. *)
Lemma fs_lookup_parent p c n v :
  fs_lookup (p ++ [c]) n = Some v -> exists es, fs_lookup p n = Some (Dir es).
Proof.
  rewrite fs_lookup_app. destruct (fs_lookup p n) as [[|es]|]; try done.
  by exists es.
Qed.

(** [os.makedirs] creates no file. *)
Lemma fs_makedirs_file c : forall o n n' q,
  fs_makedirs o n = Some n' ->
  fs_lookup q n' = Some (File c) -> fs_lookup q n = Some (File c).
Proof.
  induction o as [|c0 o IH]; intros n n' q Hm Hq; simpl in Hm.
  - destruct n; [done|]. by injection Hm as <-.
  - destruct n as [|es]; [done|].
    destruct (fs_makedirs o (default (Dir []) (entry_lookup c0 es)))
      as [child'|] eqn:Hc; [|done].
    injection Hm as <-. destruct q as [|c1 q]; [done|]. simpl in *.
    destruct (decide (c0 = c1)) as [<-|Hne].
    + rewrite entry_lookup_set_eq in Hq.
      pose proof (IH _ _ _ Hc Hq) as H.
      destruct (entry_lookup c0 es) as [ch|]; [done|]. simpl in H.
      by destruct q.
    + by rewrite entry_lookup_set_ne in Hq.
Qed.

(** [os.makedirs] leaves a directory where it was asked to. *)
Lemma fs_makedirs_dir : forall o n n',
  fs_makedirs o n = Some n' -> exists es, fs_lookup o n' = Some (Dir es).
Proof.
  induction o as [|c0 o IH]; intros n n' Hm; simpl in Hm.
  - destruct n as [|es]; [done|]. injection Hm as <-. by exists es.
  - destruct n as [|es]; [done|].
    destruct (fs_makedirs o (default (Dir []) (entry_lookup c0 es)))
      as [child'|] eqn:Hc; [|done].
    injection Hm as <-. simpl. rewrite entry_lookup_set_eq. by eapply IH.
Qed.

(** Writing a file changes no file beside it. *)
Lemma fs_put_file v c : forall t n n' q,
  fs_put t v n = Some n' -> ~ t `prefix_of` q ->
  fs_lookup q n' = Some (File c) -> fs_lookup q n = Some (File c).
Proof.
  induction t as [|c0 t IH]; intros n n' q Hp Hpre Hq; simpl in Hp; [done|].
  destruct n as [|es]; [done|].
  assert (forall child', n' = Dir (entry_set c0 child' es) ->
            (forall q', q = c0 :: q' -> fs_lookup q' child' = Some (File c) ->
               exists ch, entry_lookup c0 es = Some ch /\
                          fs_lookup q' ch = Some (File c)) ->
            fs_lookup q (Dir es) = Some (File c)) as Hgen.
  { intros child' -> Hsame. destruct q as [|c1 q']; [done|]. simpl in *.
    destruct (decide (c0 = c1)) as [<-|Hne].
    - rewrite entry_lookup_set_eq in Hq.
      destruct (Hsame q' eq_refl Hq) as (ch & -> & Hch). done.
    - by rewrite entry_lookup_set_ne in Hq. }
  destruct t as [|c' t].
  - injection Hp as <-. apply (Hgen v); [done|].
    intros q' -> _. destruct Hpre. by exists q'.
  - destruct (entry_lookup c0 es) as [child|] eqn:Hc; [|done].
    destruct (fs_put (c' :: t) v child) as [child'|] eqn:Hput; [|done].
    injection Hp as <-. apply (Hgen child'); [done|].
    intros q' -> Hq'. exists child. split; [done|].
    apply (IH _ _ _ Hput); [|done].
    intros [k Hk]. destruct Hpre. exists k. by rewrite Hk.
Qed.

(** A file has nothing below it. *)
Lemma fs_put_below c c' t n n' q :
  fs_put t (File c) n = Some n' -> t `prefix_of` q ->
  fs_lookup q n' = Some (File c') -> q = t.
Proof.
  intros Hp [k ->] Hq. apply fs_lookup_put_eq in Hp.
  rewrite fs_lookup_app, Hp in Hq. destruct k; [by rewrite app_nil_r | done].
Qed.

Lemma removelast_dir o n es :
  fs_lookup o n = Some (Dir es) -> exists es', fs_lookup (removelast o) n = Some (Dir es').
Proof.
  destruct (decide (o = [])) as [->|Hne]; [by exists es|].
  destruct (exists_last Hne) as (k & z & ->).
  rewrite removelast_last. apply fs_lookup_parent.
Qed.

(** The ways [os.makedirs], [shutil.copy] and [os.chdir] can end. *)
Lemma os_makedirs_cases p w :
  (exists e, os_makedirs p w = (Raise e, w)) \/
  (exists n, fs_makedirs (resolve (cwd w) p) (fs w) = Some n /\
             os_makedirs p w
             = (Ok tt, mkWorld n (cwd w) (trace w ++ [EvMakedirs p]))).
Proof.
  unfold os_makedirs. destruct (decide (p = "")); [left; by eexists|].
  destruct (fs_makedirs _ _) as [n'|]; [right; by exists n'|].
  left. by destruct (fs_lookup _ _) as [[|]|]; eexists.
Qed.

Lemma shutil_copy_cases src dst w :
  (exists e, shutil_copy src dst w = (Raise e, w)) \/
  (exists c n,
     fs_lookup (resolve (cwd w) src) (fs w) = Some (File c) /\
     resolve (cwd w) src <> copy_target src dst w /\
     (forall es, fs_lookup (copy_target src dst w) (fs w) <> Some (Dir es)) /\
     fs_put (copy_target src dst w) (File c) (fs w) = Some n /\
     shutil_copy src dst w
     = (Ok tt, mkWorld n (cwd w) (trace w ++ [EvCopy src dst]))).
Proof.
  unfold shutil_copy. destruct (decide (src = "" ∨ dst = "")); [left; by eexists|].
  destruct (fs_lookup (resolve (cwd w) src) (fs w)) as [[c|]|];
    try (left; by eexists).
  destruct (decide _) as [|Hne]; [left; by eexists|].
  destruct (fs_lookup (copy_target src dst w) (fs w)) as [[|]|] eqn:Ht;
    try (left; by eexists).
  - destruct (fs_put _ _ _) as [n'|] eqn:Hp; [|left; by eexists].
    right. exists c, n'. by repeat split.
  - destruct (fs_put _ _ _) as [n'|] eqn:Hp; [|left; by eexists].
    right. exists c, n'. by repeat split.
Qed.

Lemma os_chdir_cases p w :
  (exists e, os_chdir p w = (Raise e, w)) \/
  os_chdir p w
  = (Ok tt, mkWorld (fs w) (resolve (cwd w) p) (trace w ++ [EvChdir p])).
Proof.
  unfold os_chdir. destruct (decide (p = "")); [left; by eexists|].
  destruct (fs_lookup _ _) as [[|]|]; try (left; by eexists). by right.
Qed.

(** Where the first template is read and where it would be written. *)
Lemma copy_target_cases src dst w :
  copy_target src dst w = resolve (cwd w) dst \/
  (exists es, fs_lookup (resolve (cwd w) dst) (fs w) = Some (Dir es)) /\
  (copy_target src dst w = removelast (resolve (cwd w) dst) \/
   copy_target src dst w = resolve (cwd w) dst ++ [Str.basename src]).
Proof.
  unfold copy_target.
  destruct (fs_lookup (resolve (cwd w) dst) (fs w)) as [[|es]|]; try by left.
  unfold norm_step. destruct (decide _); [by left|].
  right. split; [by exists es|]. destruct (decide _); [by left | by right].
Qed.

(** A run that has copied the map file and the first template was started
    where a [defaults] folder was. *)
Lemma defaults_folder_needed w osm out n1 c1 n2 c2 :
  fs_makedirs (resolve (cwd w) out) (fs w) = Some n1 ->
  let w1 := mkWorld n1 (cwd w) [] in
  fs_lookup (resolve (cwd w) osm) n1 = Some (File c1) ->
  (forall es, fs_lookup (copy_target osm out w1) n1 <> Some (Dir es)) ->
  fs_put (copy_target osm out w1) (File c1) n1 = Some n2 ->
  let w2 := mkWorld n2 (cwd w) [] in
  fs_lookup ((cwd w ++ ["defaults"]) ++ ["activitygen.json"]) n2 = Some (File c2) ->
  (cwd w ++ ["defaults"]) ++ ["activitygen.json"]
  <> copy_target "defaults/activitygen.json" out w2 ->
  exists es, fs_lookup (cwd w ++ ["defaults"]) (fs w) = Some (Dir es).
Proof.
  intros Hmk w1 Hs1 Hnd Hput w2 Hx Hne.
  set (o := resolve (cwd w) out) in *.
  set (D := cwd w ++ ["defaults"]) in *.
  destruct (fs_makedirs_dir _ _ _ Hmk) as [eso Ho].
  destruct (decide (copy_target osm out w1 `prefix_of` D ++ ["activitygen.json"]))
    as [Hpre|Hpre].
  - exfalso.
    pose proof (fs_put_below _ _ _ _ _ _ Hput Hpre Hx) as Ht1.
    destruct (copy_target_cases osm out w1) as [Ht|[_ [Ht|Ht]]];
      simpl in Ht; fold o in Ht.
    + apply (Hnd eso). by rewrite Ht.
    + destruct (removelast_dir _ _ _ Ho) as [es' Hes']. apply (Hnd es').
      by rewrite Ht.
    + rewrite Ht in Ht1. apply app_inj_tail in Ht1 as [HoD Hb].
      destruct (fs_lookup_parent _ _ _ _ Hx) as [esD HD].
      apply Hne. unfold copy_target. simpl. fold o. by rewrite <- HoD, HD.
  - pose proof (fs_put_file _ _ _ _ _ _ Hput Hpre Hx) as H1.
    pose proof (fs_makedirs_file _ _ _ _ _ Hmk H1) as H0.
    by apply fs_lookup_parent in H0.
Qed.

Lemma bind_ok {A B : Type} (m : M A) (k : A -> M B) w a w' :
  m w = (Ok a, w') -> (m ≫= k) w = k a w'.
Proof. intros H. by rewrite bind_unfold, H. Qed.

Lemma bind_raise {A B : Type} (m : M A) (k : A -> M B) w e w' :
  m w = (Raise e, w') -> (m ≫= k) w = (Raise e, w').
Proof. intros H. by rewrite bind_unfold, H. Qed.

(** The initialisation without the profiler: directory, map file, the five
    templates, change of directory. *)
Lemma initialisation_run (osm out : string) (k : M unit) (w : world) :
  adds no_chdir k ->
  let body :=
    os_makedirs out ;;
    shutil_copy osm out ;;
    shutil_copy "defaults/activitygen.json" out ;;
    shutil_copy "defaults/basic.vType.xml" out ;;
    shutil_copy "defaults/duarouter.sumocfg" out ;;
    shutil_copy "defaults/osm.netccfg" out ;;
    shutil_copy "defaults/osm.sumocfg" out ;;
    os_chdir out ;;
    k in
  let steps :=
    [EvMakedirs out; EvCopy osm out] ++
    map (fun t => EvCopy ("defaults/" +:+ t) out) templates ++ [EvChdir out] in
  exists evs,
    trace (body w).2 = trace w ++ evs /\
    ((exists e, (body w).1 = Raise e) /\
     evs `prefix_of` removelast steps /\
     cwd (body w).2 = cwd w
     \/
     exists rest,
       evs = steps ++ rest /\
       Forall no_chdir rest /\
       exists es, fs_lookup (cwd w ++ ["defaults"]) (fs w) = Some (Dir es)).
Proof.
  intros Hk body steps. unfold body.
  assert (forall e (w' : world) evs,
            trace w' = trace w ++ evs -> cwd w' = cwd w ->
            evs `prefix_of` removelast steps ->
            exists evs0,
              trace (Raise (A := unit) e, w').2 = trace w ++ evs0 /\
              ((exists e0, (Raise (A := unit) e, w').1 = Raise e0) /\
               evs0 `prefix_of` removelast steps /\
               cwd (Raise (A := unit) e, w').2 = cwd w
               \/
               exists rest,
                 evs0 = steps ++ rest /\
                 Forall no_chdir rest /\
                 exists es, fs_lookup (cwd w ++ ["defaults"]) (fs w) = Some (Dir es)))
    as Hfail.
  { intros e w' evs Ht Hc Hp. exists evs. split; [done|]. left.
    split; [by exists e|]. by split. }
  destruct (os_makedirs_cases out w) as [[e He]|(n1 & Hmk & He)].
  { rewrite (bind_raise _ _ _ _ _ He).
    apply (Hfail e w []); [by rewrite app_nil_r | done | apply prefix_nil]. }
  rewrite (bind_ok _ _ _ _ _ He). clear He.
  match goal with |- context [(shutil_copy ?s ?d ≫= _) ?w0] =>
    destruct (shutil_copy_cases s d w0)
      as [[e He]|(c1 & n2 & Hs1 & Hne1 & Hnd1 & Hput1 & He)] end.
  { rewrite (bind_raise _ _ _ _ _ He).
    apply (Hfail e _ [EvMakedirs out]); [done | done | by eexists]. }
  rewrite (bind_ok _ _ _ _ _ He). clear He.
  match goal with |- context [(shutil_copy ?s ?d ≫= _) ?w0] =>
    destruct (shutil_copy_cases s d w0)
      as [[e He]|(c2 & n3 & Hs2 & Hne2 & Hnd2 & Hput2 & He)] end.
  { rewrite (bind_raise _ _ _ _ _ He).
    apply (Hfail e _ [EvMakedirs out; EvCopy osm out]);
      [simpl; by rewrite <- app_assoc | done | by eexists]. }
  rewrite (bind_ok _ _ _ _ _ He). clear He.
  assert (exists es, fs_lookup (cwd w ++ ["defaults"]) (fs w) = Some (Dir es))
    as Hdefaults.
  { apply (defaults_folder_needed w osm out n1 c1 n2 c2 Hmk Hs1 Hnd1 Hput1).
    - exact Hs2.
    - exact Hne2. }
  clear Hs1 Hne1 Hnd1 Hput1 Hs2 Hne2 Hnd2 Hput2 Hmk.
  match goal with |- context [(shutil_copy ?s ?d ≫= _) ?w0] =>
    destruct (shutil_copy_cases s d w0) as [[e He]|(c3 & n4 & _ & _ & _ & _ & He)] end.
  { rewrite (bind_raise _ _ _ _ _ He).
    apply (Hfail e _ [EvMakedirs out; EvCopy osm out;
                      EvCopy "defaults/activitygen.json" out]);
      [simpl; by rewrite <- !app_assoc | done | by eexists]. }
  rewrite (bind_ok _ _ _ _ _ He). clear He.
  match goal with |- context [(shutil_copy ?s ?d ≫= _) ?w0] =>
    destruct (shutil_copy_cases s d w0) as [[e He]|(c4 & n5 & _ & _ & _ & _ & He)] end.
  { rewrite (bind_raise _ _ _ _ _ He).
    apply (Hfail e _ [EvMakedirs out; EvCopy osm out;
                      EvCopy "defaults/activitygen.json" out;
                      EvCopy "defaults/basic.vType.xml" out]);
      [simpl; by rewrite <- !app_assoc | done | by eexists]. }
  rewrite (bind_ok _ _ _ _ _ He). clear He.
  match goal with |- context [(shutil_copy ?s ?d ≫= _) ?w0] =>
    destruct (shutil_copy_cases s d w0) as [[e He]|(c5 & n6 & _ & _ & _ & _ & He)] end.
  { rewrite (bind_raise _ _ _ _ _ He).
    apply (Hfail e _ [EvMakedirs out; EvCopy osm out;
                      EvCopy "defaults/activitygen.json" out;
                      EvCopy "defaults/basic.vType.xml" out;
                      EvCopy "defaults/duarouter.sumocfg" out]);
      [simpl; by rewrite <- !app_assoc | done | by eexists]. }
  rewrite (bind_ok _ _ _ _ _ He). clear He.
  match goal with |- context [(shutil_copy ?s ?d ≫= _) ?w0] =>
    destruct (shutil_copy_cases s d w0) as [[e He]|(c6 & n7 & _ & _ & _ & _ & He)] end.
  { rewrite (bind_raise _ _ _ _ _ He).
    apply (Hfail e _ [EvMakedirs out; EvCopy osm out;
                      EvCopy "defaults/activitygen.json" out;
                      EvCopy "defaults/basic.vType.xml" out;
                      EvCopy "defaults/duarouter.sumocfg" out;
                      EvCopy "defaults/osm.netccfg" out]);
      [simpl; by rewrite <- !app_assoc | done | by eexists]. }
  rewrite (bind_ok _ _ _ _ _ He). clear He.
  match goal with |- context [(os_chdir ?d ≫= _) ?w0] =>
    destruct (os_chdir_cases d w0) as [[e He]|He] end.
  { rewrite (bind_raise _ _ _ _ _ He).
    apply (Hfail e _ [EvMakedirs out; EvCopy osm out;
                      EvCopy "defaults/activitygen.json" out;
                      EvCopy "defaults/basic.vType.xml" out;
                      EvCopy "defaults/duarouter.sumocfg" out;
                      EvCopy "defaults/osm.netccfg" out;
                      EvCopy "defaults/osm.sumocfg" out]);
      [simpl; by rewrite <- !app_assoc | done | by eexists]. }
  rewrite (bind_ok _ _ _ _ _ He). clear He.
  match goal with |- context [k ?w0] => destruct (Hk w0) as (rest & Ht & Hrest) end.
  exists (steps ++ rest). split.
  - rewrite Ht. simpl. rewrite <- !app_assoc. reflexivity.
  - right. by exists rest.
Qed.

(** C9: in every run the events up to the change of the working directory
    are the creation of the output directory, the copy of the map file and
    the copies of the five templates, read under the relative names
    [defaults/...] and so resolved against the directory the run was
    started in.  A run that raises before it has done all of them leaves
    the working directory as it was; a run that gets as far as changing the
    directory does so after exactly these steps, changes it only once, and
    was started in a directory that holds a [defaults] folder. *)
Theorem templates_copied_before_chdir (E : externals) (cmd_args : list string)
    (args : options) (w : world) :
  get_options E cmd_args = Ok args ->
  exists evs,
    trace (main E cmd_args w).2 = trace w ++ evs /\
    ((exists e, (main E cmd_args w).1 = Raise e) /\
     evs `prefix_of` removelast (initialisation args) /\
     cwd (main E cmd_args w).2 = cwd w
     \/
     exists rest,
       evs = initialisation args ++ rest /\
       Forall no_chdir rest /\
       exists es, fs_lookup (cwd w ++ ["defaults"]) (fs w) = Some (Dir es)).
Proof.
  intros Hparse. unfold main. rewrite Hparse. cbv zeta.
  unfold initialisation.
  match goal with |- context [os_chdir _ ≫= (fun _ => ?r)] => set (k := r) end.
  assert (adds no_chdir k) as Hk.
  { unfold k, invoke, logging_info, _call_netconvert, _call_pt_lines_to_flows,
      _call_generate_parking_areas_from_osm, _merge_parking_files,
      _call_generate_parking_area_rerouters, _call_polyconvert,
      _call_generate_taz_buildings_from_osm,
      _call_generate_amitran_from_taz_weights,
      _call_generate_defaults_activitygen, _call_activitygen,
      _add_rou_to_default_sumocfg, _call_sumo.
    adds_body. }
  destruct (profiling args).
  - rewrite (bind_ok _ _ w tt
               (mkWorld (fs w) (cwd w) (trace w ++ [EvProfiler true])) eq_refl).
    destruct (initialisation_run (osm_file args) (out_dir args) k
                (mkWorld (fs w) (cwd w) (trace w ++ [EvProfiler true])) Hk)
      as (evs & Ht & H).
    exists (EvProfiler true :: evs). split.
    { rewrite Ht. simpl. by rewrite <- app_assoc. }
    destruct H as [(He & Hp & Hc)|(rest & -> & Hrest & Hd)].
    + left. split; [exact He|]. split; [|exact Hc].
      by apply prefix_cons.
    + right. exists rest. by repeat split.
  - rewrite (bind_ok _ _ w tt w eq_refl).
    destruct (initialisation_run (osm_file args) (out_dir args) k w Hk)
      as (evs & Ht & H).
    exists evs. split; [exact Ht|].
    destruct H as [(He & Hp & Hc)|(rest & -> & Hrest & Hd)].
    + left. by repeat split.
    + right. exists rest. by repeat split.
Qed.

Lemma templates_copied_before_chdir_witness :
  (exists rest,
     trace (main (Demo.tools 0 false) Demo.argv Demo.checkout).2
     = [EvMakedirs "out"; EvCopy "town.osm" "out";
        EvCopy "defaults/activitygen.json" "out";
        EvCopy "defaults/basic.vType.xml" "out";
        EvCopy "defaults/duarouter.sumocfg" "out";
        EvCopy "defaults/osm.netccfg" "out";
        EvCopy "defaults/osm.sumocfg" "out";
        EvChdir "out"] ++ rest /\
     Forall no_chdir rest) /\
  (exists e, (main (Demo.tools 0 false) Demo.argv Demo.elsewhere).1 = Raise e) /\
  cwd (main (Demo.tools 0 false) Demo.argv Demo.elsewhere).2 = cwd Demo.elsewhere.
Proof.
  split.
  - destruct (templates_copied_before_chdir (Demo.tools 0 false) Demo.argv
                (mkOptions "town.osm" "out" false false) Demo.checkout eq_refl)
      as (evs & Ht & [((e & He) & _)|(rest & -> & Hrest & _)]).
    + vm_compute in He. discriminate He.
    + exists rest. split; [exact Ht | exact Hrest].
  - destruct (templates_copied_before_chdir (Demo.tools 0 false) Demo.argv
                (mkOptions "town.osm" "out" false false) Demo.elsewhere eq_refl)
      as (evs & Ht & [(He & _ & Hc)|(rest & _ & _ & es & Hes)]).
    + split; [exact He | exact Hc].
    + vm_compute in Hes. discriminate Hes.
Defined.

(** * Further properties *)

(** ** The value the rewriter builds *)

Lemma string_length_append (a b : string) :
  String.length (a +:+ b) = String.length a + String.length b.
Proof. induction a as [|x a IH]; [done|]. rewrite append_cons. simpl. by rewrite IH. Qed.

Lemma lstrip_length c s : String.length (Str.lstrip c s) <= String.length s.
Proof.
  induction s as [|a s IH]; simpl; [lia|].
  destruct (Ascii.eqb a c); simpl; lia.
Qed.

Lemma rstrip_length c s : String.length (Str.rstrip c s) <= String.length s.
Proof.
  induction s as [|a s IH]; simpl; [lia|].
  destruct (Str.rstrip c s) as [|b r]; simpl in *.
  - destruct (Ascii.eqb a c); simpl; lia.
  - lia.
Qed.

Lemma lstrip_lstrip c s : Str.lstrip c (Str.lstrip c s) = Str.lstrip c s.
Proof.
  induction s as [|a s IH]; simpl; [done|].
  destruct (Ascii.eqb a c) eqn:Ha; [done|]. simpl. by rewrite Ha.
Qed.

Lemma lstrip_fixed_head c a s :
  Str.lstrip c (String a s) = String a s -> Ascii.eqb a c = false.
Proof.
  simpl. destruct (Ascii.eqb a c); [|done]. intros H.
  pose proof (lstrip_length c s) as Hl. rewrite H in Hl. simpl in Hl. lia.
Qed.

Lemma lstrip_rstrip c s :
  Str.lstrip c s = s -> Str.lstrip c (Str.rstrip c s) = Str.rstrip c s.
Proof.
  destruct s as [|a s]; [done|]. intros Ha%lstrip_fixed_head.
  simpl Str.rstrip. destruct (Str.rstrip c s); rewrite ?Ha; simpl; by rewrite Ha.
Qed.

Lemma rstrip_rstrip c s : Str.rstrip c (Str.rstrip c s) = Str.rstrip c s.
Proof.
  induction s as [|a s IH]; [done|]. simpl.
  destruct (Str.rstrip c s) as [|b r] eqn:Hr.
  - destruct (Ascii.eqb a c) eqn:Ha; [done|]. simpl. by rewrite Ha.
  - change (Str.rstrip c (String a (String b r)))
      with (match Str.rstrip c (String b r) with
            | "" => if Ascii.eqb a c then "" else String a ""
            | String x y => String a (String x y)
            end).
    by rewrite IH.
Qed.

Lemma rstrip_app_vanishing c a b :
  Str.rstrip c b = "" -> Str.rstrip c (a +:+ b) = Str.rstrip c a.
Proof.
  intros Hb. induction a as [|x a IH]; [done|].
  rewrite append_cons. simpl. by rewrite IH.
Qed.

Lemma rstrip_app_staying c a b :
  Str.rstrip c b <> "" -> Str.rstrip c (a +:+ b) = a +:+ Str.rstrip c b.
Proof.
  intros Hb. induction a as [|x a IH]; [done|].
  rewrite !append_cons. simpl. rewrite IH.
  destruct (a +:+ Str.rstrip c b) eqn:Hab; [|done].
  destruct a; [|discriminate Hab]. by destruct Hb.
Qed.

(** Whatever is stripped has no separator left at either end. *)
Lemma strip_edges c s :
  (forall r, Str.strip c s <> String c r) /\
  (forall r, Str.strip c s <> r +:+ String c "").
Proof.
  assert (Str.lstrip c (Str.strip c s) = Str.strip c s) as Hl
    by (apply lstrip_rstrip, lstrip_lstrip).
  assert (Str.rstrip c (Str.strip c s) = Str.strip c s) as Hr
    by apply rstrip_rstrip.
  split; intros r Hv.
  - rewrite Hv in Hl. apply lstrip_fixed_head in Hl.
    by rewrite Ascii.eqb_refl in Hl.
  - rewrite Hv in Hr. rewrite rstrip_app_vanishing in Hr
      by (simpl; by rewrite Ascii.eqb_refl).
    pose proof (rstrip_length c r) as Hlen. rewrite Hr in Hlen.
    rewrite string_length_append in Hlen. simpl in Hlen. lia.
Qed.

(** X1: whatever the working directory lists, the value the rewriter
    writes neither begins nor ends with a comma. *)
Theorem route_files_value_edges (items : list string) :
  (forall r, route_files_value items <> String "," r) /\
  (forall r, route_files_value items <> r +:+ ",").
Proof. apply strip_edges. Qed.

Lemma contains_cons_false c a s :
  Str.contains (String c "") (String a s) = false ->
  Ascii.eqb a c = false /\ Str.contains (String c "") s = false.
Proof.
  simpl. destruct (Ascii.ascii_dec c a) as [->|Hne].
  - by destruct s.
  - intros H. split; [|done]. apply Ascii.eqb_neq. congruence.
Qed.

Lemma lstrip_free c s : Str.contains (String c "") s = false -> Str.lstrip c s = s.
Proof.
  destruct s as [|a s]; [done|]. intros [Ha _]%contains_cons_false.
  simpl. by rewrite Ha.
Qed.

Lemma rstrip_free c s : Str.contains (String c "") s = false -> Str.rstrip c s = s.
Proof.
  induction s as [|a s IH]; [done|]. intros [Ha Hs]%contains_cons_false.
  simpl. rewrite (IH Hs). destruct s; [by rewrite Ha | done].
Qed.

Lemma joined_concat n names :
  joined (n :: names) = String.concat "," (n :: names) +:+ ",".
Proof.
  revert n. induction names as [|m names IH]; intros n.
  - simpl. by rewrite append_nil_r.
  - change (joined (n :: m :: names)) with (n +:+ ("," +:+ joined (m :: names))).
    change (String.concat "," (n :: m :: names))
      with (n +:+ ("," +:+ String.concat "," (m :: names))).
    by rewrite IH, !append_assoc.
Qed.

Lemma rstrip_concat n names :
  (forall m, In m (n :: names) -> m <> "" /\ Str.contains "," m = false) ->
  Str.rstrip "," (String.concat "," (n :: names)) = String.concat "," (n :: names) /\
  String.concat "," (n :: names) <> "".
Proof.
  revert n. induction names as [|m names IH]; intros n H.
  - destruct (H n (or_introl eq_refl)) as [Hn Hc]. simpl.
    by rewrite rstrip_free.
  - change (String.concat "," (n :: m :: names))
      with (n +:+ ("," +:+ String.concat "," (m :: names))).
    destruct (IH m) as [Hr Hne]; [intros x Hx; apply H; by right|].
    assert (Str.rstrip "," ("," +:+ String.concat "," (m :: names))
            = "," +:+ String.concat "," (m :: names)) as Hr'.
    { rewrite rstrip_app_staying by (by rewrite Hr). by rewrite Hr. }
    split.
    + rewrite rstrip_app_staying by (by rewrite Hr'). by rewrite Hr'.
    + destruct (H n (or_introl eq_refl)) as [Hn _]. by destruct n.
Qed.

(** X2: when no route file of the working directory has a comma in its
    name, the value written is these names, in the order of the listing,
    joined by single commas. *)
Theorem route_files_value_concat (items : list string) :
  (forall n, In n items -> is_route_file n = true -> Str.contains "," n = false) ->
  route_files_value items = String.concat "," (filter is_route_file items).
Proof.
  intros Hfree. rewrite route_files_value_joined.
  assert (forall m, In m (filter is_route_file items) ->
            m <> "" /\ Str.contains "," m = false) as Hall.
  { intros m [Hr Hm]%list_elem_of_In%list_elem_of_filter.
    apply list_elem_of_In in Hm. apply Is_true_true in Hr.
    split; [|by apply Hfree]. intros ->. discriminate Hr. }
  destruct (filter is_route_file items) as [|n names]; [done|].
  rewrite joined_concat. unfold Str.strip.
  destruct (rstrip_concat n names Hall) as [Hr Hne].
  destruct (Hall n (or_introl eq_refl)) as [Hn Hc].
  assert (Str.lstrip "," (String.concat "," (n :: names) +:+ ",")
          = String.concat "," (n :: names) +:+ ",") as ->.
  { destruct n as [|a n]; [done|]. apply contains_cons_false in Hc as [Ha _].
    destruct names; simpl; by rewrite Ha. }
  rewrite rstrip_app_vanishing by done. exact Hr.
Qed.

Lemma route_files_value_concat_witness :
  route_files_value ["osm_pt.rou.xml"; "osm.net.xml"; "osm_activities.rou.xml"]
  = String.concat "," ["osm_pt.rou.xml"; "osm_activities.rou.xml"].
Proof.
  apply (route_files_value_concat
           ["osm_pt.rou.xml"; "osm.net.xml"; "osm_activities.rou.xml"]).
  intros n [<-|[<-|[<-|[]]]] _; reflexivity.
Defined.

(** ** The loop of the rewriter *)

Lemma lookup_map {A B : Type} (F : A -> B) (l : list A) i :
  map F l !! i = F <$> l !! i.
Proof. revert i. induction l as [|x l IH]; intros [|i]; simpl; auto. Qed.

Lemma own_at_cons i q e :
  own_at (i :: q) e =
  match children e !! i with
  | Some c => own_at q c
  | None => None
  end.
Proof. unfold own_at. simpl. by destruct (children e !! i). Qed.

(** Two trees that hold the same at every position are the same tree. *)
Lemma tree_ext : forall e1 e2, (forall q, own_at q e1 = own_at q e2) -> e1 = e2.
Proof.
  induction e1 as [tg a tx tl cs IH] using Element_induction.
  intros [tg' a' tx' tl' cs'] H.
  pose proof (H []) as H0. unfold own_at, own in H0. simpl in H0.
  injection H0 as -> -> -> ->. f_equal.
  apply list_eq. intros i. pose proof (fun q => H (i :: q)) as Hi.
  setoid_rewrite own_at_cons in Hi. simpl in Hi.
  destruct (cs !! i) as [c|] eqn:Hc; destruct (cs' !! i) as [c'|] eqn:Hc'.
  - f_equal. rewrite Forall_lookup in IH. by apply (IH i c Hc).
  - by specialize (Hi []).
  - by specialize (Hi []).
  - done.
Qed.

Lemma assign_unfold t k v e :
  assign t k v e =
  mkElement (tag e) (if decide (tag e = t) then <[k := v]> (attrib e) else attrib e)
    (text e) (tail e) (map (assign t k v) (children e)).
Proof. by destruct e. Qed.

Lemma own_at_assign t k v : forall q e,
  own_at q (assign t k v e) =
  (fun o => if decide (o.1.1.1 = t) then own_set k v o else o) <$> own_at q e.
Proof.
  induction q as [|i q IH]; intros e.
  - rewrite assign_unfold. unfold own_at, own, own_set. simpl.
    by destruct (decide (tag e = t)).
  - rewrite !own_at_cons, assign_unfold. simpl. rewrite lookup_map.
    destruct (children e !! i) as [c|]; simpl; [apply IH | done].
Qed.

(** The loop over the references [iter] yields is the one pass that
    assigns the attribute on every element with the tag. *)
Lemma set_route_files_assign v doc :
  set_route_files v doc = assign "route-files" "value" v doc.
Proof.
  apply tree_ext. intros q. rewrite set_route_files_own, own_at_assign.
  unfold own_at. destruct (elem_at q doc) as [x|] eqn:Hx; simpl; [|done].
  f_equal. destruct (decide (tag x = "route-files")) as [Ht|Ht].
  - rewrite decide_True; [done|]. apply list_elem_of_In, iter_spec. eauto.
  - rewrite decide_False; [done|].
    intros (y & Hy & Hty)%list_elem_of_In%iter_spec. congruence.
Qed.

Lemma assign_forget t k v : forall e1 e2,
  forget t k e1 = forget t k e2 -> assign t k v e1 = assign t k v e2.
Proof.
  induction e1 as [tg a tx tl cs IH] using Element_induction.
  intros [tg' a' tx' tl' cs'] H. simpl in H. injection H as -> Ha -> -> Hcs.
  simpl. f_equal.
  - destruct (decide (tg' = t)); [|done].
    by rewrite <- (insert_delete_eq a), <- (insert_delete_eq a'), Ha.
  - revert cs' Hcs. induction IH as [|c cs Hc _ IHcs]; intros [|c' cs'] Hcs;
      simpl in *; try done.
    injection Hcs as Hc' Hcs. f_equal; [by apply Hc | by apply IHcs].
Qed.

Lemma assign_assign t k u v : forall e,
  assign t k v (assign t k u e) = assign t k v e.
Proof.
  induction e as [tg a tx tl cs IH] using Element_induction. simpl. f_equal.
  - destruct (decide (tg = t)); [|done]. by rewrite insert_insert_eq.
  - rewrite map_map. induction IH as [|c cs Hc _ IHcs]; simpl; [done|].
    by rewrite Hc, IHcs.
Qed.

(** X3: what the [route-files] elements held under [value] before does
    not matter: two documents that differ at most there are rewritten to
    the same document.  The old value is replaced, never extended. *)
Theorem old_value_irrelevant (v : string) (doc1 doc2 : Element) :
  forget "route-files" "value" doc1 = forget "route-files" "value" doc2 ->
  set_route_files v doc1 = set_route_files v doc2.
Proof. intros H. rewrite !set_route_files_assign. by apply assign_forget. Qed.

Lemma old_value_irrelevant_witness :
  set_route_files "a.rou.xml" Demo.sumocfg
  = set_route_files "a.rou.xml" (set_route_files "stale,older" Demo.sumocfg).
Proof.
  apply (old_value_irrelevant "a.rou.xml" Demo.sumocfg
           (set_route_files "stale,older" Demo.sumocfg)).
  vm_compute. reflexivity.
Defined.

(** X4: assigning twice is assigning the second value: the value of a
    later pass wins, and a pass with the same value changes nothing. *)
Theorem set_route_files_twice (u v : string) (doc : Element) :
  set_route_files v (set_route_files u doc) = set_route_files v doc /\
  set_route_files v (set_route_files v doc) = set_route_files v doc.
Proof. rewrite !set_route_files_assign. split; apply assign_assign. Qed.

(** ** What writing a file leaves alone *)

Lemma entry_set_names c x y es :
  entry_lookup c es = Some y -> map fst (entry_set c x es) = map fst es.
Proof.
  induction es as [|[n z] es IH]; simpl; [done|].
  destruct (decide (n = c)) as [->|Hn]; [done|]. intros H. simpl. by rewrite IH.
Qed.

(** Replacing a file by a file changes the names no directory lists. *)
Lemma fs_put_names c0 c : forall t n n' q,
  fs_lookup t n = Some (File c0) ->
  fs_put t (File c) n = Some n' ->
  names_at q n' = names_at q n.
Proof.
  unfold names_at.
  induction t as [|c1 t IH]; intros n n' q Hl Hp; simpl in Hp; [done|].
  destruct n as [|es]; [done|]. simpl in Hl.
  destruct (entry_lookup c1 es) as [child|] eqn:Hc; [|done].
  assert (exists child',
            n' = Dir (entry_set c1 child' es) /\
            forall q', match fs_lookup q' child' with
                       | Some (Dir es') => Some (map fst es')
                       | _ => None
                       end
                       = match fs_lookup q' child with
                         | Some (Dir es') => Some (map fst es')
                         | _ => None
                         end) as (child' & -> & Hchild).
  { destruct t as [|c2 t].
    - injection Hp as <-. simpl in Hl. injection Hl as ->.
      exists (File c). split; [done|]. intros [|x q']; done.
    - destruct (fs_put (c2 :: t) (File c) child) as [child'|] eqn:Hput; [|done].
      injection Hp as <-. exists child'. split; [done|].
      intros q'. by apply (IH child child'). }
  destruct q as [|c3 q]; simpl.
  - by rewrite (entry_set_names _ _ child).
  - destruct (decide (c1 = c3)) as [<-|Hne].
    + rewrite entry_lookup_set_eq, Hc. apply Hchild.
    + by rewrite entry_lookup_set_ne.
Qed.

(** Writing where no directory was keeps every other file. *)
Lemma fs_put_file_keep v c : forall t n n' q,
  fs_put t v n = Some n' ->
  (forall es, fs_lookup t n <> Some (Dir es)) ->
  q <> t ->
  fs_lookup q n = Some (File c) -> fs_lookup q n' = Some (File c).
Proof.
  induction t as [|c1 t IH]; intros n n' q Hp Hnd Hq Hl; simpl in Hp; [done|].
  destruct n as [|es]; [done|].
  destruct q as [|c3 q]; [done|]. simpl in Hl.
  destruct (entry_lookup c3 es) as [ch|] eqn:Hc3; [|done].
  destruct t as [|c2 t].
  - injection Hp as <-. simpl. destruct (decide (c1 = c3)) as [<-|Hne].
    + exfalso. simpl in Hnd. rewrite Hc3 in Hnd.
      destruct q as [|x q]; [done|]. simpl in Hl.
      destruct ch as [|es']; [done|]. by apply (Hnd es').
    + by rewrite entry_lookup_set_ne, Hc3.
  - destruct (entry_lookup c1 es) as [child|] eqn:Hc1; [|done].
    destruct (fs_put (c2 :: t) v child) as [child'|] eqn:Hput; [|done].
    injection Hp as <-. simpl. destruct (decide (c1 = c3)) as [<-|Hne].
    + rewrite entry_lookup_set_eq. rewrite Hc1 in Hc3. injection Hc3 as <-.
      apply (IH child child'); [done | | congruence | done].
      intros es' Hes'. apply (Hnd es'). simpl. by rewrite Hc1.
    + by rewrite entry_lookup_set_ne, Hc3.
Qed.

(** The world the rewriter leaves, spelled out. *)
Lemma rewriter_run_fs w items doc :
  listing w = Some items ->
  document DEFAULT_SUMOCFG w = Some doc ->
  exists n,
    fs_put (cwd w ++ [DEFAULT_SUMOCFG])
      (File (XmlDoc (set_route_files (route_files_value items) doc))) (fs w) = Some n /\
    fs_lookup (cwd w ++ [DEFAULT_SUMOCFG]) (fs w) = Some (File (XmlDoc doc)) /\
    _add_rou_to_default_sumocfg w
    = (Ok tt, mkWorld n (cwd w)
                (trace w ++ [EvListdir; EvParse DEFAULT_SUMOCFG; EvWrite DEFAULT_SUMOCFG])).
Proof.
  intros Hl Hd. unfold _add_rou_to_default_sumocfg.
  rewrite bind_unfold. unfold os_listdir at 1. unfold listing in Hl.
  destruct (fs_lookup (cwd w) (fs w)) as [[|es]|]; try done.
  injection Hl as <-. rewrite bind_unfold.
  assert ((xml_parse DEFAULT_SUMOCFG
             (mkWorld (fs w) (cwd w) (trace w ++ [EvListdir]))).1 = Ok doc) as Hp.
  { rewrite xml_parse_frame. by apply xml_parse_document. }
  rewrite (xml_parse_ok _ _ _ Hp). unfold document in Hd.
  change (resolve (cwd w) DEFAULT_SUMOCFG) with (cwd w ++ [DEFAULT_SUMOCFG]) in Hd.
  destruct (fs_lookup (cwd w ++ [DEFAULT_SUMOCFG]) (fs w)) as [[[r|]|]|] eqn:Hf;
    try done.
  injection Hd as ->.
  assert (cwd w ++ [DEFAULT_SUMOCFG] <> []) as Hne by (by destruct (cwd w)).
  destruct (fs_put_existing
              (File (XmlDoc (set_route_files (route_files_value (map fst es)) doc)))
              _ _ (fs w) Hne Hf) as [n Hn].
  exists n. split; [done|]. split; [done|].
  unfold xml_write. simpl.
  change (resolve (cwd w) DEFAULT_SUMOCFG) with (cwd w ++ [DEFAULT_SUMOCFG]).
  rewrite Hf, Hn. by rewrite <- !app_assoc.
Qed.

(** X5: a successful run of the rewriter creates and removes nothing and
    changes no file but [osm.sumocfg]: every directory lists the names it
    listed before, in the same order, and every other file keeps its
    content. *)
Theorem rewriter_frame (w : world) (items : list string) (doc : Element) :
  listing w = Some items ->
  document DEFAULT_SUMOCFG w = Some doc ->
  exists w',
    _add_rou_to_default_sumocfg w = (Ok tt, w') /\
    cwd w' = cwd w /\
    listing w' = Some items /\
    (forall q, names_at q (fs w') = names_at q (fs w)) /\
    (forall q c, q <> cwd w ++ [DEFAULT_SUMOCFG] ->
       fs_lookup q (fs w) = Some (File c) -> fs_lookup q (fs w') = Some (File c)).
Proof.
  intros Hl Hd.
  destruct (rewriter_run_fs w items doc Hl Hd) as (n & Hn & Hf & Hrun).
  eexists. split; [exact Hrun|]. simpl. split; [done|].
  assert (forall q, names_at q n = names_at q (fs w)) as Hnames
    by (intros q; by apply (fs_put_names _ _ _ _ _ _ Hf Hn)).
  split; [|split; [done|]].
  - unfold listing. simpl. specialize (Hnames (cwd w)). unfold names_at in Hnames.
    unfold listing in Hl. by rewrite <- Hl.
  - intros q c Hq Hc. apply (fs_put_file_keep _ _ _ _ _ _ Hn); [|done|done].
    intros es. by rewrite Hf.
Qed.

Lemma rewriter_frame_witness :
  exists w',
    _add_rou_to_default_sumocfg (Demo.workspace ["a.rou.xml"] Demo.sumocfg)
    = (Ok tt, w') /\
    cwd w' = ["out"] /\
    listing w' = Some ["a.rou.xml"; DEFAULT_SUMOCFG] /\
    fs_lookup ["out"; "a.rou.xml"] (fs w') = Some (File (Blob "")).
Proof.
  destruct (rewriter_frame (Demo.workspace ["a.rou.xml"] Demo.sumocfg)
              ["a.rou.xml"; DEFAULT_SUMOCFG] Demo.sumocfg eq_refl eq_refl)
    as (w' & Hrun & Hcwd & Hlist & _ & Hkeep).
  exists w'. split; [exact Hrun|]. split; [exact Hcwd|]. split; [exact Hlist|].
  apply Hkeep; [discriminate | reflexivity].
Defined.

(** X7: when the working directory holds no [osm.sumocfg] that parses,
    the rewriter raises and has written nothing: file system and working
    directory are as they were. *)
Theorem rewriter_fails_cleanly (w : world) :
  document DEFAULT_SUMOCFG w = None ->
  exists e w',
    _add_rou_to_default_sumocfg w = (Raise e, w') /\
    fs w' = fs w /\ cwd w' = cwd w.
Proof.
  intros Hd. unfold _add_rou_to_default_sumocfg. rewrite bind_unfold.
  unfold os_listdir at 1.
  destruct (fs_lookup (cwd w) (fs w)) as [[|es]|]; try by eexists _, _.
  rewrite bind_unfold. unfold xml_parse at 1. simpl.
  unfold document in Hd.
  destruct (fs_lookup (resolve (cwd w) DEFAULT_SUMOCFG) (fs w)) as [[[r|]|]|];
    try done; by eexists _, _.
Qed.

Lemma rewriter_fails_cleanly_witness :
  exists e w',
    _add_rou_to_default_sumocfg Demo.parking = (Raise e, w') /\
    fs w' = fs Demo.parking /\ cwd w' = cwd Demo.parking.
Proof. apply (rewriter_fails_cleanly Demo.parking). reflexivity. Defined.

(** ** The merger and the files around it *)

Lemma xml_parse_inv file w root :
  (xml_parse file w).1 = Ok root <->
  file <> "" /\ fs_lookup (resolve (cwd w) file) (fs w) = Some (File (XmlDoc root)).
Proof.
  unfold xml_parse. destruct (decide (file = "")) as [->|Hf].
  - split; [done | by intros [? _]].
  - destruct (fs_lookup (resolve (cwd w) file) (fs w)) as [[[r|]|]|]; simpl;
      split; try done; try (by intros [_ ?]).
    + by intros [= ->].
    + by intros [_ [= ->]].
Qed.

Lemma xml_write_cases file root w :
  (exists e, xml_write file root w = (Raise e, w)) \/
  (exists n,
     (forall es, fs_lookup (resolve (cwd w) file) (fs w) <> Some (Dir es)) /\
     fs_put (resolve (cwd w) file) (File (XmlDoc root)) (fs w) = Some n /\
     xml_write file root w
     = (Ok tt, mkWorld n (cwd w) (trace w ++ [EvWrite file]))).
Proof.
  unfold xml_write. destruct (decide (file = "")); [left; by eexists|].
  destruct (fs_lookup (resolve (cwd w) file) (fs w)) as [[|]|] eqn:Hl;
    try (left; by eexists).
  - destruct (fs_put _ _ _) as [n'|] eqn:Hp; [|left; by eexists].
    right. by exists n'.
  - destruct (fs_put _ _ _) as [n'|] eqn:Hp; [|left; by eexists].
    right. by exists n'.
Qed.

Lemma xml_parse_cases file w :
  (exists e, xml_parse file w = (Raise e, w)) \/
  (exists root, xml_parse file w
                = (Ok root, mkWorld (fs w) (cwd w) (trace w ++ [EvParse file]))).
Proof.
  unfold xml_parse. destruct (decide (file = "")); [left; by eexists|].
  destruct (fs_lookup _ _) as [[[r|]|]|]; try (left; by eexists).
  right. by exists r.
Qed.

(** X8: the merger writes all or nothing: when it raises, because an input
    is missing or does not parse or because the target cannot be written,
    the file system and the working directory are as they were; and it
    does raise when an input does not parse. *)
Theorem merger_all_or_nothing (w : world) (side areas complete : string) :
  (forall e w',
     _merge_parking_files side areas complete w = (Raise e, w') ->
     fs w' = fs w /\ cwd w' = cwd w) /\
  ((forall d, (xml_parse side w).1 <> Ok d) \/
   (forall d, (xml_parse areas w).1 <> Ok d) ->
   exists e, (_merge_parking_files side areas complete w).1 = Raise e).
Proof.
  unfold _merge_parking_files. split.
  - intros e w'. rewrite bind_unfold.
    destruct (xml_parse_cases side w) as [[e1 ->]|[d1 ->]]; [by intros [= _ <-]|].
    rewrite bind_unfold.
    match goal with |- context [xml_parse areas ?w0] =>
      destruct (xml_parse_cases areas w0) as [[e2 ->]|[d2 ->]] end;
      [by intros [= _ <-]|].
    match goal with |- context [xml_write complete ?r ?w0] =>
      destruct (xml_write_cases complete r w0) as [[e3 ->]|(n & _ & _ & ->)] end;
      [by intros [= _ <-] | done].
  - intros H. rewrite bind_unfold.
    destruct (xml_parse_cases side w) as [[e1 He]|[d1 He]].
    { rewrite He. by exists e1. }
    rewrite He. destruct H as [H|H].
    { destruct (H d1). by rewrite He. }
    rewrite bind_unfold.
    match goal with |- context [xml_parse areas ?w0] =>
      destruct (xml_parse_cases areas w0) as [[e2 He2]|[d2 He2]] end.
    { rewrite He2. by exists e2. }
    destruct (H d2). rewrite <- (xml_parse_frame areas w (trace w ++ [EvParse side])).
    by rewrite He2.
Qed.

Lemma merger_all_or_nothing_witness :
  (exists e, (_merge_parking_files "missing.xml" DEFAULT_PARKING_AREAS
                DEFAULT_COMPLETE_PARKING_XML Demo.parking).1 = Raise e) /\
  fs (_merge_parking_files "missing.xml" DEFAULT_PARKING_AREAS
        DEFAULT_COMPLETE_PARKING_XML Demo.parking).2 = fs Demo.parking.
Proof.
  destruct (merger_all_or_nothing Demo.parking "missing.xml"
              DEFAULT_PARKING_AREAS DEFAULT_COMPLETE_PARKING_XML) as [Hfs Hraise].
  destruct Hraise as [e He]; [left; intros d; discriminate|].
  split; [by exists e|].
  destruct (_merge_parking_files "missing.xml" DEFAULT_PARKING_AREAS
              DEFAULT_COMPLETE_PARKING_XML Demo.parking) as [r w'] eqn:Hrun.
  simpl in He. subst r. by destruct (Hfs e w' eq_refl).
Defined.

(** X9: a successful merge changes no file but its target: every other
    file keeps its content, so that an input stored elsewhere than the
    target still parses to the document it held. *)
Theorem merger_frame (w : world) (side areas complete : string) (d1 d2 : Element) :
  (xml_parse side w).1 = Ok d1 ->
  (xml_parse areas w).1 = Ok d2 ->
  writable complete w = true ->
  exists w',
    _merge_parking_files side areas complete w = (Ok tt, w') /\
    cwd w' = cwd w /\
    (forall q c, q <> resolve (cwd w) complete ->
       fs_lookup q (fs w) = Some (File c) -> fs_lookup q (fs w') = Some (File c)) /\
    (resolve (cwd w) side <> resolve (cwd w) complete ->
     (xml_parse side w').1 = Ok d1) /\
    (resolve (cwd w) areas <> resolve (cwd w) complete ->
     (xml_parse areas w').1 = Ok d2).
Proof.
  intros H1 H2 Hw. unfold _merge_parking_files.
  rewrite bind_unfold, (xml_parse_ok _ _ _ H1). rewrite bind_unfold.
  assert ((xml_parse areas
             (mkWorld (fs w) (cwd w) (trace w ++ [EvParse side]))).1 = Ok d2) as H2'
    by (by rewrite xml_parse_frame).
  rewrite (xml_parse_ok _ _ _ H2').
  match goal with |- context [xml_write complete ?r ?w0] =>
    destruct (xml_write_cases complete r w0) as [[e He]|(n & Hnd & Hput & He)];
    [destruct (xml_write_writable complete r w0 Hw) as (n' & Hn' & _);
     rewrite Hn' in He; discriminate He|] end.
  rewrite He. simpl in *. eexists. split; [reflexivity|]. simpl.
  split; [done|].
  assert (forall q c, q <> resolve (cwd w) complete ->
            fs_lookup q (fs w) = Some (File c) -> fs_lookup q n = Some (File c))
    as Hkeep.
  { intros q c Hq Hc. by apply (fs_put_file_keep _ _ _ _ _ _ Hput). }
  split; [exact Hkeep|].
  split; intros Hne; apply xml_parse_inv; simpl.
  - apply xml_parse_inv in H1 as [Hs Hl]. split; [done|]. by apply Hkeep.
  - apply xml_parse_inv in H2 as [Hs Hl]. split; [done|]. by apply Hkeep.
Qed.

Lemma merger_frame_witness :
  exists w',
    _merge_parking_files DEFAULT_SIDE_PARKING_XML DEFAULT_PARKING_AREAS
      DEFAULT_COMPLETE_PARKING_XML Demo.parking = (Ok tt, w') /\
    (xml_parse DEFAULT_SIDE_PARKING_XML w').1 = Ok (Demo.additional 1 "parkingSpace") /\
    (xml_parse DEFAULT_PARKING_AREAS w').1 = Ok (Demo.additional 2 "parkingArea").
Proof.
  destruct (merger_frame Demo.parking DEFAULT_SIDE_PARKING_XML DEFAULT_PARKING_AREAS
              DEFAULT_COMPLETE_PARKING_XML (Demo.additional 1 "parkingSpace")
              (Demo.additional 2 "parkingArea") eq_refl eq_refl eq_refl)
    as (w' & Hrun & _ & _ & Hside & Hareas).
  exists w'. split; [exact Hrun|]. split; [apply Hside | apply Hareas]; discriminate.
Defined.

(** X10: the merged root depends on the second root through its children
    only (its tag, attributes and text are dropped); a second root without
    children leaves the first as it is; and merging is associative. *)
Theorem merge_roots_algebra (d1 d2 d3 : Element) :
  (forall d2', children d2' = children d2 -> merge_roots d1 d2' = merge_roots d1 d2) /\
  (children d2 = [] -> merge_roots d1 d2 = d1) /\
  merge_roots (merge_roots d1 d2) d3 = merge_roots d1 (merge_roots d2 d3).
Proof.
  split; [|split].
  - intros d2' H. by rewrite !merge_roots_spec, H.
  - intros H. rewrite merge_roots_spec, H, app_nil_r. by destruct d1.
  - rewrite !merge_roots_spec. simpl. by rewrite app_assoc.
Qed.

Lemma merge_roots_algebra_witness :
  merge_roots (Demo.additional 2 "parkingSpace") (Demo.leaf "additional")
  = Demo.additional 2 "parkingSpace".
Proof.
  destruct (merge_roots_algebra (Demo.additional 2 "parkingSpace")
              (Demo.leaf "additional") (Demo.leaf "additional")) as (_ & H & _).
  apply H. reflexivity.
Defined.

(** ** What a run does and does not do *)

Ltac adds_with tac :=
  repeat first
    [ apply adds_bind; [|intros ?]
    | apply adds_ret
    | apply adds_when
    | apply adds_emit; tac
    | apply adds_os_makedirs; tac
    | apply adds_shutil_copy; tac
    | apply adds_os_listdir; tac
    | apply adds_os_chdir; tac
    | apply adds_xml_parse; tac
    | apply adds_xml_write; tac
    | apply adds_subprocess_call; tac
    | apply adds_call_main; tac ].

Ltac unfold_script :=
  unfold invoke, logging_info, _call_netconvert, _call_pt_lines_to_flows,
    _call_generate_parking_areas_from_osm, _merge_parking_files,
    _call_generate_parking_area_rerouters, _call_polyconvert,
    _call_generate_taz_buildings_from_osm,
    _call_generate_amitran_from_taz_weights,
    _call_generate_defaults_activitygen, _call_activitygen,
    _add_rou_to_default_sumocfg, _call_sumo.

(** X11: in every run, the calls the script makes itself stay within fixed
    bounds: [os.makedirs] is called only with the path given with [--out]
    and with [buildings], [shutil.copy] only with the map file or one of
    the five templates as source and the path given with [--out] as
    destination, [os.chdir] only with the path given with [--out]; only the
    two parking files and [osm.sumocfg] are parsed, only the merged parking
    file and [osm.sumocfg] are written, only the three command lines built
    from the base name of the map file are spawned, and only the seven
    collaborator modules are entered. *)
Theorem effects_confined (E : externals) (cmd_args : list string) (args : options)
    (w : world) :
  get_options E cmd_args = Ok args ->
  exists evs,
    trace (main E cmd_args w).2 = trace w ++ evs /\
    Forall (own_effect args) evs.
Proof.
  intros Hparse.
  assert (adds (own_effect args) (main E cmd_args)) as H; [|apply H].
  unfold main. rewrite Hparse. cbv zeta. unfold_script.
  adds_with ltac:(simpl; auto 12).
Qed.

Lemma effects_confined_witness :
  exists evs,
    trace (main (Demo.tools 0 false) Demo.argv Demo.checkout).2
    = trace Demo.checkout ++ evs /\
    Forall (own_effect (mkOptions "town.osm" "out" false false)) evs.
Proof.
  apply (effects_confined (Demo.tools 0 false) Demo.argv
           (mkOptions "town.osm" "out" false false) Demo.checkout).
  reflexivity.
Defined.

(** ** The profiler *)

Lemma sim_bind {A B : Type} (m1 m2 : M A) (k1 k2 : A -> M B) :
  sim m1 m2 -> (forall a, sim (k1 a) (k2 a)) -> sim (m1 ≫= k1) (m2 ≫= k2).
Proof.
  intros Hm Hk w1 w2 Hw. rewrite !bind_unfold.
  destruct (Hm w1 w2 Hw) as [Hr Ha].
  destruct (m1 w1) as [[a1|e1] w1'], (m2 w2) as [[a2|e2] w2'];
    simpl in *; try discriminate.
  - injection Hr as ->. by apply Hk.
  - injection Hr as ->. by split.
Qed.

Lemma alike_step n d t1 t2 evs :
  unprofiled t1 = unprofiled t2 ->
  alike (mkWorld n d (t1 ++ evs)) (mkWorld n d (t2 ++ evs)).
Proof.
  intros Ht. repeat split. simpl. unfold unprofiled in *.
  by rewrite !List.filter_app, Ht.
Qed.

Ltac sim_same :=
  intros [n1 d1 t1] [n2 d2 t2] (Hn & Hd & Ht); simpl in Hn, Hd, Ht; subst n2 d2.

Ltac sim_done :=
  simpl; first [ by (split; [done|]; apply alike_step)
               | by (split; [done|]; repeat split) ].

Lemma sim_ret {A : Type} (a : A) : sim (mret a) (mret a).
Proof. sim_same. sim_done. Qed.

Lemma sim_raise {A : Type} e : sim (raise (A := A) e) (raise e).
Proof. sim_same. sim_done. Qed.

Lemma sim_emit ev : sim (emit ev) (emit ev).
Proof. sim_same. unfold emit. sim_done. Qed.

Lemma sim_os_makedirs p : sim (os_makedirs p) (os_makedirs p).
Proof.
  sim_same. unfold os_makedirs. simpl.
  destruct (decide (p = "")); [sim_done|].
  destruct (fs_makedirs _ _); [sim_done|].
  destruct (fs_lookup _ _) as [[|]|]; sim_done.
Qed.

Lemma sim_shutil_copy src dst : sim (shutil_copy src dst) (shutil_copy src dst).
Proof.
  sim_same. unfold shutil_copy, copy_target. simpl.
  destruct (decide (src = "" ∨ dst = "")); [sim_done|].
  destruct (fs_lookup (resolve d1 src) n1) as [[c|]|]; try sim_done.
  repeat case_match; sim_done.
Qed.

Lemma sim_os_chdir p : sim (os_chdir p) (os_chdir p).
Proof.
  sim_same. unfold os_chdir. simpl.
  destruct (decide (p = "")); [sim_done|].
  destruct (fs_lookup _ _) as [[|]|]; sim_done.
Qed.

Lemma sim_os_listdir : sim os_listdir os_listdir.
Proof.
  sim_same. unfold os_listdir. simpl.
  destruct (fs_lookup _ _) as [[|]|]; sim_done.
Qed.

Lemma sim_xml_parse file : sim (xml_parse file) (xml_parse file).
Proof.
  sim_same. unfold xml_parse. simpl.
  destruct (decide (file = "")); [sim_done|].
  destruct (fs_lookup _ _) as [[[|]|]|]; sim_done.
Qed.

Lemma sim_xml_write file root : sim (xml_write file root) (xml_write file root).
Proof.
  sim_same. unfold xml_write. simpl.
  destruct (decide (file = "")); [sim_done|].
  destruct (fs_lookup _ _) as [[|]|]; try sim_done;
    destruct (fs_put _ _ _); sim_done.
Qed.

Lemma sim_subprocess_call E1 E2 argv :
  spawn E1 = spawn E2 -> sim (subprocess_call E1 argv) (subprocess_call E2 argv).
Proof.
  intros HE. sim_same. unfold subprocess_call. simpl. rewrite HE.
  destruct (spawn E2 argv d1 n1) as [[status n]|]; sim_done.
Qed.

Lemma sim_call_main module tool args :
  sim (call_main module tool args) (call_main module tool args).
Proof.
  sim_same. unfold call_main. simpl.
  destruct (tool args d1 n1) as [[r d] n]. sim_done.
Qed.

(** Switching the profiler on, or closing it and printing its report,
    changes nothing but the profiler's part of the trace. *)
Lemma sim_profiler_on b1 b2 :
  sim (when b1 (emit (EvProfiler true))) (when b2 (emit (EvProfiler true))).
Proof.
  sim_same. destruct b1, b2; simpl; (split; [done|]); repeat split; simpl;
    unfold unprofiled in *; rewrite ?List.filter_app; simpl;
    by rewrite ?app_nil_r.
Qed.

Lemma sim_profiler_off b1 b2 :
  sim (when b1 (emit (EvProfiler false) ;; emit EvPrint))
      (when b2 (emit (EvProfiler false) ;; emit EvPrint)).
Proof.
  sim_same. destruct b1, b2; simpl; (split; [done|]); repeat split; simpl;
    unfold unprofiled in *; rewrite ?List.filter_app; simpl;
    by rewrite ?app_nil_r.
Qed.

Ltac sim_body :=
  repeat first
    [ apply sim_bind; [|intros ?]
    | apply sim_profiler_on
    | apply sim_profiler_off
    | apply sim_ret
    | apply sim_emit
    | apply sim_os_makedirs
    | apply sim_shutil_copy
    | apply sim_os_chdir
    | apply sim_os_listdir
    | apply sim_xml_parse
    | apply sim_xml_write
    | apply sim_subprocess_call; reflexivity
    | apply sim_call_main ].

(** X12: profiling does not change what a run does.  With the same
    collaborators, the same remaining options and the same initial world, a
    run with [--profiling] and a run without it end the same way (both
    return, or both raise the same exception), leave the same file system
    and working directory, and record the same events once the profiler's
    own (enabling, disabling, the report) are set aside. *)
Theorem profiling_transparent (E : externals) (b1 b2 : bool)
    (cmd_args : list string) (w : world) :
  (main (with_profiling b1 E) cmd_args w).1
  = (main (with_profiling b2 E) cmd_args w).1 /\
  fs (main (with_profiling b1 E) cmd_args w).2
  = fs (main (with_profiling b2 E) cmd_args w).2 /\
  cwd (main (with_profiling b1 E) cmd_args w).2
  = cwd (main (with_profiling b2 E) cmd_args w).2 /\
  unprofiled (trace (main (with_profiling b1 E) cmd_args w).2)
  = unprofiled (trace (main (with_profiling b2 E) cmd_args w).2).
Proof.
  assert (sim (main (with_profiling b1 E) cmd_args)
              (main (with_profiling b2 E) cmd_args)) as H.
  { unfold main. simpl. destruct (get_options E cmd_args) as [args|e];
      [|apply sim_raise].
    cbv zeta. unfold_script. simpl. sim_body. }
  destruct (H w w) as (Hr & Hw); [by repeat split|].
  split; [done|]. apply Hw.
Qed.

Lemma guarded_bind {A B : Type} Q (m : M A) (k : A -> M B) :
  adds Q m -> (forall a, guarded Q (k a)) -> guarded Q (m ≫= k).
Proof.
  intros Hm Hk w. rewrite bind_unfold. destruct (Hm w) as (evs1 & Ht1 & H1).
  destruct (m w) as [[a|e] w1]; simpl in *; [|by exists evs1].
  destruct (Hk a w1) as (evs2 & Ht2 & H2). exists (evs1 ++ evs2).
  rewrite Ht2, Ht1, app_assoc. split; [done|].
  intros He. apply Forall_app. split; [done | by apply H2].
Qed.

Lemma guarded_returning {A : Type} Q (m : M A) :
  adds (fun _ => True) m -> (forall w e, (m w).1 <> Raise e) -> guarded Q m.
Proof.
  intros Hm Hok w. destruct (Hm w) as (evs & Ht & _). exists evs.
  split; [done|]. intros [e He]. by destruct (Hok w e).
Qed.

(** The last two statements of [main]: they never raise. *)
Lemma closing_returns b w e :
  ((when b (emit (EvProfiler false) ;; emit EvPrint) ;;
    logging_info "Done.") w).1 <> Raise e.
Proof. by destruct b. Qed.

(** X13: the profiler is closed and its report printed only by a run that
    returns.  In the events a run of [main] adds, [profiler.disable()] and
    the printed report occur only when [main] returned: a run that raises,
    at whatever point, leaves the profiler enabled and prints no report. *)
Theorem report_only_on_return (E : externals) (cmd_args : list string) (w : world) :
  exists evs,
    trace (main E cmd_args w).2 = trace w ++ evs /\
    (In (EvProfiler false) evs \/ In EvPrint evs ->
     (main E cmd_args w).1 = Ok tt).
Proof.
  assert (guarded no_report (main E cmd_args)) as H.
  { unfold main. destruct (get_options E cmd_args) as [args|e].
    - cbv zeta. unfold_script.
      repeat first
        [ apply guarded_bind;
          [solve [adds_with ltac:(by split)] | intros ?]
        | apply guarded_returning;
          [solve [adds_with ltac:(exact I)] | apply closing_returns] ].
    - intros w0. exists []. split; [by rewrite app_nil_r | by constructor]. }
  destruct (H w) as (evs & Ht & Hq). exists evs. split; [done|].
  intros Hin. destruct (main E cmd_args w) as [[[]|e] w']; [done|].
  simpl in Hq. specialize (Hq (ex_intro _ e eq_refl)).
  rewrite List.Forall_forall in Hq.
  destruct Hin as [Hin|Hin]; apply Hq in Hin; destruct Hin as [H1 H2]; done.
Qed.

Lemma report_only_on_return_witness :
  (main (with_profiling true (Demo.tools 0 false)) Demo.argv Demo.checkout).1 = Ok tt.
Proof.
  destruct (report_only_on_return (with_profiling true (Demo.tools 0 false))
              Demo.argv Demo.checkout) as (evs & Ht & H).
  apply H. right. vm_compute in Ht. rewrite <- Ht.
  repeat first [left; reflexivity | right].
Defined.

(** ** The working directory and the files of a run *)

Lemma keeps_cwd_ret {A : Type} (a : A) : keeps_cwd (mret a).
Proof. by intros w. Qed.

Lemma keeps_cwd_bind {A B : Type} (m : M A) (k : A -> M B) :
  keeps_cwd m -> (forall a, keeps_cwd (k a)) -> keeps_cwd (m ≫= k).
Proof.
  intros Hm Hk w. rewrite bind_unfold. specialize (Hm w).
  destruct (m w) as [[a|e] w1]; simpl in *; [|done]. by rewrite Hk.
Qed.

Lemma keeps_cwd_emit ev : keeps_cwd (emit ev).
Proof. by intros w. Qed.

Lemma keeps_cwd_when b (m : M unit) : keeps_cwd m -> keeps_cwd (when b m).
Proof. by destruct b. Qed.

Lemma keeps_cwd_os_makedirs p : keeps_cwd (os_makedirs p).
Proof. intros w. unfold os_makedirs. by repeat case_match. Qed.

Lemma keeps_cwd_shutil_copy src dst : keeps_cwd (shutil_copy src dst).
Proof. intros w. unfold shutil_copy. by repeat case_match. Qed.

Lemma keeps_cwd_os_listdir : keeps_cwd os_listdir.
Proof. intros w. unfold os_listdir. by repeat case_match. Qed.

Lemma keeps_cwd_xml_parse file : keeps_cwd (xml_parse file).
Proof. intros w. unfold xml_parse. by repeat case_match. Qed.

Lemma keeps_cwd_xml_write file root : keeps_cwd (xml_write file root).
Proof. intros w. unfold xml_write. by repeat case_match. Qed.

Lemma keeps_cwd_subprocess_call E argv : keeps_cwd (subprocess_call E argv).
Proof. intros w. unfold subprocess_call. by repeat case_match. Qed.

Lemma keeps_cwd_call_main module (tool : entry_point) args :
  (forall a d n, (tool a d n).1.2 = d) -> keeps_cwd (call_main module tool args).
Proof.
  intros H w. unfold call_main. specialize (H args (cwd w) (fs w)).
  by destruct (tool args (cwd w) (fs w)) as [[r d] n].
Qed.

Lemma lands_bind {A B : Type} p (m : M A) (k : A -> M B) :
  keeps_cwd m -> (forall a, lands p (k a)) -> lands p (m ≫= k).
Proof.
  intros Hm Hk w. rewrite bind_unfold. specialize (Hm w).
  destruct (m w) as [[a|e] w1]; simpl in *; [|split; [by left | done]].
  rewrite <- Hm. apply Hk.
Qed.

Lemma lands_os_chdir {B : Type} p (k : unit -> M B) :
  (forall a, keeps_cwd (k a)) -> lands p (os_chdir p ≫= k).
Proof.
  intros Hk w. rewrite bind_unfold.
  destruct (os_chdir_cases p w) as [[e ->] | ->]; [split; [by left | done]|].
  split; [right | intros a _]; by rewrite Hk.
Qed.

Ltac keeps_cwd_body HE :=
  repeat first
    [ apply keeps_cwd_bind; [|intros ?]
    | apply keeps_cwd_ret
    | apply keeps_cwd_when
    | apply keeps_cwd_emit
    | apply keeps_cwd_os_makedirs
    | apply keeps_cwd_shutil_copy
    | apply keeps_cwd_os_listdir
    | apply keeps_cwd_xml_parse
    | apply keeps_cwd_xml_write
    | apply keeps_cwd_subprocess_call
    | apply keeps_cwd_call_main; apply HE; simpl; tauto ].

(** X15: the working directory is changed once and never changed back.
    With collaborators that leave the working directory alone, a run of
    [main] ends where it started or in the output directory (the path given
    with [--out], resolved against the directory it started in), and a run
    that returns ends in the output directory. *)
Theorem main_ends_in_workspace (E : externals) (cmd_args : list string)
    (args : options) (w : world) :
  stay_put E ->
  get_options E cmd_args = Ok args ->
  (cwd (main E cmd_args w).2 = cwd w \/
   cwd (main E cmd_args w).2 = resolve (cwd w) (out_dir args)) /\
  ((main E cmd_args w).1 = Ok tt ->
   cwd (main E cmd_args w).2 = resolve (cwd w) (out_dir args)).
Proof.
  intros HE Hparse. unfold stay_put in HE. rewrite List.Forall_forall in HE.
  assert (lands (out_dir args) (main E cmd_args)) as H.
  { unfold main. rewrite Hparse. cbv zeta. unfold_script.
    repeat first
      [ apply lands_os_chdir; intros ?; solve [keeps_cwd_body HE]
      | apply lands_bind; [solve [keeps_cwd_body HE] | intros ?] ]. }
  destruct (H w) as [H1 H2]. split; [done | apply H2].
Qed.

Lemma main_ends_in_workspace_witness :
  cwd (main (Demo.tools 0 false) Demo.argv Demo.checkout).2 = ["repo"; "out"].
Proof.
  destruct (main_ends_in_workspace (Demo.tools 0 false) Demo.argv
              (mkOptions "town.osm" "out" false false) Demo.checkout) as [_ H].
  - repeat constructor.
  - reflexivity.
  - apply H. vm_compute. reflexivity.
Defined.

Lemma keeps_files_refl n : keeps_files n n.
Proof. intros q c H. by exists c. Qed.

Lemma keeps_files_trans n1 n2 n3 :
  keeps_files n1 n2 -> keeps_files n2 n3 -> keeps_files n1 n3.
Proof. intros H12 H23 q c H. destruct (H12 q c H) as [c' H']. by eapply H23. Qed.

(** Creating directories keeps every file. *)
Lemma fs_makedirs_keep c : forall o n n' q,
  fs_makedirs o n = Some n' ->
  fs_lookup q n = Some (File c) -> fs_lookup q n' = Some (File c).
Proof.
  induction o as [|c0 o IH]; intros n n' q Hm Hq; simpl in Hm.
  - destruct n; [done|]. by injection Hm as <-.
  - destruct n as [|es]; [done|].
    destruct (fs_makedirs o (default (Dir []) (entry_lookup c0 es)))
      as [child'|] eqn:Hc; [|done].
    injection Hm as <-. destruct q as [|c1 q]; [done|]. simpl in *.
    destruct (decide (c0 = c1)) as [<-|Hne].
    + rewrite entry_lookup_set_eq.
      destruct (entry_lookup c0 es) as [ch|]; [|done]. simpl in Hc.
      by apply (IH ch).
    + by rewrite entry_lookup_set_ne.
Qed.

(** Writing a file where no directory was keeps every file. *)
Lemma fs_put_keeps c t n n' :
  fs_put t (File c) n = Some n' ->
  (forall es, fs_lookup t n <> Some (Dir es)) ->
  keeps_files n n'.
Proof.
  intros Hp Hnd q c0 Hq. destruct (decide (q = t)) as [->|Hne].
  - exists c. by apply (fs_lookup_put_eq _ _ _ _ Hp).
  - exists c0. by apply (fs_put_file_keep _ _ _ _ _ _ Hp).
Qed.

Lemma persists_ret {A : Type} (a : A) : persists (mret a).
Proof. intros w. apply keeps_files_refl. Qed.

Lemma persists_bind {A B : Type} (m : M A) (k : A -> M B) :
  persists m -> (forall a, persists (k a)) -> persists (m ≫= k).
Proof.
  intros Hm Hk w. rewrite bind_unfold. specialize (Hm w).
  destruct (m w) as [[a|e] w1]; simpl in *; [|done].
  eapply keeps_files_trans; [exact Hm | apply Hk].
Qed.

Lemma persists_emit ev : persists (emit ev).
Proof. intros w. apply keeps_files_refl. Qed.

Lemma persists_when b (m : M unit) : persists m -> persists (when b m).
Proof. destruct b; [done | intros _; apply persists_ret]. Qed.

Lemma persists_os_makedirs p : persists (os_makedirs p).
Proof.
  intros w. destruct (os_makedirs_cases p w) as [[e ->] | (n & Hn & ->)];
    [apply keeps_files_refl|].
  intros q c Hq. exists c. by apply (fs_makedirs_keep _ _ _ _ _ Hn).
Qed.

Lemma persists_shutil_copy src dst : persists (shutil_copy src dst).
Proof.
  intros w.
  destruct (shutil_copy_cases src dst w)
    as [[e ->] | (c & n & _ & _ & Hnd & Hn & ->)]; [apply keeps_files_refl|].
  by apply (fs_put_keeps _ _ _ _ Hn).
Qed.

Lemma persists_os_chdir p : persists (os_chdir p).
Proof.
  intros w. destruct (os_chdir_cases p w) as [[e ->] | ->]; apply keeps_files_refl.
Qed.

Lemma persists_os_listdir : persists os_listdir.
Proof.
  intros w. unfold os_listdir. repeat case_match; apply keeps_files_refl.
Qed.

Lemma persists_xml_parse file : persists (xml_parse file).
Proof.
  intros w. unfold xml_parse. repeat case_match; apply keeps_files_refl.
Qed.

Lemma persists_xml_write file root : persists (xml_write file root).
Proof.
  intros w. unfold xml_write.
  destruct (decide (file = "")); [apply keeps_files_refl|]. simpl.
  destruct (fs_lookup (resolve (cwd w) file) (fs w)) as [[c|es]|] eqn:Hl;
    try apply keeps_files_refl;
    (destruct (fs_put _ _ _) as [fs'|] eqn:Hput; [|apply keeps_files_refl]);
    simpl; apply (fs_put_keeps _ _ _ _ Hput); intros es0; by rewrite Hl.
Qed.

Lemma persists_subprocess_call E argv :
  (forall argv d n status n',
     spawn E argv d n = Some (status, n') -> keeps_files n n') ->
  persists (subprocess_call E argv).
Proof.
  intros HE w. unfold subprocess_call.
  destruct (spawn E argv (cwd w) (fs w)) as [[status n]|] eqn:Hs;
    [|apply keeps_files_refl].
  simpl. by eapply HE.
Qed.

Lemma persists_call_main module (tool : entry_point) args :
  (forall a d n, keeps_files n (tool a d n).2) ->
  persists (call_main module tool args).
Proof.
  intros H w. unfold call_main. specialize (H args (cwd w) (fs w)).
  by destruct (tool args (cwd w) (fs w)) as [[r d] n].
Qed.

Ltac persists_body Hs Ht :=
  repeat first
    [ apply persists_bind; [|intros ?]
    | apply persists_ret
    | apply persists_when
    | apply persists_emit
    | apply persists_os_makedirs
    | apply persists_shutil_copy
    | apply persists_os_chdir
    | apply persists_os_listdir
    | apply persists_xml_parse
    | apply persists_xml_write
    | apply persists_subprocess_call; exact Hs
    | apply persists_call_main; apply Ht; simpl; tauto ].

(** X16: the script removes nothing.  With collaborators that remove no
    file, every file that exists when [main] is called still exists when
    it returns or raises, whatever the options (its content may have been
    replaced): the output directory is never emptied before it is used
    again. *)
Theorem main_removes_nothing (E : externals) (cmd_args : list string) (w : world)
    (q : abspath) (c : content) :
  never_remove E ->
  fs_lookup q (fs w) = Some (File c) ->
  exists c', fs_lookup q (fs (main E cmd_args w).2) = Some (File c').
Proof.
  intros [Hs Ht] Hq. rewrite List.Forall_forall in Ht.
  assert (persists (main E cmd_args)) as H; [|by apply (H w q c)].
  unfold main. destruct (get_options E cmd_args) as [args|e];
    [|intros w0; apply keeps_files_refl].
  cbv zeta. unfold_script. persists_body Hs Ht.
Qed.

Lemma main_removes_nothing_witness :
  exists c',
    fs_lookup ["repo"; "defaults"; "osm.sumocfg"]
      (fs (main Demo.idle Demo.argv Demo.checkout).2) = Some (File c').
Proof.
  apply (main_removes_nothing Demo.idle Demo.argv Demo.checkout
           ["repo"; "defaults"; "osm.sumocfg"] (XmlDoc Demo.sumocfg)).
  - split.
    + intros argv d n status n' [= _ <-]. apply keeps_files_refl.
    + repeat constructor; intros a d n; apply keeps_files_refl.
  - reflexivity.
Defined.

(** ** The names a run uses *)

Lemma split_plain c s :
  List.Forall (fun f => Str.contains (String c "") f = false) (Str.split c s).
Proof.
  induction s as [|a s IH]; [by repeat constructor|].
  destruct (Ascii.eqb a c) eqn:Ha.
  - simpl. rewrite Ha. by constructor.
  - destruct (split_cons_other a c s Ha) as (f & fs & Hs & ->).
    rewrite Hs in IH. inversion IH as [|? ? Hf Hfs]; subst.
    constructor; [|done]. simpl. rewrite Hf.
    destruct (Ascii.ascii_dec c a) as [->|Hne]; [|done].
    by rewrite Ascii.eqb_refl in Ha.
Qed.

Lemma Forall_last {A : Type} (P : A -> Prop) (l : list A) (d : A) :
  List.Forall P l -> l <> [] -> P (List.last l d).
Proof.
  induction 1 as [|x l Hx Hl IH]; [done|]. intros _.
  destruct l as [|y l]; [done|]. by apply IH.
Qed.

(** [os.path.basename] yields a name without a slash. *)
Lemma basename_plain p : plain (Str.basename p).
Proof.
  unfold plain, Str.basename.
  apply (Forall_last (fun f => Str.contains "/" f = false));
    [apply split_plain | apply split_nonempty].
Qed.

Ltac plain_args :=
  unfold netconvert_options, polyconvert_options, sumo_options;
  try destruct (left_hand_traffic _); simpl;
  first
    [ exact I
    | reflexivity
    | by left
    | by right
    | apply basename_plain
    | repeat (constructor;
              [first [ left; reflexivity
                     | left; apply basename_plain
                     | right; reflexivity ]|]);
      constructor ].

(** X17: once it has changed into the output directory, a run works by
    plain names.  Whatever path is given with [--osm], every argument handed
    to a collaborator (spawned or entered through its [main]) and every file
    the script parses or writes is a name without a slash, the one exception
    being the prefix [buildings/osm_buildings]; and [os.makedirs] is called
    with nothing but the path given with [--out] and [buildings]. *)
Theorem names_stay_in_workspace (E : externals) (cmd_args : list string)
    (args : options) (w : world) :
  get_options E cmd_args = Ok args ->
  exists evs,
    trace (main E cmd_args w).2 = trace w ++ evs /\
    Forall (in_workspace args) evs.
Proof.
  intros Hparse.
  assert (adds (in_workspace args) (main E cmd_args)) as H; [|apply H].
  unfold main. rewrite Hparse. cbv zeta. unfold_script.
  adds_with plain_args.
Qed.

Lemma names_stay_in_workspace_witness :
  (main (Demo.tools 0 false) ["--osm"; "../repo/town.osm"; "--out"; "out"]
     Demo.checkout).1 = Ok tt /\
  exists evs,
    trace (main (Demo.tools 0 false) ["--osm"; "../repo/town.osm"; "--out"; "out"]
             Demo.checkout).2
    = trace Demo.checkout ++ evs /\
    Forall (in_workspace (mkOptions "../repo/town.osm" "out" false false)) evs.
Proof.
  split; [vm_compute; reflexivity|].
  apply (names_stay_in_workspace (Demo.tools 0 false)
           ["--osm"; "../repo/town.osm"; "--out"; "out"]
           (mkOptions "../repo/town.osm" "out" false false) Demo.checkout).
  reflexivity.
Defined.

(** ** An output path that is taken *)

Lemma fs_makedirs_under_file c : forall q r n,
  fs_lookup q n = Some (File c) -> fs_makedirs (q ++ r) n = None.
Proof.
  induction q as [|c0 q IH]; intros r n H; simpl in *.
  - injection H as ->. by destruct r.
  - destruct n as [|es]; [done|].
    destruct (entry_lookup c0 es) as [ch|]; [|done]. simpl.
    by rewrite (IH r ch).
Qed.

Lemma fs_lookup_under_file c q r n :
  fs_lookup q n = Some (File c) -> r <> [] -> fs_lookup (q ++ r) n = None.
Proof. intros H Hr. rewrite fs_lookup_app, H. by destruct r. Qed.

(** A path made of proper names leads below the working directory,
    component by component. *)
Lemma resolve_proper d p :
  List.Forall proper (Str.split "/" p) -> resolve d p = d ++ Str.split "/" p.
Proof.
  intros H. unfold resolve.
  assert (String.prefix "/" p = false) as ->.
  { destruct p as [|a p]; [done|].
    change (String.prefix "/" (String a p))
      with (if Ascii.ascii_dec "/" a then String.prefix "" p else false).
    destruct (Ascii.ascii_dec "/" a) as [<-|]; [|done].
    rewrite split_cons_sep in H. inversion H as [|? ? [Hne _] _]. done. }
  revert d. induction H as [|c cs [H1 [H2 H3]] _ IH]; intros d; simpl.
  - by rewrite app_nil_r.
  - unfold norm_step at 2.
    rewrite decide_False by (by intros [?|?]).
    rewrite decide_False by done.
    by rewrite IH, <- app_assoc.
Qed.

(** X18: a regular file in the way of the output directory stops the run
    at its first step.  For a path given with [--out] that is made of
    proper names (none empty, [.] or [..]): when the path itself is an
    existing regular file [os.makedirs] raises [FileExistsError], when one
    of the directories it names on the way is a regular file it raises
    [NotADirectoryError]; either way nothing is copied, the working
    directory is not changed, no collaborator is called and the file system
    is as it was. *)
Theorem output_path_taken (E : externals) (cmd_args : list string)
    (args : options) (w : world) (k : nat) (c : content) :
  get_options E cmd_args = Ok args ->
  List.Forall proper (Str.split "/" (out_dir args)) ->
  0 < k <= length (Str.split "/" (out_dir args)) ->
  fs_lookup (cwd w ++ take k (Str.split "/" (out_dir args))) (fs w) = Some (File c) ->
  exists w',
    main E cmd_args w
    = (Raise (if decide (k = length (Str.split "/" (out_dir args)))
              then FileExistsError else NotADirectoryError), w') /\
    fs w' = fs w /\ cwd w' = cwd w /\
    trace w' = trace w ++ (if profiling args then [EvProfiler true] else []).
Proof.
  intros Hparse Hprop [Hk0 Hk] Hfile.
  pose proof (resolve_proper (cwd w) _ Hprop) as Hres.
  assert (out_dir args <> "") as Hout.
  { intros Heq. rewrite Heq in Hprop. inversion Hprop as [|? ? [Hne _] _]. done. }
  set (comps := Str.split "/" (out_dir args)) in *.
  assert (fs_makedirs (cwd w ++ comps) (fs w) = None) as Hmk.
  { rewrite <- (take_drop k comps), app_assoc.
    by apply (fs_makedirs_under_file c). }
  assert (match fs_lookup (cwd w ++ comps) (fs w) with
          | Some (File _) => Raise (A := unit) FileExistsError
          | _ => Raise NotADirectoryError
          end
          = Raise (if decide (k = length comps)
                   then FileExistsError else NotADirectoryError)) as Herr.
  { destruct (decide (k = length comps)) as [->|Hne].
    - rewrite firstn_all in Hfile. by rewrite Hfile.
    - rewrite <- (take_drop k comps), app_assoc.
      rewrite (fs_lookup_under_file c); [done | done |].
      intros Hnil. apply (f_equal length) in Hnil.
      rewrite length_drop in Hnil. simpl in Hnil. lia. }
  assert (forall tr,
            os_makedirs (out_dir args) (mkWorld (fs w) (cwd w) tr)
            = (Raise (if decide (k = length comps)
                      then FileExistsError else NotADirectoryError),
               mkWorld (fs w) (cwd w) tr)) as Hrun.
  { intros tr. unfold os_makedirs. simpl. rewrite decide_False by done.
    rewrite Hres, Hmk, <- Herr.
    by destruct (fs_lookup (cwd w ++ comps) (fs w)) as [[|]|]. }
  unfold main. rewrite Hparse. cbv zeta. rewrite bind_unfold.
  destruct w as [n d t]. simpl in Hrun.
  destruct (profiling args); simpl; rewrite bind_unfold, Hrun;
    (eexists; split; [reflexivity|]); simpl; by rewrite ?app_nil_r.
Qed.

Lemma output_path_taken_witness :
  (exists w',
     main (Demo.tools 0 false) ["--osm"; "town.osm"; "--out"; "town.osm"] Demo.checkout
     = (Raise FileExistsError, w') /\
     fs w' = fs Demo.checkout /\ cwd w' = cwd Demo.checkout /\
     trace w' = []) /\
  (exists w',
     main (Demo.tools 0 false) ["--osm"; "town.osm"; "--out"; "town.osm/out"]
       Demo.checkout
     = (Raise NotADirectoryError, w') /\
     fs w' = fs Demo.checkout /\ cwd w' = cwd Demo.checkout /\
     trace w' = []).
Proof.
  split.
  - apply (output_path_taken (Demo.tools 0 false)
             ["--osm"; "town.osm"; "--out"; "town.osm"]
             (mkOptions "town.osm" "town.osm" false false) Demo.checkout 1 (Blob "osm")).
    + reflexivity.
    + repeat constructor; discriminate.
    + simpl. lia.
    + reflexivity.
  - apply (output_path_taken (Demo.tools 0 false)
             ["--osm"; "town.osm"; "--out"; "town.osm/out"]
             (mkOptions "town.osm" "town.osm/out" false false) Demo.checkout 1
             (Blob "osm")).
    + reflexivity.
    + repeat constructor; discriminate.
    + simpl. lia.
    + reflexivity.
Defined.

(** ** The record of a run *)

Lemma records_ret {A : Type} (a : A) : records (mret a) [].
Proof. intros w. exists []. simpl. rewrite app_nil_r. by repeat split. Qed.

Lemma records_bind {A B : Type} (m : M A) (k : A -> M B) l1 l2 :
  records m l1 -> (forall a, records (k a) l2) -> records (m ≫= k) (l1 ++ l2).
Proof.
  intros Hm Hk w. rewrite bind_unfold.
  destruct (Hm w) as (evs1 & Ht1 & Hp1 & Hok1).
  destruct (m w) as [[a|e] w1]; simpl in *.
  - destruct (Hk a w1) as (evs2 & Ht2 & Hp2 & Hok2).
    exists (evs1 ++ evs2). rewrite Ht2, Ht1, (Hok1 a eq_refl).
    split; [by rewrite app_assoc|]. split; [by apply prefix_app|].
    intros b Hb. by rewrite (Hok2 b Hb).
  - exists evs1. split; [done|]. split; [by apply prefix_app_r | done].
Qed.

Lemma records_eq {A : Type} (m : M A) l l' : records m l -> l = l' -> records m l'.
Proof. by intros H <-. Qed.

(** A step that raises and records nothing, or records one event. *)
Lemma records_step {A : Type} (m : M A) ev :
  (forall w, (exists e, m w = (Raise e, w)) \/ trace (m w).2 = trace w ++ [ev]) ->
  records m [ev].
Proof.
  intros H w. destruct (H w) as [[e He]|Ht].
  - exists []. rewrite He. simpl. rewrite app_nil_r.
    split; [done|]. split; [apply prefix_nil | done].
  - exists [ev]. by repeat split.
Qed.

Lemma records_emit ev : records (emit ev) [ev].
Proof. apply records_step. intros w. by right. Qed.

Lemma records_when b (m : M unit) l :
  records m l -> records (when b m) (if b then l else []).
Proof. intros H. destruct b; [done | apply records_ret]. Qed.

Lemma records_os_makedirs p : records (os_makedirs p) [EvMakedirs p].
Proof.
  apply records_step. intros w.
  destruct (os_makedirs_cases p w) as [H|(n & _ & ->)]; [by left | by right].
Qed.

Lemma records_shutil_copy src dst : records (shutil_copy src dst) [EvCopy src dst].
Proof.
  apply records_step. intros w.
  destruct (shutil_copy_cases src dst w) as [H|(c & n & _ & _ & _ & _ & ->)];
    [by left | by right].
Qed.

Lemma records_os_chdir p : records (os_chdir p) [EvChdir p].
Proof.
  apply records_step. intros w.
  destruct (os_chdir_cases p w) as [H| ->]; [by left | by right].
Qed.

Lemma records_os_listdir : records os_listdir [EvListdir].
Proof.
  apply records_step. intros w. unfold os_listdir.
  destruct (fs_lookup _ _) as [[|]|]; try (left; by eexists). by right.
Qed.

Lemma records_xml_parse file : records (xml_parse file) [EvParse file].
Proof.
  apply records_step. intros w.
  destruct (xml_parse_cases file w) as [H|(root & ->)]; [by left | by right].
Qed.

Lemma records_xml_write file root : records (xml_write file root) [EvWrite file].
Proof.
  apply records_step. intros w.
  destruct (xml_write_cases file root w) as [H|(n & _ & _ & ->)];
    [by left | by right].
Qed.

Lemma records_subprocess_call E argv : records (subprocess_call E argv) [EvSpawn argv].
Proof.
  apply records_step. intros w. unfold subprocess_call.
  destruct (spawn E argv (cwd w) (fs w)) as [[status n]|];
    [by right | left; by eexists].
Qed.

Lemma records_call_main module tool args :
  records (call_main module tool args) [EvMain module args].
Proof.
  apply records_step. intros w. right. unfold call_main.
  by destruct (tool args (cwd w) (fs w)) as [[r d] n].
Qed.

Ltac records_body :=
  repeat first
    [ apply records_when
    | apply records_emit
    | apply records_os_makedirs
    | apply records_shutil_copy
    | apply records_os_chdir
    | apply records_os_listdir
    | apply records_xml_parse
    | apply records_xml_write
    | apply records_subprocess_call
    | apply records_call_main
    | apply records_ret
    | eapply records_bind; [|intros ?] ].

(** A run of [main] records the script, or an initial segment of it when it
    raises. *)
Lemma main_records E cmd_args args :
  get_options E cmd_args = Ok args -> records (main E cmd_args) (script args).
Proof.
  intros Hparse. unfold main. rewrite Hparse. cbv zeta. unfold_script.
  eapply records_eq; [records_body|].
  unfold script, initialisation, closing. by destruct (profiling args).
Qed.

Lemma stage_events_app tr1 tr2 :
  stage_events (tr1 ++ tr2) = stage_events tr1 ++ stage_events tr2.
Proof. apply List.filter_app. Qed.

Lemma stage_events_prefix tr1 tr2 :
  tr1 `prefix_of` tr2 -> stage_events tr1 `prefix_of` stage_events tr2.
Proof. intros [k ->]. rewrite stage_events_app. by apply prefix_app_r. Qed.

Lemma stage_events_script args : stage_events (script args) = pipeline args.
Proof. unfold script, initialisation. by destruct (profiling args). Qed.

(** ** The end of a run *)

Lemma bind_ok_inv {A B : Type} (m : M A) (k : A -> M B) w b w' :
  (m ≫= k) w = (Ok b, w') -> exists a w1, m w = (Ok a, w1) /\ k a w1 = (Ok b, w').
Proof.
  rewrite bind_unfold. destruct (m w) as [[a|e] w1]; [|done].
  intros H. by exists a, w1.
Qed.

(** What a rewriter that returns has found and done. *)
Lemma rewriter_ok_inv w w' :
  _add_rou_to_default_sumocfg w = (Ok tt, w') ->
  exists items doc n,
    listing w = Some items /\
    fs_lookup (cwd w ++ [DEFAULT_SUMOCFG]) (fs w) = Some (File (XmlDoc doc)) /\
    fs_put (cwd w ++ [DEFAULT_SUMOCFG])
      (File (XmlDoc (set_route_files (route_files_value items) doc))) (fs w) = Some n /\
    fs w' = n /\ cwd w' = cwd w.
Proof.
  unfold _add_rou_to_default_sumocfg. intros H.
  apply bind_ok_inv in H as (items & w1 & Hlist & H).
  apply bind_ok_inv in H as (doc & w2 & Hparse & H).
  unfold os_listdir in Hlist.
  destruct (fs_lookup (cwd w) (fs w)) as [[|es]|] eqn:Hcwd; try done.
  injection Hlist as <- <-.
  assert ((xml_parse DEFAULT_SUMOCFG
             (mkWorld (fs w) (cwd w) (trace w ++ [EvListdir]))).1 = Ok doc) as Hp
    by (by rewrite Hparse).
  rewrite (xml_parse_ok _ _ _ Hp) in Hparse. injection Hparse as <-.
  apply xml_parse_inv in Hp as [_ Hdoc]. simpl in Hdoc.
  change (resolve (cwd w) DEFAULT_SUMOCFG) with (cwd w ++ [DEFAULT_SUMOCFG]) in Hdoc.
  destruct (xml_write_cases DEFAULT_SUMOCFG
              (set_route_files (route_files_value (map fst es)) doc)
              (mkWorld (fs w) (cwd w)
                 ((trace w ++ [EvListdir]) ++ [EvParse DEFAULT_SUMOCFG])))
    as [[e He]|(n & _ & Hn & Hw)].
  - rewrite He in H. discriminate H.
  - rewrite Hw in H. injection H as <-. simpl in Hn.
    change (resolve (cwd w) DEFAULT_SUMOCFG) with (cwd w ++ [DEFAULT_SUMOCFG]) in Hn.
    exists (map fst es), doc, n. unfold listing. rewrite Hcwd. by repeat split.
Qed.

(** The last part of [main]: the rewriter, the simulator, the closing of
    the profiler.  When it returns, the simulator has been started on the
    file system the rewriter left. *)
Lemma finale_against_final_configuration E b w w' :
  (invoke add_rou_to_default_sumocfg _add_rou_to_default_sumocfg ;;
   invoke call_sumo (_call_sumo E) ;;
   when b (emit (EvProfiler false) ;; emit EvPrint) ;;
   logging_info "Done.") w = (Ok tt, w') ->
  against_final_configuration E w'.
Proof.
  intros H.
  apply bind_ok_inv in H as ([] & w2 & Hrw & H).
  apply bind_ok_inv in H as ([] & w3 & Hsumo & H).
  unfold invoke in Hrw, Hsumo.
  apply bind_ok_inv in Hrw as ([] & w1 & Hemit & Hrw).
  injection Hemit as <-.
  apply rewriter_ok_inv in Hrw as (items & doc & n & Hl & Hf & Hn & Hfs & Hcwd).
  simpl in Hl, Hf, Hn, Hcwd. unfold listing in Hl. simpl in Hl.
  apply bind_ok_inv in Hsumo as ([] & w2' & Hemit & Hsumo).
  injection Hemit as <-.
  unfold _call_sumo in Hsumo.
  apply bind_ok_inv in Hsumo as (status & w4 & Hspawn & Hret).
  injection Hret as ->.
  unfold subprocess_call in Hspawn. simpl in Hspawn.
  destruct (spawn E sumo_options (cwd w2) (fs w2)) as [[st n']|] eqn:Hs; [|done].
  injection Hspawn as -> <-.
  assert (fs w' = n' /\ cwd w' = cwd w2) as [Hfs' Hcwd'].
  { destruct b; simpl in H; by injection H as <-. }
  exists n, items, doc, status. rewrite Hcwd', Hcwd, Hfs'.
  split; [|split].
  - rewrite (fs_put_names _ _ _ _ _ (cwd w) Hf Hn). unfold names_at.
    destruct (fs_lookup (cwd w) (fs w)) as [[|es]|]; try done.
  - by apply (fs_lookup_put_eq _ _ _ _ Hn).
  - by rewrite <- Hcwd, <- Hfs.
Qed.

(** A run of [main] that returns has gone through that last part. *)
Lemma main_finale E cmd_args args w w' :
  get_options E cmd_args = Ok args ->
  main E cmd_args w = (Ok tt, w') ->
  exists w1,
    (invoke add_rou_to_default_sumocfg _add_rou_to_default_sumocfg ;;
     invoke call_sumo (_call_sumo E) ;;
     when (profiling args) (emit (EvProfiler false) ;; emit EvPrint) ;;
     logging_info "Done.") w1 = (Ok tt, w').
Proof.
  intros Hparse H. unfold main in H. rewrite Hparse in H. cbv zeta in H.
  repeat lazymatch type of H with
         | (invoke add_rou_to_default_sumocfg _ ≫= _) _ = _ => fail
         | (_ ≫= _) _ = _ => apply bind_ok_inv in H as (? & ? & _ & H)
         end.
  by eexists.
Qed.



(** X14: the profiler's events stand at the two ends of a run that returns
    and nowhere else.  What such a run records is: [profiler.enable()]
    when profiling is on and nothing when it is off; then events none of
    which is the profiler's; then, when profiling is on,
    [profiler.disable()] and the printed report; and last the log line
    [Done.]. *)
Theorem return_closes_profiler (E : externals) (cmd_args : list string)
    (args : options) (w : world) :
  get_options E cmd_args = Ok args ->
  (main E cmd_args w).1 = Ok tt ->
  exists body,
    trace (main E cmd_args w).2
    = trace w ++ (if profiling args then [EvProfiler true] else []) ++ body ++
      (if profiling args then [EvProfiler false; EvPrint] else []) ++ [EvLog "Done."] /\
    Forall (fun ev => profiler_event ev = false) body.
Proof.
  intros Hparse Hret.
  destruct (main_records E cmd_args args Hparse w) as (evs & Ht & _ & Hok).
  rewrite Ht, (Hok tt Hret).
  exists ([EvMakedirs (out_dir args); EvCopy (osm_file args) (out_dir args)] ++
          map (fun t => EvCopy ("defaults/" +:+ t) (out_dir args)) templates ++
          [EvChdir (out_dir args)] ++ workflow args).
  split.
  - unfold script, initialisation, closing. by rewrite <- !app_assoc.
  - repeat constructor.
Qed.

Lemma return_closes_profiler_witness :
  (exists body,
     trace (main (with_profiling true (Demo.tools 0 false)) Demo.argv Demo.checkout).2
     = [EvProfiler true] ++ body ++ [EvProfiler false; EvPrint; EvLog "Done."] /\
     Forall (fun ev => profiler_event ev = false) body) /\
  (exists body,
     trace (main (with_profiling false (Demo.tools 0 false)) Demo.argv Demo.checkout).2
     = body ++ [EvLog "Done."] /\
     Forall (fun ev => profiler_event ev = false) body).
Proof.
  split.
  - apply (return_closes_profiler (with_profiling true (Demo.tools 0 false)) Demo.argv
             (mkOptions "town.osm" "out" true false) Demo.checkout).
    + reflexivity.
    + vm_compute. reflexivity.
  - apply (return_closes_profiler (with_profiling false (Demo.tools 0 false)) Demo.argv
             (mkOptions "town.osm" "out" false false) Demo.checkout).
    + reflexivity.
    + vm_compute. reflexivity.
Defined.
